(** * CapIoT: the experiment orchestration engine, embedded in Rocq

    A shallow embedding of the orchestration core of CapIoT
    (src/capiot): the process handle and bounded command runner
    (utils/process_handler.py), the timing source (utils/sleep_times.py),
    the experiment context and its ledger (context.py), the runner
    registry and dispatcher (runners/__init__.py), the per-iteration
    phase loops and the [run] methods of the four runners (Android LAN and
    WAN, iOS WAN and LAN), and the adb helpers of communication/android.py.

    Python code that raises is modelled in an exception-and-state monad.
    Everything outside the orchestration core (the operating system, adb,
    ssh, the file system, the YAML parser, the operator) is reached through
    named external calls; an environment answers each call, as a function
    of the call and of the history of calls made so far, either with a
    value or with an exception.  Every call is recorded in a trace together
    with its answer, so that ordering and cleanup properties can be stated
    on the trace.  Informational logging ([logger.info], [logger.debug])
    has no effect on control flow and is left out; [logger.error] and
    [logger.warning] are recorded in the trace, with abbreviated text.
    The status lines of [print_status_msg] are modelled: printing can fail.

    The development has three parts: the embedding of the code, module by
    module; the vocabulary in which the properties are stated (predicates
    on traces and worlds, concrete environments and scenarios); and the
    properties with their proofs. *)

From Stdlib Require Import ZArith List String Ascii Bool Lia QArith DecimalString.
From stdpp Require Import gmap strings.
Import ListNotations.
Open Scope string_scope.
Open Scope list_scope.
Open Scope Z_scope.

(** ** Python values and exceptions *)

(** A Python float, carried by its exact value.  The code below compares
    floats for equality and passes timing values through; the one place
    where it makes a float, [float(int)], rounds to binary64 (see
    [nearest_binary64]). *)
Inductive pyfloat : Type :=
| FFinite (q : Q)
| FInf (negative : bool)
| FNan.

(** [a == b] on floats. *)
Definition float_eqb (a b : pyfloat) : bool :=
  match a, b with
  | FFinite x, FFinite y => Qeq_bool x y
  | FInf s, FInf t => Bool.eqb s t
  | _, _ => false
  end.

(** [str(i)] for an int. *)
Definition str_of_int (z : Z) : string := NilZero.string_of_int (Z.to_int z).

(** The line feed character, as a string. *)
Definition nl : string := String (ascii_of_nat 10) EmptyString.

(** The exception classes the modelled code raises or meets.  All of them
    derive from [Exception], so that [except Exception] catches each.
    [KeyboardInterrupt] and [SystemExit], which it does not catch, are not
    modelled: the properties below are about executions in which neither
    occurs. *)
Inductive exn : Type :=
| AttributeError
| TypeError
| IndexError
| ValueError (msg : string)
| OverflowError
| OSError (msg : string)
| FileNotFoundError
| PermissionError
| ProcessLookupError
| RuntimeError (msg : string)
| YAMLError
| SshError (msg : string)
| IptablesError (msg : string)
| TimeoutExpired (cmd : list string) (timeout : option Q)
                 (output stderr : option string)
| CalledProcessError (returncode : Z) (cmd : list string)
                     (output stderr : option string)
| RunnerNotFoundError (msg : string)
| RunnerAmbiguousError (msg : string)
| ExperimentError (cause : exn).

(** [isinstance(e, OSError)]. *)
Definition is_OSError (e : exn) : bool :=
  match e with
  | OSError _ | FileNotFoundError | PermissionError | ProcessLookupError => true
  | _ => false
  end.

(** The answer of the environment to an external call. *)
Inductive Answer (A : Type) : Type :=
| Returns (a : A)
| Raises (e : exn).
Arguments Returns {A} a.
Arguments Raises {A} e.

(** The outcome of a computation.  [OutOfFuel] stands for a loop that is
    still waiting for the operator when the fuel given to it is spent; it
    is not an exception and no handler catches it. *)
Inductive Result (A : Type) : Type :=
| Ok (a : A)
| Raise (e : exn)
| OutOfFuel.
Arguments Ok {A} a.
Arguments Raise {A} e.
Arguments OutOfFuel {A}.

(** ** Configuration and context records (config.py, context.py) *)

Definition Path := string.

(** [p / name] of pathlib, for a relative [name]. *)
Definition path_join (p : Path) (name : string) : Path := p +:+ "/" +:+ name.

(** The part of a path before its last ["/"], if it has one. *)
Fixpoint before_last_slash (p : Path) : option Path :=
  match p with
  | EmptyString => None
  | String c rest =>
      match before_last_slash rest with
      | Some pre => Some (String c pre)
      | None => if Ascii.eqb c "/"%char then Some EmptyString else None
      end
  end.

(** [p.parent] of pathlib, for a path in pathlib's normal form (no
    trailing or doubled ["/"]): the path without its last component,
    ["."] for a relative path of one component, ["/"] for the root and
    its children. *)
Definition parent (p : Path) : Path :=
  match before_last_slash p with
  | None => "."
  | Some EmptyString => "/"
  | Some pre => pre
  end.

Record SshConnectionConfig := {
  host : string;
  username : string;
  port : Z
}.

Record AndroidConfig := {
  pcapdroid_api_key : string;
  pcap_download_path : Path;
  bluetooth_log_path : Path
}.

Record iOSConfig := {
  ssh : SshConnectionConfig;
  phone_pcap_save_path : Path
}.

(** [LanProfileConfig] and [WANProfileConfig] in one record: a field that a
    profile or platform does not carry is [None], and reading it raises
    [AttributeError]. *)
Record AppConfig := {
  platform : string;
  network_profile : string;
  server_interface : string;
  phone_interface : string;
  frida_iterations : Z;
  no_frida_iterations : Z;
  iptables_script_up_path : Path;
  iptables_script_down_path : Path;
  android : option AndroidConfig;
  ios : option iOSConfig;
  remote_server_ssh : option SshConnectionConfig;
  remote_server_interface : option string
}.

Record ExperimentContext := {
  package_name : string;
  phone_id : string;
  device_name : string;
  config : AppConfig;
  experiment_path : Path
}.

(** ** Process handles *)

Record ProcessHandle := { pid : Z }.

Inductive Signal := SIGTERM | SIGKILL.

(** ** Parsed YAML documents

    What [yaml.safe_load] returns.  A mapping lists its items in iteration
    order, each key by its [str()] image (the only use the timing source
    makes of a key).  [YOther] stands for the remaining Python objects the
    safe loader builds (dates, bytes, sets), with their truth value. *)
#[local] Set Warnings "-register-all".
Inductive yaml : Type :=
| YNull
| YBool (b : bool)
| YInt (z : Z)
| YFloat (f : pyfloat)
| YStr (s : string)
| YSeq (items : list yaml)
| YMap (items : list (string * yaml))
| YOther (truth : bool).

(** ** External calls *)

Inductive Call : Type :=
(* operating system and subprocess *)
| PopenSpawn (args : list string)
| PopenCommunicate (proc : Z) (timeout : option Q)
| PopenWait (proc : Z) (timeout : option Q)
| PopenTerminate (proc : Z)
| PopenKill (proc : Z)
| OsGetpgid (proc : Z)
| OsKillpg (pgid : Z) (sig : Signal)
(* file system, YAML and logging *)
| PathMkdir (p : Path)
| PathWriteText (p : Path) (text : string)
| PathStatMtime (p : Path)
| PathReadText (p : Path)
| YamlSafeLoad (text : string)
| LoggerError (msg : string)
| LoggerWarning (msg : string)
(* capture server: communication/server.py *)
| ServerStartTcpdump (interface : string) (outfile : Path)
| ServerStartMitmdump (outfile sslkey_logfile log_folder : Path) (port : Z)
| ServerStartFrida (phone package : string) (log_folder : Path)
| ServerStartObjection (udid package : string) (log_folder : Path)
| ServerResetTerminal
(* redirection rules: actions/iptables.py *)
| IptablesApplyRules (script : Path)
(* Android phone: communication/android.py *)
| AndroidStartPcapdroid (phone package dump_name interface api_key : string)
| AndroidStopPcapdroid (phone api_key : string)
| AndroidStartApp (phone package : string)
| AndroidStopApp (phone package : string)
| AndroidPullFileToServer (phone : string) (file_path destination : Path)
| AndroidDeleteFileFromPhone (phone : string) (file_path : Path)
| AndroidTriggerTaps (iteration : Z) (frida : bool)
| AndroidPullBluetoothLog (phone device : string) (experiment log : Path)
| AndroidUninstallApp (phone package : string)
| AndroidReboot (phone : string)
(* iOS phone: communication/ios.py *)
| IosStartTcpdump (cfg : SshConnectionConfig) (interface : string) (outfile : Path)
| IosStopTcpdump (cfg : SshConnectionConfig) (stop_pid : option Z)
| IosStartApp (udid package : string)
| IosStopApp
| IosTriggerTaps (iteration : Z) (frida : bool)
(* remote hosts: communication/ssh.py *)
| SshCreateFolder (cfg : SshConnectionConfig) (p : Path)
| SshStartRemoteTcpdump (cfg : SshConnectionConfig) (interface : string) (outfile : Path)
| SshStopRemoteTcpdump (cfg : SshConnectionConfig) (stop_pid : option Z)
| SshDownloadRemoteFile (cfg : SshConnectionConfig) (remote_path local_path : Path)
(* timing and the operator *)
| SleepTimesGet (key : string) (default : Z)
| TimeSleep (seconds : pyfloat)
| PromptUser (prompt : string)
| TyperEcho (msg : string)
| Print (msg : string).

(** What a call returns when it does not raise.  [PopenCommunicate] returns
    the captured streams and the return code it leaves in
    [proc.returncode]. *)
Definition ret_ty (c : Call) : Type :=
  match c with
  | PopenSpawn _ => Z
  | PopenCommunicate _ _ => (string * string * Z)%type
  | PopenWait _ _ => Z
  | OsGetpgid _ => Z
  | PathStatMtime _ => pyfloat
  | PathReadText _ => string
  | YamlSafeLoad _ => yaml
  | ServerStartTcpdump _ _ => ProcessHandle
  | ServerStartMitmdump _ _ _ _ => ProcessHandle
  | ServerStartFrida _ _ _ => ProcessHandle
  | ServerStartObjection _ _ _ => ProcessHandle
  | ServerResetTerminal => ProcessHandle
  | AndroidTriggerTaps _ _ => bool
  | IosTriggerTaps _ _ => bool
  | IosStartTcpdump _ _ _ => Z
  | SshStartRemoteTcpdump _ _ _ => Z
  | SleepTimesGet _ _ => pyfloat
  | PromptUser _ => bool
  | _ => unit
  end.

(** A call as the trace records it: the call and the answer it got. *)
Record Event := { ev_call : Call; ev_answer : Answer (ret_ty ev_call) }.

(** The exception an event ended with, if any. *)
Definition ev_raised (ev : Event) : option exn :=
  match ev_answer ev with
  | Returns _ => None
  | Raises e => Some e
  end.

(** The environment: the answer to a call, given the calls made before. *)
Definition Env : Type := list Event -> forall c : Call, Answer (ret_ty c).

(** ** The ledger and the world *)

(** [defaultdict(list)]: phase name to the (iteration index, success)
    entries, in insertion order of the phases (the summary iterates
    [.items()]). *)
Definition Ledger : Type := list (string * list (Z * bool)).

(** The state a computation runs in: the trace of external calls, the
    ledger of the experiment context, and the local variables of the
    running function. *)
Record World (L : Type) := {
  trace : list Event;
  ledger : Ledger;
  locals : L
}.
Arguments trace {L} w.
Arguments ledger {L} w.
Arguments locals {L} w.

Definition log_event {L} (ev : Event) (w : World L) : World L :=
  {| trace := trace w ++ [ev]; ledger := ledger w; locals := locals w |}.

(** ** The exception-and-state monad *)

Definition M (L A : Type) : Type := World L -> Result A * World L.

Definition ret {L A} (a : A) : M L A := fun w => (Ok a, w).

Definition raise {L A} (e : exn) : M L A := fun w => (Raise e, w).

Definition bind {L A B} (m : M L A) (k : A -> M L B) : M L B :=
  fun w =>
    match m w with
    | (Ok a, w') => k a w'
    | (Raise e, w') => (Raise e, w')
    | (OutOfFuel, w') => (OutOfFuel, w')
    end.

Notation "'let*' x ':=' m 'in' k" := (bind m (fun x => k))
  (at level 10, x name, m at level 200, k at level 200,
   format "'[v' 'let*'  x  ':='  m  'in' '/' k ']'").

(** [try: m except Exception as e: h e]. *)
Definition try_except {L A} (m : M L A) (h : exn -> M L A) : M L A :=
  fun w =>
    match m w with
    | (Raise e, w') => h e w'
    | other => other
    end.

(** [try: m finally: f]: [f] runs whether [m] returned or raised; if [f]
    raises, its exception replaces the outcome of [m]. *)
Definition try_finally {L A} (m : M L A) (f : M L unit) : M L A :=
  fun w =>
    match m w with
    | (OutOfFuel, w') => (OutOfFuel, w')
    | (r, w') =>
        match f w' with
        | (Ok _, w'') => (r, w'')
        | (Raise e, w'') => (Raise e, w'')
        | (OutOfFuel, w'') => (OutOfFuel, w'')
        end
    end.

(** [pass]. *)
Definition pass {L} : M L unit := ret tt.

(** [if b: m]. *)
Definition when {L} (b : bool) (m : M L unit) : M L unit :=
  if b then m else pass.

(** Reading an attribute of a value that may be [None]. *)
Definition attr {L A} (o : option A) : M L A :=
  match o with
  | Some a => ret a
  | None => raise AttributeError
  end.

(** [p / name] where [name] may be [None]: pathlib raises [TypeError]. *)
Definition path_div {L} (p : Path) (name : option string) : M L Path :=
  match name with
  | Some n => ret (path_join p n)
  | None => raise TypeError
  end.

(** Reading and assigning the local variables of the running function. *)
Definition get_locals {L} : M L L := fun w => (Ok (locals w), w).

Definition assign {L} (f : L -> L) : M L unit :=
  fun w => (Ok tt, {| trace := trace w; ledger := ledger w; locals := f (locals w) |}).

(** A function call: the body runs with its own local variables; those
    of the caller are untouched. *)
Definition call_function {L L' A} (init : L') (body : M L' A) : M L A :=
  fun w =>
    let (r, w') := body {| trace := trace w; ledger := ledger w; locals := init |} in
    (r, {| trace := trace w'; ledger := ledger w'; locals := locals w |}).

(** [for x in xs: body x]. *)
Fixpoint for_each {L X} (xs : list X) (body : X -> M L unit) : M L unit :=
  match xs with
  | [] => pass
  | x :: rest => let* _ := body x in for_each rest body
  end.

(** [range(1, n + 1)]. *)
Definition range_from_1 (n : Z) : list Z := map Z.of_nat (seq 1 (Z.to_nat n)).

(** [logger.error] and [logger.warning]: recorded, never raising. *)
Definition log_error {L} (msg : string) : M L unit :=
  fun w => (Ok tt, log_event {| ev_call := LoggerError msg; ev_answer := Returns tt |} w).

Definition log_warning {L} (msg : string) : M L unit :=
  fun w => (Ok tt, log_event {| ev_call := LoggerWarning msg; ev_answer := Returns tt |} w).

(** Performing an external call: ask the environment, record the event. *)
Definition call {L} (env : Env) (c : Call) : M L (ret_ty c) :=
  fun w =>
    let a := env (trace w) c in
    (match a with Returns v => Ok v | Raises e => Raise e end,
     log_event {| ev_call := c; ev_answer := a |} w).

(** ** actions/user_interaction.py

    [prompt_user], with its handling of the end of input, is the call
    [PromptUser]. *)

Module user_interaction.
Section WithEnv.
Variable env : Env.

(** [print_status_msg(msg)]: [typer.echo(msg)], and [print(msg)] when that
    raised. *)
Definition print_status_msg {L} (msg : string) : M L unit :=
  try_except (call env (TyperEcho msg)) (fun _ => call env (Print msg)).

(** [while not prompt_user(prompt): body]: the operator is asked until the
    answer is yes; [fuel] bounds the number of questions of the model. *)
Fixpoint ask_until_yes {L} (fuel : nat) (prompt : string) (body : M L unit) : M L unit :=
  match fuel with
  | O => fun w => (OutOfFuel, w)
  | S n =>
      let* yes := call env (PromptUser prompt) in
      if yes then pass else let* _ := body in ask_until_yes n prompt body
  end.

End WithEnv.
End user_interaction.

(** ** utils/process_handler.py *)

Module process_handler.
Section WithEnv.
Variable env : Env.

(** [ProcessHandle.terminate]. *)
Definition terminate {L} (h : ProcessHandle) : M L unit :=
  try_except
    (let* pg := call env (OsGetpgid (pid h)) in call env (OsKillpg pg SIGTERM))
    (fun _ => try_except (call env (PopenTerminate (pid h))) (fun _ => pass)).

(** [ProcessHandle.kill_tree]. *)
Definition kill_tree {L} (h : ProcessHandle) : M L unit :=
  try_except
    (let* pg := call env (OsGetpgid (pid h)) in call env (OsKillpg pg SIGKILL))
    (fun _ => try_except (call env (PopenKill (pid h))) (fun _ => pass)).

(** [run_local]: spawn a long-running process in its own session. *)
Definition run_local {L} (args : list string) : M L ProcessHandle :=
  let* p := call env (PopenSpawn args) in ret {| pid := p |}.

Record CompletedProcess := {
  cp_args : list string;
  cp_returncode : Z;
  cp_stdout : option string;
  cp_stderr : option string
}.

(** The [except subprocess.TimeoutExpired as e] block of [run_and_wait]:
    group SIGTERM (falling back to the child alone), a two-second wait,
    group SIGKILL (falling back to the child alone) if that wait raised,
    a one-second read of the output, and the [TimeoutExpired] raised to
    the caller. *)
Definition on_timeout {L} (args : list string) (timeout : option Q) (proc : Z)
    (e_output e_stderr : option string)
    : M L (option string * option string * Z) :=
  let* _ := log_error "Timeout. Terminating group" in
  let* _ := try_except
      (let* pg := call env (OsGetpgid proc) in call env (OsKillpg pg SIGTERM))
      (fun _ => try_except (call env (PopenTerminate proc)) (fun _ => pass)) in
  let* _ := try_except
      (let* _ := call env (PopenWait proc (Some 2%Q)) in pass)
      (fun _ => try_except
         (let* pg := call env (OsGetpgid proc) in call env (OsKillpg pg SIGKILL))
         (fun _ => try_except (call env (PopenKill proc)) (fun _ => pass))) in
  let* out := try_except
      (let* r := call env (PopenCommunicate proc (Some 1%Q)) in
       ret (Some (fst (fst r)), Some (snd (fst r))))
      (fun _ => ret (e_output, e_stderr)) in
  raise (TimeoutExpired args timeout (fst out) (snd out)).

(** [run_and_wait(args, timeout=..., check=...)]. *)
Definition run_and_wait {L} (args : list string) (timeout : option Q)
    (check : bool) : M L CompletedProcess :=
  let* proc := call env (PopenSpawn args) in
  let* r := try_except
      (let* r := call env (PopenCommunicate proc timeout) in
       ret (Some (fst (fst r)), Some (snd (fst r)), snd r))
      (fun e =>
         match e with
         | TimeoutExpired _ _ e_output e_stderr =>
             on_timeout args timeout proc e_output e_stderr
         | _ => raise e
         end) in
  let stdout := fst (fst r) in
  let stderr := snd (fst r) in
  let returncode := snd r in
  if check && negb (returncode =? 0) then
    let* _ := log_error "Command failed" in
    raise (CalledProcessError returncode args stdout stderr)
  else
    ret {| cp_args := args; cp_returncode := returncode;
           cp_stdout := stdout; cp_stderr := stderr |}.

End WithEnv.
End process_handler.

(** ** utils/sleep_times.py *)

Module sleep_times.

(** [_Cache]: [parsed_values] is [None] until a first load. *)
Record _Cache := {
  last_modified_time : pyfloat;
  parsed_values : option (gmap string pyfloat)
}.

(** [_Cache()]: the dataclass defaults. *)
Definition fresh_cache : _Cache :=
  {| last_modified_time := FFinite (-1 # 1); parsed_values := None |}.

(** [_Cache(last_modified_time=-1.0, parsed_values={})]. *)
Definition empty_cache : _Cache :=
  {| last_modified_time := FFinite (-1 # 1); parsed_values := Some ∅ |}.

(** A [SleepTimes] object.  Its lock is not modelled: the orchestrator is
    single-threaded. *)
Record SleepTimes := {
  path : option Path;
  _cache : _Cache
}.

(** [SleepTimes(path)]. *)
Definition init (p : option Path) : SleepTimes :=
  {| path := p; _cache := fresh_cache |}.

(** Python truth value of a parsed document, as [x or {}] tests it. *)
Definition truthy (v : yaml) : bool :=
  match v with
  | YNull => false
  | YBool b => b
  | YInt z => negb (z =? 0)
  | YFloat (FFinite q) => negb (Qeq_bool q 0)
  | YFloat _ => true
  | YStr s => negb (String.eqb s "")
  | YSeq items => match items with [] => false | _ => true end
  | YMap items => match items with [] => false | _ => true end
  | YOther t => t
  end.

(** [isinstance(value, (int, float))]; [bool] is a subclass of [int]. *)
Definition is_number (v : yaml) : bool :=
  match v with
  | YBool _ | YInt _ | YFloat _ => true
  | _ => false
  end.

(** The integer nearest to [z] that has at most 53 significant bits, ties
    going to the even significand: the value of [float(z)] when it is
    finite. *)
Definition nearest_binary64 (z : Z) : Z :=
  let a := Z.abs z in
  let bits := Z.log2 a + 1 in
  if bits <=? 53 then z
  else
    let shift := bits - 53 in
    let q := Z.shiftr a shift in
    let r := Z.land a (Z.ones shift) in
    let half := Z.shiftl 1 (shift - 1) in
    let q' := if (half <? r) || ((r =? half) && Z.odd q) then q + 1 else q in
    Z.sgn z * Z.shiftl q' shift.

(** [float(z)] for an int [z]: the nearest float, [OverflowError] when
    that has a magnitude of [2^1024] or more. *)
Definition float_of_int {L} (z : Z) : M L pyfloat :=
  let f := nearest_binary64 z in
  if Z.abs f <? 2 ^ 1024 then ret (FFinite (inject_Z f))
  else raise OverflowError.

(** [float(value)] for a value that passed [is_number]. *)
Definition float_of_number {L} (v : yaml) : M L pyfloat :=
  match v with
  | YBool b => ret (FFinite (if b then 1 else 0)%Q)
  | YInt z => float_of_int z
  | YFloat f => ret f
  | _ => raise TypeError
  end.

(** The loop over [raw.items()] that fills [parsed]. *)
Fixpoint parse_items {L} (items : list (string * yaml))
    (parsed : gmap string pyfloat) : M L (gmap string pyfloat) :=
  match items with
  | [] => ret parsed
  | (key, value) :: rest =>
      if negb (is_number value) then
        raise (ValueError "Sleep time must be a number of seconds")
      else
        let* f := float_of_number value in
        parse_items rest (<[key := f]> parsed)
  end.

Section WithEnv.
Variable env : Env.

(** [SleepTimes._load_if_file_changed]: returns the object as the method
    leaves it.  When the method raises, it has assigned nothing. *)
Definition _load_if_file_changed {L} (self : SleepTimes) : M L SleepTimes :=
  match path self with
  | None =>
      match parsed_values (_cache self) with
      | None => ret {| path := path self; _cache := empty_cache |}
      | Some _ => ret self
      end
  | Some p =>
      let* stat := try_except
          (let* t := call env (PathStatMtime p) in ret (Some t))
          (fun e =>
             match e with
             | FileNotFoundError => ret None
             | _ => raise e
             end) in
      match stat with
      | None =>
          let* _ :=
            when (match parsed_values (_cache self) with None => true | Some _ => false end
                  || negb (float_eqb (last_modified_time (_cache self)) (FFinite (-1 # 1))))
                 (log_warning "SleepTimes file not found (defaults will be used)") in
          ret {| path := path self; _cache := empty_cache |}
      | Some current_modified_time =>
          if float_eqb current_modified_time (last_modified_time (_cache self))
             && match parsed_values (_cache self) with Some _ => true | None => false end
          then ret self
          else
            let* raw_text := call env (PathReadText p) in
            let* loaded := call env (YamlSafeLoad raw_text) in
            let raw := if truthy loaded then loaded else YMap [] in
            match raw with
            | YMap items =>
                let* parsed := parse_items items ∅ in
                ret {| path := path self;
                       _cache := {| last_modified_time := current_modified_time;
                                    parsed_values := Some parsed |} |}
            | _ => raise (ValueError "Sleep times file must be a mapping")
            end
      end
  end.

(** [SleepTimes.get(key, default)]: the value, and the object as the call
    leaves it. *)
Definition get {L} (self : SleepTimes) (key : string) (default : pyfloat)
    : M L (pyfloat * SleepTimes) :=
  let* self' := _load_if_file_changed self in
  let data : gmap string pyfloat :=
    match parsed_values (_cache self') with
    | Some d => d
    | None => ∅
    end in
  ret (match data !! key with Some v => v | None => default end, self').

End WithEnv.
End sleep_times.

(** ** String helpers for Python formatting *)

(** A string of [n] spaces. *)
Fixpoint spaces (n : nat) : string :=
  match n with
  | O => ""
  | S k => String " "%char (spaces k)
  end.

(** The format spec [{s:Ns}]: left-justified in a field of [width]. *)
Definition ljust (s : string) (width : nat) : string :=
  s +:+ spaces (width - String.length s).

(** The format spec [{n:Nd}]: right-justified in a field of [width]. *)
Definition rjust_int (z : Z) (width : nat) : string :=
  let s := str_of_int z in spaces (width - String.length s) +:+ s.

(** [sep.join(parts)]. *)
Definition join (sep : string) (parts : list string) : string :=
  String.concat sep parts.

(** [needle in hay]. *)
Fixpoint contains (needle hay : string) : bool :=
  String.prefix needle hay
  || match hay with
     | EmptyString => false
     | String _ rest => contains needle rest
     end.

(** Python's [\s] on the characters that occur here: space, tab, line
    feed, vertical tab, form feed, carriage return. *)
Definition is_space (c : ascii) : bool :=
  let n := nat_of_ascii c in
  ((n =? 32) || ((9 <=? n) && (n <=? 13)))%nat.

(** [re.sub(r"\s+", "", s)]. *)
Fixpoint remove_whitespace (s : string) : string :=
  match s with
  | EmptyString => EmptyString
  | String c rest =>
      if is_space c then remove_whitespace rest
      else String c (remove_whitespace rest)
  end.

(** ** context.py: the ledger and its summary *)

Module context.

(** [self._iteration_results[phase].append(entry)] on a [defaultdict(list)]:
    a phase seen for the first time is added after the phases already
    there. *)
Fixpoint ledger_append (l : Ledger) (phase : string) (entry : Z * bool) : Ledger :=
  match l with
  | [] => [(phase, [entry])]
  | (p, results) :: rest =>
      if String.eqb p phase then (p, results ++ [entry]) :: rest
      else (p, results) :: ledger_append rest phase entry
  end.

(** [ExperimentContext.record_iteration_result]. *)
Definition record_iteration_result {L} (phase : string) (iteration_index : Z)
    (success : bool) : M L unit :=
  fun w =>
    (Ok tt, {| trace := trace w;
               ledger := ledger_append (ledger w) phase (iteration_index, success);
               locals := locals w |}).

(** The entries of a phase; none when the phase was never recorded. *)
Fixpoint ledger_get (l : Ledger) (phase : string) : list (Z * bool) :=
  match l with
  | [] => []
  | (p, results) :: rest =>
      if String.eqb p phase then results else ledger_get rest phase
  end.

(** [[idx for idx, ok in results if not ok]]. *)
Definition failed_indices (results : list (Z * bool)) : list Z :=
  map fst (List.filter (fun r => negb (snd r)) results).

(** One line of the summary:
    [f"{phase:10s}: {success:2d} / {total:2d}{fail_str}"]. *)
Definition summary_line (phase : string) (results : list (Z * bool)) : string :=
  let total := Z.of_nat (length results) in
  let failed := failed_indices results in
  let success := total - Z.of_nat (length failed) in
  let fail_str :=
    match failed with
    | [] => ""
    | _ => " failed: (" +:+ join ", " (map str_of_int failed) +:+ ")"
    end in
  ljust phase 10 +:+ ": " +:+ rjust_int success 2 +:+ " / " +:+ rjust_int total 2
    +:+ fail_str.

(** The text [summarise_iterations] builds from the ledger. *)
Definition summary_text (l : Ledger) : string :=
  let lines := map (fun pr => summary_line (fst pr) (snd pr)) l in
  "Experiment summary:" +:+ nl +:+ join nl lines.

Section WithEnv.
Variable env : Env.

(** [ExperimentContext.summarise_iterations]: builds the summary, writes it
    to [experiment_summary.txt] and returns it; an [OSError] of the write
    is re-raised as [RuntimeError]. *)
Definition summarise_iterations {L} (ctx : ExperimentContext) : M L string :=
  fun w =>
    let summary := summary_text (ledger w) in
    let out := path_join (experiment_path ctx) "experiment_summary.txt" in
    (let* _ := try_except
        (call env (PathWriteText out (summary +:+ nl)))
        (fun e =>
           if is_OSError e then
             let* _ := log_error "Failed to write iteration summary" in
             raise (RuntimeError "Failed to write iteration summary")
           else raise e) in
     ret summary) w.

End WithEnv.
End context.

(** ** runners/__init__.py: registry and dispatch *)

Module runners.

(** A runner class: its identity as an object, its [__name__], and its two
    methods. *)
Record RunnerClass (L : Type) := {
  cls_id : nat;
  cls_name : string;
  can_handle : AppConfig -> bool;
  run : ExperimentContext -> M L unit
}.
Arguments cls_id {L} r.
Arguments cls_name {L} r.
Arguments can_handle {L} r cfg.
Arguments run {L} r ctx.

(** [_Entry]. *)
Record _Entry (L : Type) := {
  cls : RunnerClass L;
  name : string;
  priority : Z
}.
Arguments cls {L} _.
Arguments name {L} _.
Arguments priority {L} _.

(** [@register(name=..., priority=...)] applied to a class, on the registry
    [_REGISTRY]: appended unless the same class object is there already. *)
Definition register {L} (given_name : option string) (given_priority : Z)
    (c : RunnerClass L) (_REGISTRY : list (_Entry L)) : list (_Entry L) :=
  let n :=
    match given_name with
    | Some s => if String.eqb s "" then cls_name c else s
    | None => cls_name c
    end in
  if existsb (fun e => Nat.eqb (cls_id (cls e)) (cls_id c)) _REGISTRY then _REGISTRY
  else _REGISTRY ++ [{| cls := c; name := n; priority := given_priority |}].

(** Insertion of an entry into a list sorted by decreasing priority, before
    the entries of the same priority. *)
Fixpoint insert_desc {L} (e : _Entry L) (l : list (_Entry L)) : list (_Entry L) :=
  match l with
  | [] => [e]
  | x :: rest =>
      if priority e <? priority x then x :: insert_desc e rest
      else e :: x :: rest
  end.

(** [sorted(matches, key=lambda e: e.priority, reverse=True)]: a stable
    sort, entries of equal priority keep their order. *)
Definition sorted_desc {L} (l : list (_Entry L)) : list (_Entry L) :=
  fold_right insert_desc [] l.

(** [f"{e.name}(prio={e.priority})"]. *)
Definition describe {L} (e : _Entry L) : string :=
  name e +:+ "(prio=" +:+ str_of_int (priority e) +:+ ")".

(** [dispatch(ctx)] over the registry [_REGISTRY]. *)
Definition dispatch {L} (_REGISTRY : list (_Entry L)) (ctx : ExperimentContext)
    : M L unit :=
  let cfg := config ctx in
  let matches := List.filter (fun e => can_handle (cls e) cfg) _REGISTRY in
  match matches with
  | [] =>
      let* _ := log_error "No runner matches this configuration." in
      raise (RunnerNotFoundError "No runner matches this configuration.")
  | _ =>
      let matches_sorted := sorted_desc matches in
      let* first := match matches_sorted with
                    | e :: _ => ret e
                    | [] => raise IndexError
                    end in
      let top_priority := priority first in
      let top_candidates :=
        List.filter (fun e => priority e =? top_priority) matches_sorted in
      match top_candidates with
      | [entry] => run (cls entry) ctx
      | _ =>
          let tied := join ", " (map describe top_candidates) in
          let* _ := log_error ("Ambiguous config; multiple runners tie: " +:+ tied) in
          raise (RunnerAmbiguousError
                   ("Ambiguous config; multiple runners tie: " +:+ tied))
      end
  end.

End runners.

(** ** Helpers shared by the runners *)

(** [int(x)] for a float (used when the cool-down is printed). *)
Definition int_of_float {L} (f : pyfloat) : M L Z :=
  match f with
  | FFinite q => ret (Z.quot (Qnum q) (Z.pos (Qden q)))
  | FInf _ => raise OverflowError
  | FNan => raise (ValueError "cannot convert float NaN to integer")
  end.

(** [h.kill_tree()] on a variable that may hold [None]. *)
Definition kill_tree_of {L} (env : Env) (h : option ProcessHandle) : M L unit :=
  let* p := attr h in process_handler.kill_tree env p.

(** [if h: h.kill_tree()]. *)
Definition kill_tree_if_set {L} (env : Env) (h : option ProcessHandle) : M L unit :=
  match h with
  | Some p => process_handler.kill_tree env p
  | None => pass
  end.

(** The phase name of [_iteration_phase]. *)
Definition phase_name_of (use_frida : bool) : string :=
  if use_frida then "frida" else "no_frida".

(** [ctx.config.frida_iterations if use_frida else ctx.config.no_frida_iterations]. *)
Definition num_iterations_of (ctx : ExperimentContext) (use_frida : bool) : Z :=
  if use_frida then frida_iterations (config ctx)
  else no_frida_iterations (config ctx).

(** The loop of both [_record_setup_phase] functions:
    [while not prompt_user(...): print_status_msg(...)]. *)
Definition wait_for_setup {L} (env : Env) (fuel : nat) : M L unit :=
  user_interaction.ask_until_yes env fuel "📼 Enter 'y' when setup is finished"
    (user_interaction.print_status_msg env "⏳ Waiting for setup to finish…").

(** The loop of every [run]:
    [while not prompt_user(...): logger.info(...)]. *)
Definition wait_for_coordinates {L} (env : Env) (fuel : nat) : M L unit :=
  user_interaction.ask_until_yes env fuel
    "🧭 Enter y when you finish taking the coordinates." pass.

(** [c.upper()] on an ASCII letter; the strings it is applied to are the
    phase names. *)
Definition upper_ascii (c : ascii) : ascii :=
  let n := nat_of_ascii c in
  if ((97 <=? n) && (n <=? 122))%nat then ascii_of_nat (n - 32) else c.

(** [s.upper()]. *)
Fixpoint upper (s : string) : string :=
  match s with
  | EmptyString => EmptyString
  | String c rest => String (upper_ascii c) (upper rest)
  end.

(** [f"➡️  {phase_name.upper()} phase: {num_iterations} iterations"]. *)
Definition phase_msg (phase_name : string) (num_iterations : Z) : string :=
  "➡️  " +:+ upper phase_name +:+ " phase: " +:+ str_of_int num_iterations
    +:+ " iterations".

(** [f"  • {phase_name} iteration {i}/{num_iterations}…"]. *)
Definition iteration_msg (phase_name : string) (i num_iterations : Z) : string :=
  "  • " +:+ phase_name +:+ " iteration " +:+ str_of_int i +:+ "/"
    +:+ str_of_int num_iterations +:+ "…".

(** The status line after the taps. *)
Definition taps_msg (success : bool) : string :=
  if success then "    · ✅ Taps OK"
  else "    · ❌ Taps had mismatches - see logs/screenshots".

(** [f"    · Sleeping for {int(sleep_time)} seconds…"]. *)
Definition sleeping_msg (seconds : Z) : string :=
  "    · Sleeping for " +:+ str_of_int seconds +:+ " seconds…".

(** [f"✅ Setup phase captured. Saved to {target_dir}"]. *)
Definition setup_saved_msg (target_dir : Path) : string :=
  "✅ Setup phase captured. Saved to " +:+ target_dir.

(** [f"📜 {summary}"]. *)
Definition summary_msg (summary : string) : string := "📜 " +:+ summary.

(** [f"iteration-{i}-{phase_name}-{side}-{ctx.device_name}.pcap"]. *)
Definition pcap_name (i : Z) (phase_name side device : string) : string :=
  "iteration-" +:+ str_of_int i +:+ "-" +:+ phase_name +:+ "-" +:+ side +:+ "-"
    +:+ device +:+ ".pcap".

(** ** runners/android_lan.py *)

Module android_lan.

(** The local variables of [_iteration_phase] that outlive a statement. *)
Record Locals := {
  phone_pcap_name : option string;
  server_process : option ProcessHandle;
  mitm_process : option ProcessHandle;
  frida_process : option ProcessHandle;
  success : bool
}.

Definition initial_locals : Locals :=
  {| phone_pcap_name := None; server_process := None; mitm_process := None;
     frida_process := None; success := true |}.

Definition set_phone_pcap_name (v : option string) (l : Locals) : Locals :=
  {| phone_pcap_name := v; server_process := server_process l;
     mitm_process := mitm_process l; frida_process := frida_process l;
     success := success l |}.

Definition set_server_process (v : option ProcessHandle) (l : Locals) : Locals :=
  {| phone_pcap_name := phone_pcap_name l; server_process := v;
     mitm_process := mitm_process l; frida_process := frida_process l;
     success := success l |}.

Definition set_mitm_process (v : option ProcessHandle) (l : Locals) : Locals :=
  {| phone_pcap_name := phone_pcap_name l; server_process := server_process l;
     mitm_process := v; frida_process := frida_process l; success := success l |}.

Definition set_frida_process (v : option ProcessHandle) (l : Locals) : Locals :=
  {| phone_pcap_name := phone_pcap_name l; server_process := server_process l;
     mitm_process := mitm_process l; frida_process := v; success := success l |}.

Definition set_success (v : bool) (l : Locals) : Locals :=
  {| phone_pcap_name := phone_pcap_name l; server_process := server_process l;
     mitm_process := mitm_process l; frida_process := frida_process l;
     success := v |}.

(** [server_process = mitm_process = frida_process = None; success = True]. *)
Definition reset_iteration (l : Locals) : Locals :=
  {| phone_pcap_name := phone_pcap_name l; server_process := None;
     mitm_process := None; frida_process := None; success := true |}.

Section WithEnv.
Variable env : Env.

(** The [try] block of one iteration. *)
Definition iteration_body (ctx : ExperimentContext) (a : AndroidConfig)
    (use_frida : bool) (target_dir : Path) (i : Z) : M Locals unit :=
  let phase_name := phase_name_of use_frida in
  let cfg := config ctx in
  let* _ := when use_frida (call env (IptablesApplyRules (iptables_script_up_path cfg))) in
  let server_pcap :=
    path_join target_dir (pcap_name i phase_name "server" (device_name ctx)) in
  let* sp := call env (ServerStartTcpdump (server_interface cfg) server_pcap) in
  let* _ := assign (set_server_process (Some sp)) in
  let name := pcap_name i phase_name "phone" (device_name ctx) in
  let* _ := assign (set_phone_pcap_name (Some name)) in
  let* _ := call env (AndroidStartPcapdroid (phone_id ctx) (package_name ctx) name
                        (phone_interface cfg) (pcapdroid_api_key a)) in
  let* _ := user_interaction.print_status_msg env "    · Starting app…" in
  let* _ :=
    if use_frida then
      let log_folder := path_join (experiment_path ctx) "logs" in
      let mitm_dump_path :=
        path_join (experiment_path ctx)
          ("mitm/iteration-" +:+ str_of_int i +:+ "-mitmdump-" +:+ device_name ctx) in
      let sslkey_logfile :=
        path_join (experiment_path ctx)
          ("sslkeys/iteration-" +:+ str_of_int i +:+ "-sslkeys-" +:+ device_name ctx
             +:+ ".txt") in
      let* mp := call env (ServerStartMitmdump mitm_dump_path sslkey_logfile log_folder 8080) in
      let* _ := assign (set_mitm_process (Some mp)) in
      let* fp := call env (ServerStartFrida (phone_id ctx) (package_name ctx) log_folder) in
      assign (set_frida_process (Some fp))
    else
      call env (AndroidStartApp (phone_id ctx) (package_name ctx)) in
  let* sleep_time := call env (SleepTimesGet "start_app" 15) in
  let* _ := call env (TimeSleep sleep_time) in
  let* _ := user_interaction.print_status_msg env "    · Triggering taps on phone…" in
  let* ok := call env (AndroidTriggerTaps i use_frida) in
  let* _ := assign (set_success ok) in
  let* _ := user_interaction.print_status_msg env (taps_msg ok) in
  let* sleep_time := call env (SleepTimesGet "between_iterations" 300) in
  let* seconds := int_of_float sleep_time in
  let* _ := user_interaction.print_status_msg env (sleeping_msg seconds) in
  call env (TimeSleep sleep_time).

(** The [except Exception as ex] block of one iteration. *)
Definition iteration_except (ex : exn) : M Locals unit :=
  let* _ := assign (set_success false) in
  log_error "iteration failed".

(** The [finally] block of one iteration. *)
Definition iteration_finally (ctx : ExperimentContext) (a : AndroidConfig)
    (use_frida : bool) (target_dir : Path) (i : Z) : M Locals unit :=
  let cfg := config ctx in
  let* _ := call env (AndroidStopPcapdroid (phone_id ctx) (pcapdroid_api_key a)) in
  let* l := get_locals in
  let* _ := kill_tree_of env (server_process l) in
  let* l := get_locals in
  let* _ := kill_tree_if_set env (mitm_process l) in
  let* l := get_locals in
  let* _ := kill_tree_if_set env (frida_process l) in
  let* l := get_locals in
  let* phone_pcap_path := path_div (pcap_download_path a) (phone_pcap_name l) in
  let* destination_path := path_div target_dir (phone_pcap_name l) in
  let* _ := call env (AndroidPullFileToServer (phone_id ctx) phone_pcap_path
                        destination_path) in
  let* _ := call env (AndroidDeleteFileFromPhone (phone_id ctx) phone_pcap_path) in
  let* _ := when use_frida (call env (IptablesApplyRules (iptables_script_down_path cfg))) in
  let* _ := user_interaction.print_status_msg env "    · Stopping app…" in
  let* _ := call env (AndroidStopApp (phone_id ctx) (package_name ctx)) in
  let* sleep_time := call env (SleepTimesGet "stop_app" 15) in
  let* _ := call env (TimeSleep sleep_time) in
  let* l := get_locals in
  context.record_iteration_result (phase_name_of use_frida) i (success l).

(** One pass through the body of the [for] loop. *)
Definition iteration (ctx : ExperimentContext) (a : AndroidConfig)
    (use_frida : bool) (target_dir : Path) (i : Z) : M Locals unit :=
  let* _ := user_interaction.print_status_msg env
              (iteration_msg (phase_name_of use_frida) i (num_iterations_of ctx use_frida)) in
  let* _ := assign reset_iteration in
  try_finally
    (try_except (iteration_body ctx a use_frida target_dir i) iteration_except)
    (iteration_finally ctx a use_frida target_dir i).

(** [_iteration_phase(ctx, use_frida)]. *)
Definition _iteration_phase {L} (ctx : ExperimentContext) (use_frida : bool) : M L unit :=
  call_function initial_locals
    (let* a := attr (android (config ctx)) in
     let* _ := user_interaction.print_status_msg env
                (phase_msg (phase_name_of use_frida) (num_iterations_of ctx use_frida)) in
     let target_dir := path_join (experiment_path ctx) (phase_name_of use_frida) in
     let* _ := call env (PathMkdir target_dir) in
     for_each (range_from_1 (num_iterations_of ctx use_frida))
       (iteration ctx a use_frida target_dir)).

(** [clean_up(ctx)]: the run-level teardown. *)
Definition clean_up {L} (ctx : ExperimentContext) : M L unit :=
  try_except
    (let* _ := user_interaction.print_status_msg env "📥 Pulling Bluetooth log from phone…" in
     let* a := attr (android (config ctx)) in
     let* _ := call env (AndroidPullBluetoothLog (phone_id ctx) (device_name ctx)
                           (experiment_path ctx) (bluetooth_log_path a)) in
     let* _ := user_interaction.print_status_msg env "🧹 Uninstalling app…" in
     let* _ := call env (AndroidUninstallApp (phone_id ctx) (package_name ctx)) in
     let* _ := user_interaction.print_status_msg env "🔁 Rebooting phone…" in
     let* _ := call env (AndroidReboot (phone_id ctx)) in
     let* summary := context.summarise_iterations env ctx in
     user_interaction.print_status_msg env (summary_msg summary))
    (fun ex => raise (ExperimentError ex)).

End WithEnv.
End android_lan.

(** ** runners/ios_wan.py *)

Module ios_wan.

Record Locals := {
  phone_pcap_name : option string;
  phone_tcpdump_pid : option Z;
  server_process : option ProcessHandle;
  mitm_process : option ProcessHandle;
  frida_process : option ProcessHandle;
  remote_pid : option Z;
  remote_tcpdump_filename : option string;
  remote_pcap_name : option string;
  success : bool
}.

Definition initial_locals : Locals :=
  {| phone_pcap_name := None; phone_tcpdump_pid := None; server_process := None;
     mitm_process := None; frida_process := None; remote_pid := None;
     remote_tcpdump_filename := None; remote_pcap_name := None; success := true |}.

Definition set_phone_pcap_name (v : option string) (l : Locals) : Locals :=
  {| phone_pcap_name := v; phone_tcpdump_pid := phone_tcpdump_pid l;
     server_process := server_process l; mitm_process := mitm_process l;
     frida_process := frida_process l; remote_pid := remote_pid l;
     remote_tcpdump_filename := remote_tcpdump_filename l;
     remote_pcap_name := remote_pcap_name l; success := success l |}.

Definition set_phone_tcpdump_pid (v : option Z) (l : Locals) : Locals :=
  {| phone_pcap_name := phone_pcap_name l; phone_tcpdump_pid := v;
     server_process := server_process l; mitm_process := mitm_process l;
     frida_process := frida_process l; remote_pid := remote_pid l;
     remote_tcpdump_filename := remote_tcpdump_filename l;
     remote_pcap_name := remote_pcap_name l; success := success l |}.

Definition set_server_process (v : option ProcessHandle) (l : Locals) : Locals :=
  {| phone_pcap_name := phone_pcap_name l; phone_tcpdump_pid := phone_tcpdump_pid l;
     server_process := v; mitm_process := mitm_process l;
     frida_process := frida_process l; remote_pid := remote_pid l;
     remote_tcpdump_filename := remote_tcpdump_filename l;
     remote_pcap_name := remote_pcap_name l; success := success l |}.

Definition set_mitm_process (v : option ProcessHandle) (l : Locals) : Locals :=
  {| phone_pcap_name := phone_pcap_name l; phone_tcpdump_pid := phone_tcpdump_pid l;
     server_process := server_process l; mitm_process := v;
     frida_process := frida_process l; remote_pid := remote_pid l;
     remote_tcpdump_filename := remote_tcpdump_filename l;
     remote_pcap_name := remote_pcap_name l; success := success l |}.

Definition set_frida_process (v : option ProcessHandle) (l : Locals) : Locals :=
  {| phone_pcap_name := phone_pcap_name l; phone_tcpdump_pid := phone_tcpdump_pid l;
     server_process := server_process l; mitm_process := mitm_process l;
     frida_process := v; remote_pid := remote_pid l;
     remote_tcpdump_filename := remote_tcpdump_filename l;
     remote_pcap_name := remote_pcap_name l; success := success l |}.

Definition set_remote_pid (v : option Z) (l : Locals) : Locals :=
  {| phone_pcap_name := phone_pcap_name l; phone_tcpdump_pid := phone_tcpdump_pid l;
     server_process := server_process l; mitm_process := mitm_process l;
     frida_process := frida_process l; remote_pid := v;
     remote_tcpdump_filename := remote_tcpdump_filename l;
     remote_pcap_name := remote_pcap_name l; success := success l |}.

(** [remote_pcap_name = ...; remote_tcpdump_filename = f"/tmp/{remote_pcap_name}"]. *)
Definition set_remote_names (n : string) (l : Locals) : Locals :=
  {| phone_pcap_name := phone_pcap_name l; phone_tcpdump_pid := phone_tcpdump_pid l;
     server_process := server_process l; mitm_process := mitm_process l;
     frida_process := frida_process l; remote_pid := remote_pid l;
     remote_tcpdump_filename := Some ("/tmp/" +:+ n);
     remote_pcap_name := Some n; success := success l |}.

Definition set_success (v : bool) (l : Locals) : Locals :=
  {| phone_pcap_name := phone_pcap_name l; phone_tcpdump_pid := phone_tcpdump_pid l;
     server_process := server_process l; mitm_process := mitm_process l;
     frida_process := frida_process l; remote_pid := remote_pid l;
     remote_tcpdump_filename := remote_tcpdump_filename l;
     remote_pcap_name := remote_pcap_name l; success := v |}.

(** [server_process = mitm_process = frida_process = remote_pid =
    remote_tcpdump_filename = remote_pcap_name = None; success = True]. *)
Definition reset_iteration (l : Locals) : Locals :=
  {| phone_pcap_name := phone_pcap_name l; phone_tcpdump_pid := phone_tcpdump_pid l;
     server_process := None; mitm_process := None; frida_process := None;
     remote_pid := None; remote_tcpdump_filename := None;
     remote_pcap_name := None; success := true |}.

(** [str(p)] of a path that may be [None]. *)
Definition str_of_path (p : option Path) : Path :=
  match p with Some s => s | None => "None" end.

Section WithEnv.
Variable env : Env.

(** The [try] block of one iteration. *)
Definition iteration_body (ctx : ExperimentContext) (io : iOSConfig)
    (use_frida : bool) (target_dir log_folder : Path) (i : Z) : M Locals unit :=
  let phase_name := phase_name_of use_frida in
  let cfg := config ctx in
  let* _ := when use_frida (call env (IptablesApplyRules (iptables_script_up_path cfg))) in
  let server_pcap :=
    path_join target_dir (pcap_name i phase_name "server" (device_name ctx)) in
  let* sp := call env (ServerStartTcpdump (server_interface cfg) server_pcap) in
  let* _ := assign (set_server_process (Some sp)) in
  let name := pcap_name i phase_name "phone" (device_name ctx) in
  let* _ := assign (set_phone_pcap_name (Some name)) in
  let phone_pcap_path := path_join (phone_pcap_save_path io) name in
  let* p := call env (SshStartRemoteTcpdump (ssh io) (phone_interface cfg) phone_pcap_path) in
  let* _ := assign (set_phone_tcpdump_pid (Some p)) in
  let rname := pcap_name i phase_name "remote" (device_name ctx) in
  let* _ := assign (set_remote_names rname) in
  let* rs := attr (remote_server_ssh cfg) in
  let* ri := attr (remote_server_interface cfg) in
  let* rp := call env (SshStartRemoteTcpdump rs ri ("/tmp/" +:+ rname)) in
  let* _ := assign (set_remote_pid (Some rp)) in
  let* _ := user_interaction.print_status_msg env "    · Starting app…" in
  let* _ :=
    if use_frida then
      let mitm_dump_path :=
        path_join (experiment_path ctx)
          ("mitm/iteration-" +:+ str_of_int i +:+ "-mitmdump-" +:+ device_name ctx) in
      let sslkey_logfile :=
        path_join (experiment_path ctx)
          ("sslkeys/iteration-" +:+ str_of_int i +:+ "-sslkeys-" +:+ device_name ctx
             +:+ ".txt") in
      let* mp := call env (ServerStartMitmdump mitm_dump_path sslkey_logfile log_folder 8082) in
      assign (set_mitm_process (Some mp))
    else pass in
  let* _ := call env (IosStartApp (phone_id ctx) (package_name ctx)) in
  let* sleep_time := call env (SleepTimesGet "start_app" 15) in
  let* _ := call env (TimeSleep sleep_time) in
  let* _ :=
    if use_frida then
      let* fp := call env (ServerStartObjection (phone_id ctx) (package_name ctx) log_folder) in
      assign (set_frida_process (Some fp))
    else pass in
  let* _ := user_interaction.print_status_msg env "    · Triggering taps on phone…" in
  let* ok := call env (IosTriggerTaps i use_frida) in
  let* _ := assign (set_success ok) in
  let* _ := user_interaction.print_status_msg env (taps_msg ok) in
  let* sleep_time := call env (SleepTimesGet "between_iterations" 300) in
  let* seconds := int_of_float sleep_time in
  let* _ := user_interaction.print_status_msg env (sleeping_msg seconds) in
  call env (TimeSleep sleep_time).

(** The [except Exception as ex] block of one iteration. *)
Definition iteration_except (ex : exn) : M Locals unit :=
  let* _ := assign (set_success false) in
  log_error "iteration failed".

(** The [finally] block of one iteration. *)
Definition iteration_finally (ctx : ExperimentContext) (io : iOSConfig)
    (use_frida : bool) (target_dir : Path) (i : Z) : M Locals unit :=
  let cfg := config ctx in
  let* rs := attr (remote_server_ssh cfg) in
  let* l := get_locals in
  let* _ := call env (SshStopRemoteTcpdump rs (remote_pid l)) in
  let* l := get_locals in
  let* _ := call env (IosStopTcpdump (ssh io) (phone_tcpdump_pid l)) in
  let* l := get_locals in
  let* _ := kill_tree_of env (server_process l) in
  let* l := get_locals in
  let* _ := kill_tree_if_set env (mitm_process l) in
  let* l := get_locals in
  let* _ := kill_tree_if_set env (frida_process l) in
  let* l := get_locals in
  let* local_path := path_div target_dir (phone_pcap_name l) in
  let* phone_pcap_path := path_div (phone_pcap_save_path io) (phone_pcap_name l) in
  let* _ := call env (SshDownloadRemoteFile (ssh io) phone_pcap_path local_path) in
  let* l := get_locals in
  let* local_path := path_div target_dir (remote_pcap_name l) in
  let* rs := attr (remote_server_ssh cfg) in
  let* _ := call env (SshDownloadRemoteFile rs (str_of_path (remote_tcpdump_filename l))
                        local_path) in
  let* _ :=
    if use_frida then
      let* _ := call env ServerResetTerminal in
      call env (IptablesApplyRules (iptables_script_down_path cfg))
    else pass in
  let* _ := user_interaction.print_status_msg env "    · Stopping app…" in
  let* _ := call env IosStopApp in
  let* sleep_time := call env (SleepTimesGet "stop_app" 15) in
  let* _ := call env (TimeSleep sleep_time) in
  let* l := get_locals in
  context.record_iteration_result (phase_name_of use_frida) i (success l).

(** One pass through the body of the [for] loop. *)
Definition iteration (ctx : ExperimentContext) (io : iOSConfig)
    (use_frida : bool) (target_dir log_folder : Path) (i : Z) : M Locals unit :=
  let* _ := user_interaction.print_status_msg env
              (iteration_msg (phase_name_of use_frida) i (num_iterations_of ctx use_frida)) in
  let* _ := assign reset_iteration in
  try_finally
    (try_except (iteration_body ctx io use_frida target_dir log_folder i)
       iteration_except)
    (iteration_finally ctx io use_frida target_dir i).

(** [_iteration_phase(ctx, use_frida)]. *)
Definition _iteration_phase {L} (ctx : ExperimentContext) (use_frida : bool) : M L unit :=
  call_function initial_locals
    (let* _ := user_interaction.print_status_msg env
                (phase_msg (phase_name_of use_frida) (num_iterations_of ctx use_frida)) in
     let target_dir := path_join (experiment_path ctx) (phase_name_of use_frida) in
     let* _ := call env (PathMkdir target_dir) in
     let log_folder := path_join (experiment_path ctx) "logs" in
     let* io := attr (ios (config ctx)) in
     let* _ := call env (SshCreateFolder (ssh io) (phone_pcap_save_path io)) in
     for_each (range_from_1 (num_iterations_of ctx use_frida))
       (iteration ctx io use_frida target_dir log_folder)).

End WithEnv.
End ios_wan.

(** ** runners/ios_lan.py *)

Module ios_lan.

Record Locals := {
  phone_pcap_name : option string;
  phone_tcpdump_pid : option Z;
  server_process : option ProcessHandle;
  mitm_process : option ProcessHandle;
  frida_process : option ProcessHandle;
  success : bool
}.

Definition initial_locals : Locals :=
  {| phone_pcap_name := None; phone_tcpdump_pid := None; server_process := None;
     mitm_process := None; frida_process := None; success := true |}.

Definition set_phone_pcap_name (v : option string) (l : Locals) : Locals :=
  {| phone_pcap_name := v; phone_tcpdump_pid := phone_tcpdump_pid l;
     server_process := server_process l; mitm_process := mitm_process l;
     frida_process := frida_process l; success := success l |}.

Definition set_phone_tcpdump_pid (v : option Z) (l : Locals) : Locals :=
  {| phone_pcap_name := phone_pcap_name l; phone_tcpdump_pid := v;
     server_process := server_process l; mitm_process := mitm_process l;
     frida_process := frida_process l; success := success l |}.

Definition set_server_process (v : option ProcessHandle) (l : Locals) : Locals :=
  {| phone_pcap_name := phone_pcap_name l; phone_tcpdump_pid := phone_tcpdump_pid l;
     server_process := v; mitm_process := mitm_process l;
     frida_process := frida_process l; success := success l |}.

Definition set_mitm_process (v : option ProcessHandle) (l : Locals) : Locals :=
  {| phone_pcap_name := phone_pcap_name l; phone_tcpdump_pid := phone_tcpdump_pid l;
     server_process := server_process l; mitm_process := v;
     frida_process := frida_process l; success := success l |}.

Definition set_frida_process (v : option ProcessHandle) (l : Locals) : Locals :=
  {| phone_pcap_name := phone_pcap_name l; phone_tcpdump_pid := phone_tcpdump_pid l;
     server_process := server_process l; mitm_process := mitm_process l;
     frida_process := v; success := success l |}.

Definition set_success (v : bool) (l : Locals) : Locals :=
  {| phone_pcap_name := phone_pcap_name l; phone_tcpdump_pid := phone_tcpdump_pid l;
     server_process := server_process l; mitm_process := mitm_process l;
     frida_process := frida_process l; success := v |}.

(** [server_process = mitm_process = frida_process = None; success = True]. *)
Definition reset_iteration (l : Locals) : Locals :=
  {| phone_pcap_name := phone_pcap_name l; phone_tcpdump_pid := phone_tcpdump_pid l;
     server_process := None; mitm_process := None; frida_process := None;
     success := true |}.

(** [pid + 1] where [pid] may be [None]. *)
Definition add_one {L} (p : option Z) : M L Z :=
  match p with
  | Some n => ret (n + 1)
  | None => raise TypeError
  end.

Section WithEnv.
Variable env : Env.

(** [_record_setup_phase(ctx)]. *)
Definition _record_setup_phase {L} (fuel : nat) (ctx : ExperimentContext) : M L unit :=
  let cfg := config ctx in
  let* _ := user_interaction.print_status_msg env "📼 Recording setup phase…" in
  let target_dir := parent (experiment_path ctx) in
  let server_pcap := path_join target_dir ("setup-server-" +:+ device_name ctx +:+ ".pcap") in
  let* server_process := call env (ServerStartTcpdump (server_interface cfg) server_pcap) in
  let phone_pcap_name := "setup-phone-" +:+ device_name ctx +:+ ".pcap" in
  let* io := attr (ios cfg) in
  let phone_pcap_path := path_join (phone_pcap_save_path io) phone_pcap_name in
  let* phone_pid := call env (IosStartTcpdump (ssh io) (phone_interface cfg) phone_pcap_path) in
  let* _ := wait_for_setup env fuel in
  let* _ := process_handler.kill_tree env server_process in
  let* _ := call env (IosStopTcpdump (ssh io) (Some (phone_pid + 1))) in
  let local_path := path_join target_dir phone_pcap_name in
  let* _ := call env (SshDownloadRemoteFile (ssh io) phone_pcap_path local_path) in
  user_interaction.print_status_msg env (setup_saved_msg target_dir).

(** The [try] block of one iteration. *)
Definition iteration_body (ctx : ExperimentContext)
    (use_frida : bool) (target_dir log_folder : Path) (i : Z) : M Locals unit :=
  let phase_name := phase_name_of use_frida in
  let cfg := config ctx in
  let* _ := when use_frida (call env (IptablesApplyRules (iptables_script_up_path cfg))) in
  let server_pcap :=
    path_join target_dir (pcap_name i phase_name "server" (device_name ctx)) in
  let* sp := call env (ServerStartTcpdump (server_interface cfg) server_pcap) in
  let* _ := assign (set_server_process (Some sp)) in
  let name := pcap_name i phase_name "phone" (device_name ctx) in
  let* _ := assign (set_phone_pcap_name (Some name)) in
  let* io := attr (ios cfg) in
  let phone_pcap_path := path_join (phone_pcap_save_path io) name in
  let* p := call env (IosStartTcpdump (ssh io) (phone_interface cfg) phone_pcap_path) in
  let* _ := assign (set_phone_tcpdump_pid (Some p)) in
  let* _ := user_interaction.print_status_msg env "    · Starting app…" in
  let* _ :=
    if use_frida then
      let mitm_dump_path :=
        path_join (experiment_path ctx)
          ("mitm/iteration-" +:+ str_of_int i +:+ "-mitmdump-" +:+ device_name ctx) in
      let sslkey_logfile :=
        path_join (experiment_path ctx)
          ("sslkeys/iteration-" +:+ str_of_int i +:+ "-sslkeys-" +:+ device_name ctx
             +:+ ".txt") in
      let* mp := call env (ServerStartMitmdump mitm_dump_path sslkey_logfile log_folder 8082) in
      assign (set_mitm_process (Some mp))
    else pass in
  let* _ := call env (IosStartApp (phone_id ctx) (package_name ctx)) in
  let* sleep_time := call env (SleepTimesGet "start_app" 15) in
  let* _ := call env (TimeSleep sleep_time) in
  let* _ :=
    if use_frida then
      let* fp := call env (ServerStartObjection (phone_id ctx) (package_name ctx) log_folder) in
      assign (set_frida_process (Some fp))
    else pass in
  let* _ := user_interaction.print_status_msg env "    · Triggering taps on phone…" in
  let* ok := call env (IosTriggerTaps i use_frida) in
  let* _ := assign (set_success ok) in
  let* _ := user_interaction.print_status_msg env (taps_msg ok) in
  let* sleep_time := call env (SleepTimesGet "between_iterations" 300) in
  let* seconds := int_of_float sleep_time in
  let* _ := user_interaction.print_status_msg env (sleeping_msg seconds) in
  call env (TimeSleep sleep_time).

(** The [except Exception as ex] block of one iteration. *)
Definition iteration_except (ex : exn) : M Locals unit :=
  let* _ := assign (set_success false) in
  log_error "iteration failed".

(** The [finally] block of one iteration. *)
Definition iteration_finally (ctx : ExperimentContext)
    (use_frida : bool) (target_dir : Path) (i : Z) : M Locals unit :=
  let cfg := config ctx in
  let* io := attr (ios cfg) in
  let* l := get_locals in
  let* stop_pid := add_one (phone_tcpdump_pid l) in
  let* _ := call env (IosStopTcpdump (ssh io) (Some stop_pid)) in
  let* l := get_locals in
  let* _ := kill_tree_of env (server_process l) in
  let* l := get_locals in
  let* _ := kill_tree_if_set env (mitm_process l) in
  let* l := get_locals in
  let* _ := kill_tree_if_set env (frida_process l) in
  let* l := get_locals in
  let* local_path := path_div target_dir (phone_pcap_name l) in
  let* phone_pcap_path := path_div (phone_pcap_save_path io) (phone_pcap_name l) in
  let* _ := call env (SshDownloadRemoteFile (ssh io) phone_pcap_path local_path) in
  let* _ := call env ServerResetTerminal in
  let* _ := when use_frida (call env (IptablesApplyRules (iptables_script_down_path cfg))) in
  let* _ := user_interaction.print_status_msg env "    · Stopping app…" in
  let* _ := call env IosStopApp in
  let* sleep_time := call env (SleepTimesGet "stop_app" 15) in
  let* _ := call env (TimeSleep sleep_time) in
  let* l := get_locals in
  context.record_iteration_result (phase_name_of use_frida) i (success l).

(** One pass through the body of the [for] loop. *)
Definition iteration (ctx : ExperimentContext)
    (use_frida : bool) (target_dir log_folder : Path) (i : Z) : M Locals unit :=
  let* _ := user_interaction.print_status_msg env
              (iteration_msg (phase_name_of use_frida) i (num_iterations_of ctx use_frida)) in
  let* _ := assign reset_iteration in
  try_finally
    (try_except (iteration_body ctx use_frida target_dir log_folder i)
       iteration_except)
    (iteration_finally ctx use_frida target_dir i).

(** [_iteration_phase(ctx, use_frida)]. *)
Definition _iteration_phase {L} (ctx : ExperimentContext) (use_frida : bool) : M L unit :=
  call_function initial_locals
    (let* _ := user_interaction.print_status_msg env
                (phase_msg (phase_name_of use_frida) (num_iterations_of ctx use_frida)) in
     let target_dir := path_join (experiment_path ctx) (phase_name_of use_frida) in
     let* _ := call env (PathMkdir target_dir) in
     let log_folder := path_join (experiment_path ctx) "logs" in
     for_each (range_from_1 (num_iterations_of ctx use_frida))
       (iteration ctx use_frida target_dir log_folder)).

End WithEnv.
End ios_lan.

(** ** communication/android.py

    The adb helpers, by their source.  The iteration loops reach the
    helpers through the calls [AndroidStartApp], [AndroidStopPcapdroid]
    and so on, which stand for them there; [enable_bluetooth] and
    [disable_bluetooth], which the [run] methods use, are taken from
    here. *)

(** [s.endswith(suffix)]. *)
Definition endswith (s suffix : string) : bool :=
  let n := String.length s in
  let k := String.length suffix in
  (k <=? n)%nat && String.eqb (String.substring (n - k) k s) suffix.

(** [l[i]] on a list: a negative index counts from the end, an index out
    of range raises [IndexError]. *)
Definition list_getitem {L A} (l : list A) (i : Z) : M L A :=
  let n := Z.of_nat (length l) in
  let j := if i <? 0 then i + n else i in
  if (j <? 0) || (n <=? j) then raise IndexError
  else match nth_error l (Z.to_nat j) with
       | Some a => ret a
       | None => raise IndexError
       end.

Module comm_android.

(** [_ensure_pcap_name(name)]. *)
Definition _ensure_pcap_name (name : string) : string :=
  if endswith name ".pcap" then name else name +:+ ".pcap".

(** [_resolve_crop_region(crop_list, tap_index)]; [crop_list] is [None] or
    a list. *)
Definition _resolve_crop_region {L A} (crop_list : option (list A)) (tap_index : Z)
    : M L (option A) :=
  match crop_list with
  | None => ret None
  | Some [] => ret None
  | Some l =>
      let idx := tap_index - 1 in
      if (idx <? 0) || (Z.of_nat (length l) <=? idx) then ret None
      else let* r := list_getitem l idx in ret (Some r)
  end.

Section WithEnv.
Variable env : Env.
(** [str.strip()], which the result of [_adb] passes through. *)
Variable strip : string -> string.

(** [_adb(phone_id, *adb_args, timeout=...)]. *)
Definition _adb {L} (phone_id : string) (adb_args : list string) (timeout : option Q)
    : M L string :=
  let args := "adb" :: "-s" :: phone_id :: adb_args in
  let* adb_process := process_handler.run_and_wait env args timeout true in
  ret (strip (match process_handler.cp_stdout adb_process with
              | Some out => out
              | None => ""
              end)).

(** The default [timeout=2 * 60] of [_adb]. *)
Definition default_timeout : option Q := Some 120%Q.

Definition start_app {L} (phone_id package_name : string) : M L unit :=
  let* _ := _adb phone_id
              ["shell"; "monkey"; "-p"; package_name;
               "-c"; "android.intent.category.LAUNCHER"; "1"] default_timeout in
  pass.

Definition stop_app {L} (phone_id package_name : string) : M L unit :=
  let* _ := _adb phone_id ["shell"; "am"; "force-stop"; package_name] default_timeout in
  pass.

Definition uninstall_app {L} (phone_id package_name : string) : M L unit :=
  let* _ := _adb phone_id ["uninstall"; package_name] default_timeout in
  pass.

Definition reboot {L} (phone_id : string) : M L unit :=
  let* _ := _adb phone_id ["reboot"] default_timeout in
  pass.

Definition start_pcapdroid {L} (phone_id package_name dump_name phone_interface
                                pcapdroid_api_key : string) : M L unit :=
  let out_name := _ensure_pcap_name dump_name in
  let* _ := _adb phone_id
              ["shell"; "am"; "start";
               "-e"; "action"; "start";
               "-e"; "pcap_dump_mode"; "pcap_file";
               "-e"; "app_filter"; package_name;
               "-e"; "pcap_name"; out_name;
               "-e"; "root_capture"; "true";
               "-e"; "capture_interface"; phone_interface;
               "-e"; "auto_block_private_dns"; "false";
               "-e"; "api_key"; pcapdroid_api_key;
               "-n"; "com.emanuelef.remote_capture/com.emanuelef.remote_capture.activities.CaptureCtrl"]
              default_timeout in
  pass.

Definition stop_pcapdroid {L} (phone_id pcapdroid_api_key : string) : M L unit :=
  let* _ := _adb phone_id
              ["shell"; "am"; "start";
               "-e"; "action"; "stop";
               "-e"; "api_key"; pcapdroid_api_key;
               "-n"; "com.emanuelef.remote_capture/com.emanuelef.remote_capture.activities.CaptureCtrl"]
              default_timeout in
  pass.

Definition pull_file_to_server {L} (phone_id : string) (file_path destination_path : Path)
    : M L unit :=
  let* _ := _adb phone_id ["pull"; file_path; destination_path] default_timeout in
  pass.

Definition delete_file_from_phone {L} (phone_id : string) (file_path : Path) : M L unit :=
  let* _ := _adb phone_id ["shell"; "su"; "-c"; "rm"; file_path] default_timeout in
  pass.

Definition enable_bluetooth {L} (phone_id : string) : M L unit :=
  let* _ := _adb phone_id ["shell"; "svc"; "bluetooth"; "enable"] default_timeout in
  pass.

Definition disable_bluetooth {L} (phone_id : string) : M L unit :=
  let* _ := _adb phone_id ["shell"; "svc"; "bluetooth"; "disable"] default_timeout in
  pass.

Definition disable_autorotate {L} (phone_id : string) : M L unit :=
  let* _ := _adb phone_id
              ["shell"; "settings"; "put"; "system"; "accelerometer_rotation"; "0"]
              default_timeout in
  pass.

(** [pull_bluetooth_log_to_server]; [bluetooth_log_path] is [None] for a
    falsy argument and [Some p] for a path. *)
Definition pull_bluetooth_log_to_server {L} (phone_id device_name : string)
    (experiment_path : Path) (bluetooth_log_path : option Path) : M L unit :=
  match bluetooth_log_path with
  | None =>
      log_warning "bluetooth_log_path is not set in config; skipping Bluetooth log pull."
  | Some log_path =>
      let bluetooth_log_file := "bluetooth-" +:+ device_name +:+ ".log" in
      let dest_path := path_join experiment_path bluetooth_log_file in
      let sdcard_dir := "/sdcard/Download" in
      let accessible_path := sdcard_dir +:+ "/" +:+ bluetooth_log_file in
      try_finally
        (try_except
           (let* _ := _adb phone_id
                        ["shell"; "su"; "-c";
                         "cp " +:+ log_path +:+ " " +:+ accessible_path
                           +:+ " && chmod 666 " +:+ accessible_path]
                        default_timeout in
            let* _ := _adb phone_id ["pull"; accessible_path; dest_path] default_timeout in
            pass)
           (fun e =>
              match e with
              | CalledProcessError _ _ _ _ =>
                  log_error "Failed to copy/pull Bluetooth log"
              | _ => raise e
              end))
        (try_except
           (delete_file_from_phone phone_id accessible_path)
           (fun exc => log_warning "Could not delete staged Bluetooth log on phone"))
  end.

End WithEnv.
End comm_android.

(** ** runners/android_wan.py *)

Module android_wan.

(** [AndroidWanRunner.can_handle]. *)
Definition can_handle (config : AppConfig) : bool :=
  String.eqb (platform config) "android" && String.eqb (network_profile config) "wan".

(** The local variables of [_iteration_phase] that outlive a statement. *)
Record Locals := {
  phone_pcap_name : option string;
  server_process : option ProcessHandle;
  mitm_process : option ProcessHandle;
  frida_process : option ProcessHandle;
  remote_pid : option Z;
  remote_tcpdump_filename : option string;
  remote_pcap_name : option string;
  success : bool
}.

Definition initial_locals : Locals :=
  {| phone_pcap_name := None; server_process := None; mitm_process := None;
     frida_process := None; remote_pid := None; remote_tcpdump_filename := None;
     remote_pcap_name := None; success := true |}.

Definition set_phone_pcap_name (v : option string) (l : Locals) : Locals :=
  {| phone_pcap_name := v; server_process := server_process l;
     mitm_process := mitm_process l; frida_process := frida_process l;
     remote_pid := remote_pid l; remote_tcpdump_filename := remote_tcpdump_filename l;
     remote_pcap_name := remote_pcap_name l; success := success l |}.

Definition set_server_process (v : option ProcessHandle) (l : Locals) : Locals :=
  {| phone_pcap_name := phone_pcap_name l; server_process := v;
     mitm_process := mitm_process l; frida_process := frida_process l;
     remote_pid := remote_pid l; remote_tcpdump_filename := remote_tcpdump_filename l;
     remote_pcap_name := remote_pcap_name l; success := success l |}.

Definition set_mitm_process (v : option ProcessHandle) (l : Locals) : Locals :=
  {| phone_pcap_name := phone_pcap_name l; server_process := server_process l;
     mitm_process := v; frida_process := frida_process l;
     remote_pid := remote_pid l; remote_tcpdump_filename := remote_tcpdump_filename l;
     remote_pcap_name := remote_pcap_name l; success := success l |}.

Definition set_frida_process (v : option ProcessHandle) (l : Locals) : Locals :=
  {| phone_pcap_name := phone_pcap_name l; server_process := server_process l;
     mitm_process := mitm_process l; frida_process := v;
     remote_pid := remote_pid l; remote_tcpdump_filename := remote_tcpdump_filename l;
     remote_pcap_name := remote_pcap_name l; success := success l |}.

Definition set_remote_pid (v : option Z) (l : Locals) : Locals :=
  {| phone_pcap_name := phone_pcap_name l; server_process := server_process l;
     mitm_process := mitm_process l; frida_process := frida_process l;
     remote_pid := v; remote_tcpdump_filename := remote_tcpdump_filename l;
     remote_pcap_name := remote_pcap_name l; success := success l |}.

(** [remote_pcap_name = ...; remote_tcpdump_filename = f"/tmp/{remote_pcap_name}"]. *)
Definition set_remote_names (n : string) (l : Locals) : Locals :=
  {| phone_pcap_name := phone_pcap_name l; server_process := server_process l;
     mitm_process := mitm_process l; frida_process := frida_process l;
     remote_pid := remote_pid l; remote_tcpdump_filename := Some ("/tmp/" +:+ n);
     remote_pcap_name := Some n; success := success l |}.

Definition set_success (v : bool) (l : Locals) : Locals :=
  {| phone_pcap_name := phone_pcap_name l; server_process := server_process l;
     mitm_process := mitm_process l; frida_process := frida_process l;
     remote_pid := remote_pid l; remote_tcpdump_filename := remote_tcpdump_filename l;
     remote_pcap_name := remote_pcap_name l; success := v |}.

(** [server_process = mitm_process = frida_process = remote_pid =
    remote_tcpdump_filename = remote_pcap_name = None; success = True]. *)
Definition reset_iteration (l : Locals) : Locals :=
  {| phone_pcap_name := phone_pcap_name l; server_process := None;
     mitm_process := None; frida_process := None; remote_pid := None;
     remote_tcpdump_filename := None; remote_pcap_name := None; success := true |}.

Section WithEnv.
Variable env : Env.

(** The [try] block of one iteration. *)
Definition iteration_body (ctx : ExperimentContext) (a : AndroidConfig)
    (use_frida : bool) (target_dir : Path) (i : Z) : M Locals unit :=
  let phase_name := phase_name_of use_frida in
  let cfg := config ctx in
  let* _ := when use_frida (call env (IptablesApplyRules (iptables_script_up_path cfg))) in
  let server_pcap :=
    path_join target_dir (pcap_name i phase_name "server" (device_name ctx)) in
  let* sp := call env (ServerStartTcpdump (server_interface cfg) server_pcap) in
  let* _ := assign (set_server_process (Some sp)) in
  let name := pcap_name i phase_name "phone" (device_name ctx) in
  let* _ := assign (set_phone_pcap_name (Some name)) in
  let* _ := call env (AndroidStartPcapdroid (phone_id ctx) (package_name ctx) name
                        (phone_interface cfg) (pcapdroid_api_key a)) in
  let rname := pcap_name i phase_name "remote" (device_name ctx) in
  let* _ := assign (set_remote_names rname) in
  let* rs := attr (remote_server_ssh cfg) in
  let* ri := attr (remote_server_interface cfg) in
  let* rp := call env (SshStartRemoteTcpdump rs ri ("/tmp/" +:+ rname)) in
  let* _ := assign (set_remote_pid (Some rp)) in
  let* _ := user_interaction.print_status_msg env "    · Starting app…" in
  let* _ :=
    if use_frida then
      let log_folder := path_join (experiment_path ctx) "logs" in
      let mitm_dump_path :=
        path_join (experiment_path ctx)
          ("mitm/iteration-" +:+ str_of_int i +:+ "-mitmdump-" +:+ device_name ctx) in
      let sslkey_logfile :=
        path_join (experiment_path ctx)
          ("sslkeys/iteration-" +:+ str_of_int i +:+ "-sslkeys-" +:+ device_name ctx
             +:+ ".txt") in
      let* mp := call env (ServerStartMitmdump mitm_dump_path sslkey_logfile log_folder 8080) in
      let* _ := assign (set_mitm_process (Some mp)) in
      let* fp := call env (ServerStartFrida (phone_id ctx) (package_name ctx) log_folder) in
      assign (set_frida_process (Some fp))
    else
      call env (AndroidStartApp (phone_id ctx) (package_name ctx)) in
  let* sleep_time := call env (SleepTimesGet "start_app" 15) in
  let* _ := call env (TimeSleep sleep_time) in
  let* _ := user_interaction.print_status_msg env "    · Triggering taps on phone…" in
  let* ok := call env (AndroidTriggerTaps i use_frida) in
  let* _ := assign (set_success ok) in
  let* _ := user_interaction.print_status_msg env (taps_msg ok) in
  let* sleep_time := call env (SleepTimesGet "between_iterations" 300) in
  let* seconds := int_of_float sleep_time in
  let* _ := user_interaction.print_status_msg env (sleeping_msg seconds) in
  call env (TimeSleep sleep_time).

(** The [except Exception as ex] block of one iteration. *)
Definition iteration_except (ex : exn) : M Locals unit :=
  let* _ := assign (set_success false) in
  log_error "iteration failed".

(** The [finally] block of one iteration. *)
Definition iteration_finally (ctx : ExperimentContext) (a : AndroidConfig)
    (use_frida : bool) (target_dir : Path) (i : Z) : M Locals unit :=
  let cfg := config ctx in
  let* rs := attr (remote_server_ssh cfg) in
  let* l := get_locals in
  let* _ := call env (SshStopRemoteTcpdump rs (remote_pid l)) in
  let* _ := call env (AndroidStopPcapdroid (phone_id ctx) (pcapdroid_api_key a)) in
  let* l := get_locals in
  let* _ := kill_tree_of env (server_process l) in
  let* l := get_locals in
  let* _ := kill_tree_if_set env (mitm_process l) in
  let* l := get_locals in
  let* _ := kill_tree_if_set env (frida_process l) in
  let* l := get_locals in
  let* phone_pcap_path := path_div (pcap_download_path a) (phone_pcap_name l) in
  let* destination_path := path_div target_dir (phone_pcap_name l) in
  let* _ := call env (AndroidPullFileToServer (phone_id ctx) phone_pcap_path
                        destination_path) in
  let* _ := call env (AndroidDeleteFileFromPhone (phone_id ctx) phone_pcap_path) in
  let* l := get_locals in
  let* local_path := path_div target_dir (remote_pcap_name l) in
  let* rs := attr (remote_server_ssh cfg) in
  let* _ := call env (SshDownloadRemoteFile rs
                        (ios_wan.str_of_path (remote_tcpdump_filename l)) local_path) in
  let* _ := when use_frida (call env (IptablesApplyRules (iptables_script_down_path cfg))) in
  let* _ := user_interaction.print_status_msg env "    · Stopping app…" in
  let* _ := call env (AndroidStopApp (phone_id ctx) (package_name ctx)) in
  let* sleep_time := call env (SleepTimesGet "stop_app" 15) in
  let* _ := call env (TimeSleep sleep_time) in
  let* l := get_locals in
  context.record_iteration_result (phase_name_of use_frida) i (success l).

(** One pass through the body of the [for] loop. *)
Definition iteration (ctx : ExperimentContext) (a : AndroidConfig)
    (use_frida : bool) (target_dir : Path) (i : Z) : M Locals unit :=
  let* _ := user_interaction.print_status_msg env
              (iteration_msg (phase_name_of use_frida) i (num_iterations_of ctx use_frida)) in
  let* _ := assign reset_iteration in
  try_finally
    (try_except (iteration_body ctx a use_frida target_dir i) iteration_except)
    (iteration_finally ctx a use_frida target_dir i).

(** [_iteration_phase(ctx, use_frida)]. *)
Definition _iteration_phase {L} (ctx : ExperimentContext) (use_frida : bool) : M L unit :=
  call_function initial_locals
    (let* a := attr (android (config ctx)) in
     let* _ := user_interaction.print_status_msg env
                (phase_msg (phase_name_of use_frida) (num_iterations_of ctx use_frida)) in
     let target_dir := path_join (experiment_path ctx) (phase_name_of use_frida) in
     let* _ := call env (PathMkdir target_dir) in
     for_each (range_from_1 (num_iterations_of ctx use_frida))
       (iteration ctx a use_frida target_dir)).

(** [clean_up(ctx)]: the run-level teardown. *)
Definition clean_up {L} (ctx : ExperimentContext) : M L unit :=
  try_except
    (let* _ := user_interaction.print_status_msg env "🧹 Uninstalling app…" in
     let* _ := call env (AndroidUninstallApp (phone_id ctx) (package_name ctx)) in
     let* summary := context.summarise_iterations env ctx in
     user_interaction.print_status_msg env (summary_msg summary))
    (fun ex => raise (ExperimentError ex)).

End WithEnv.
End android_wan.

(** ** The runner classes: [can_handle] and [run]

    [fuel] bounds the number of questions each [while not prompt_user(...)]
    loop of the model asks. *)

(** [ctx.experiment_path / f"overall-{ctx.device_name}.pcap"]. *)
Definition overall_pcap (ctx : ExperimentContext) : Path :=
  path_join (experiment_path ctx) ("overall-" +:+ device_name ctx +:+ ".pcap").

(** The [try] block of every [run] is wrapped:
    [except Exception as ex: raise ExperimentError(ex)]. *)
Definition wrap_experiment_error {L A} (m : M L A) : M L A :=
  try_except m (fun ex => raise (ExperimentError ex)).

Module android_lan_runner.

(** [AndroidLanRunner.can_handle]. *)
Definition can_handle (config : AppConfig) : bool :=
  String.eqb (platform config) "android" && String.eqb (network_profile config) "lan".

Section WithEnv.
Variable env : Env.
Variable strip : string -> string.

(** [_record_setup_phase(ctx)] of runners/android_lan.py. *)
Definition _record_setup_phase {L} (fuel : nat) (ctx : ExperimentContext) : M L unit :=
  let cfg := config ctx in
  let* a := attr (android cfg) in
  let* _ := user_interaction.print_status_msg env "📼 Recording setup phase…" in
  let target_dir := parent (experiment_path ctx) in
  let server_pcap := path_join target_dir ("setup-server-" +:+ device_name ctx +:+ ".pcap") in
  let* server_process := call env (ServerStartTcpdump (server_interface cfg) server_pcap) in
  let phone_pcap_name := "setup-phone-" +:+ device_name ctx +:+ ".pcap" in
  let* _ := call env (AndroidStartPcapdroid (phone_id ctx) (package_name ctx) phone_pcap_name
                        (phone_interface cfg) (pcapdroid_api_key a)) in
  let* _ := wait_for_setup env fuel in
  let* _ := process_handler.kill_tree env server_process in
  let* _ := call env (AndroidStopPcapdroid (phone_id ctx) (pcapdroid_api_key a)) in
  let* a := attr (android cfg) in
  let phone_pcap_path := path_join (pcap_download_path a) phone_pcap_name in
  let destination_path := path_join target_dir phone_pcap_name in
  let* _ := call env (AndroidPullFileToServer (phone_id ctx) phone_pcap_path
                        destination_path) in
  let* _ := call env (AndroidDeleteFileFromPhone (phone_id ctx) phone_pcap_path) in
  user_interaction.print_status_msg env (setup_saved_msg target_dir).

(** [AndroidLanRunner.run]; the local variable is [overall_process]. *)
Definition run {L} (fuel : nat) (ctx : ExperimentContext) : M L unit :=
  call_function (None : option ProcessHandle)
    (try_finally
       (wrap_experiment_error
          (let* _ := user_interaction.print_status_msg env "🔵 Enabling Bluetooth on phone…" in
           let* _ := comm_android.enable_bluetooth env strip (phone_id ctx) in
           let* _ := user_interaction.print_status_msg env
                       "🟢 Starting overall capture on server…" in
           let* h := call env (ServerStartTcpdump (server_interface (config ctx))
                                 (overall_pcap ctx)) in
           let* _ := assign (fun _ => Some h) in
           let* record := call env (PromptUser "❓ Record setup phase of IoT device?") in
           let* _ := when record (_record_setup_phase fuel ctx) in
           let* _ := wait_for_coordinates env fuel in
           let* _ := user_interaction.print_status_msg env "▶️  Starting NO-FRIDA phase…" in
           let* _ := android_lan._iteration_phase env ctx false in
           let* _ := user_interaction.print_status_msg env "▶️  Starting FRIDA phase…" in
           android_lan._iteration_phase env ctx true))
       (let* _ := user_interaction.print_status_msg env "🛑 Stopping overall capture…" in
        let* overall_process := get_locals in
        let* _ := kill_tree_if_set env overall_process in
        android_lan.clean_up env ctx)).

End WithEnv.
End android_lan_runner.

Module android_wan_runner.
Section WithEnv.
Variable env : Env.
Variable strip : string -> string.

(** [AndroidWanRunner.run]. *)
Definition run {L} (fuel : nat) (ctx : ExperimentContext) : M L unit :=
  call_function (None : option ProcessHandle)
    (try_finally
       (wrap_experiment_error
          (let* _ := user_interaction.print_status_msg env "🔵 Disabling Bluetooth on phone…" in
           let* _ := comm_android.disable_bluetooth env strip (phone_id ctx) in
           let* _ := user_interaction.print_status_msg env
                       "🟢 Starting overall capture on server…" in
           let* h := call env (ServerStartTcpdump (server_interface (config ctx))
                                 (overall_pcap ctx)) in
           let* _ := assign (fun _ => Some h) in
           let* _ := wait_for_coordinates env fuel in
           let* _ := user_interaction.print_status_msg env "▶️  Starting NO-FRIDA phase…" in
           let* _ := android_wan._iteration_phase env ctx false in
           let* _ := user_interaction.print_status_msg env "▶️  Starting FRIDA phase…" in
           android_wan._iteration_phase env ctx true))
       (let* _ := user_interaction.print_status_msg env "🛑 Stopping overall capture…" in
        let* overall_process := get_locals in
        let* _ := kill_tree_if_set env overall_process in
        android_wan.clean_up env ctx)).

End WithEnv.
End android_wan_runner.

Module ios_lan_runner.

(** [iOSLanRunner.can_handle]. *)
Definition can_handle (config : AppConfig) : bool :=
  String.eqb (platform config) "ios" && String.eqb (network_profile config) "lan".

Section WithEnv.
Variable env : Env.

(** The [finally] block of the two iOS runners. *)
Definition run_finally (ctx : ExperimentContext) : M (option ProcessHandle) unit :=
  let* _ := user_interaction.print_status_msg env "🛑 Stopping overall capture…" in
  let* overall_process := get_locals in
  let* _ := kill_tree_if_set env overall_process in
  let* summary := context.summarise_iterations env ctx in
  let* _ := user_interaction.print_status_msg env (summary_msg summary) in
  user_interaction.print_status_msg env
              "❗ Don't forget to collect contacted domains in App Privacy Report".

(** [iOSLanRunner.run]. *)
Definition run {L} (fuel : nat) (ctx : ExperimentContext) : M L unit :=
  call_function (None : option ProcessHandle)
    (try_finally
       (wrap_experiment_error
          (let* _ := user_interaction.print_status_msg env "❗ Don't forget to turn on bluetooth" in
           let* _ := user_interaction.print_status_msg env
                       "❗ Don't forget to turn on App Privacy Report in iOS Settings" in
           let* _ := user_interaction.print_status_msg env
                       "🟢 Starting overall capture on server…" in
           let* h := call env (ServerStartTcpdump (server_interface (config ctx))
                                 (overall_pcap ctx)) in
           let* _ := assign (fun _ => Some h) in
           let* io := attr (ios (config ctx)) in
           let* _ := call env (SshCreateFolder (ssh io) (phone_pcap_save_path io)) in
           let* record := call env (PromptUser "❓ Record setup phase of IoT device?") in
           let* _ := when record (ios_lan._record_setup_phase env fuel ctx) in
           let* _ := wait_for_coordinates env fuel in
           let* _ := user_interaction.print_status_msg env "▶️  Starting NO-FRIDA phase…" in
           let* _ := ios_lan._iteration_phase env ctx false in
           let* _ := user_interaction.print_status_msg env "▶️  Starting FRIDA phase…" in
           ios_lan._iteration_phase env ctx true))
       (run_finally ctx)).

End WithEnv.
End ios_lan_runner.

Module ios_wan_runner.

(** [iOSWanRunner.can_handle]. *)
Definition can_handle (config : AppConfig) : bool :=
  String.eqb (platform config) "ios" && String.eqb (network_profile config) "wan".

Section WithEnv.
Variable env : Env.

(** [iOSWanRunner.run]. *)
Definition run {L} (fuel : nat) (ctx : ExperimentContext) : M L unit :=
  call_function (None : option ProcessHandle)
    (try_finally
       (wrap_experiment_error
          (let* _ := user_interaction.print_status_msg env "❗ Don't forget to turn off bluetooth" in
           let* _ := user_interaction.print_status_msg env
                       "❗ Don't forget to turn on App Privacy Report in iOS Settings" in
           let* _ := user_interaction.print_status_msg env
                       "🟢 Starting overall capture on server…" in
           let* h := call env (ServerStartTcpdump (server_interface (config ctx))
                                 (overall_pcap ctx)) in
           let* _ := assign (fun _ => Some h) in
           let* _ := wait_for_coordinates env fuel in
           let* _ := user_interaction.print_status_msg env "▶️  Starting NO-FRIDA phase…" in
           let* _ := ios_wan._iteration_phase env ctx false in
           let* _ := user_interaction.print_status_msg env "▶️  Starting FRIDA phase…" in
           ios_wan._iteration_phase env ctx true))
       (ios_lan_runner.run_finally env ctx)).

End WithEnv.
End ios_wan_runner.

(** ** The registry as cli.py's imports build it *)

Section Registry.
Context {L : Type}.
Variable env : Env.
Variable strip : string -> string.
Variable fuel : nat.

Definition AndroidLanRunner : runners.RunnerClass L :=
  {| runners.cls_id := 0%nat; runners.cls_name := "AndroidLanRunner";
     runners.can_handle := android_lan_runner.can_handle;
     runners.run := android_lan_runner.run env strip fuel |}.

Definition AndroidWanRunner : runners.RunnerClass L :=
  {| runners.cls_id := 1%nat; runners.cls_name := "AndroidWanRunner";
     runners.can_handle := android_wan.can_handle;
     runners.run := android_wan_runner.run env strip fuel |}.

Definition iOSWanRunner : runners.RunnerClass L :=
  {| runners.cls_id := 2%nat; runners.cls_name := "iOSWanRunner";
     runners.can_handle := ios_wan_runner.can_handle;
     runners.run := ios_wan_runner.run env fuel |}.

Definition iOSLanRunner : runners.RunnerClass L :=
  {| runners.cls_id := 3%nat; runners.cls_name := "iOSLanRunner";
     runners.can_handle := ios_lan_runner.can_handle;
     runners.run := ios_lan_runner.run env fuel |}.

(** [_REGISTRY] after [from .runners import android_lan, android_wan,
    ios_wan, ios_lan]: each module registers its class with
    [@register(priority=0)]. *)
Definition _REGISTRY : list (runners._Entry L) :=
  runners.register None 0 iOSLanRunner
    (runners.register None 0 iOSWanRunner
       (runners.register None 0 AndroidWanRunner
          (runners.register None 0 AndroidLanRunner []))).

End Registry.

(** * Specification vocabulary *)

(** ** Worlds, traces and the monad *)

(** The world after the events [evs] were appended to its trace. *)
Definition extend {L} (w : World L) (evs : list Event) : World L :=
  {| trace := trace w ++ evs; ledger := ledger w; locals := locals w |}.

(** ** Process handles: signalling a group, with its fallback *)

(** The event of the call [terminate] and [kill_tree] fall back to when
    the group cannot be signalled. *)
Definition fallback_event (proc : Z) (sig : Signal) (a : Answer unit) : Event :=
  match sig with
  | SIGTERM => {| ev_call := PopenTerminate proc; ev_answer := a |}
  | SIGKILL => {| ev_call := PopenKill proc; ev_answer := a |}
  end.

(** The traces of one attempt to signal the process group of [proc]: the
    group was signalled; or [getpgid] raised and the child alone was
    signalled; or [killpg] raised and the child alone was signalled.
    Whatever the fallback answers is swallowed. *)
Inductive signal_attempt (proc : Z) (sig : Signal) : list Event -> Prop :=
| attempt_group (pg : Z) :
    signal_attempt proc sig
      [ {| ev_call := OsGetpgid proc; ev_answer := Returns pg |};
        {| ev_call := OsKillpg pg sig; ev_answer := Returns tt |} ]
| attempt_no_group (e : exn) (a : Answer unit) :
    signal_attempt proc sig
      [ {| ev_call := OsGetpgid proc; ev_answer := Raises e |};
        fallback_event proc sig a ]
| attempt_group_failed (pg : Z) (e : exn) (a : Answer unit) :
    signal_attempt proc sig
      [ {| ev_call := OsGetpgid proc; ev_answer := Returns pg |};
        {| ev_call := OsKillpg pg sig; ev_answer := Raises e |};
        fallback_event proc sig a ].

(** The shared shape of [terminate], [kill_tree] and the two escalation
    steps of [run_and_wait]. *)
Definition signal_group {L} (env : Env) (proc : Z) (sig : Signal) : M L unit :=
  try_except
    (let* pg := call env (OsGetpgid proc) in call env (OsKillpg pg sig))
    (fun _ =>
       try_except
         (match sig with
          | SIGTERM => call env (PopenTerminate proc)
          | SIGKILL => call env (PopenKill proc)
          end)
         (fun _ => pass)).

(** ** Concrete environments *)

(** The two calls of a status line. *)
Definition is_status_line (c : Call) : bool :=
  match c with
  | TyperEcho _ | Print _ => true
  | _ => false
  end.

(** The calls of a history that are not status lines. *)
Definition actions (history : list Event) : list Event :=
  List.filter (fun ev => negb (is_status_line (ev_call ev))) history.

(** A system in which every external call succeeds: process ids grow, ten
    apart, with the number of calls made (status lines apart), the phone's
    screens match, the operator answers yes, the timing source returns the
    caller's default. *)
Definition default_answer (history : list Event) (c : Call) : Answer (ret_ty c) :=
  let fresh_pid := 4000 + 10 * Z.of_nat (length (actions history)) in
  match c as c0 return Answer (ret_ty c0) with
  | PopenSpawn _ => Returns fresh_pid
  | PopenCommunicate _ _ => Returns ("", "", 0)
  | PopenWait _ _ => Returns 0
  | OsGetpgid p => Returns p
  | PathStatMtime _ => Returns (FFinite 0)
  | PathReadText _ => Returns ""
  | YamlSafeLoad _ => Returns YNull
  | ServerStartTcpdump _ _ => Returns {| pid := fresh_pid |}
  | ServerStartMitmdump _ _ _ _ => Returns {| pid := fresh_pid |}
  | ServerStartFrida _ _ _ => Returns {| pid := fresh_pid |}
  | ServerStartObjection _ _ _ => Returns {| pid := fresh_pid |}
  | ServerResetTerminal => Returns {| pid := fresh_pid |}
  | AndroidTriggerTaps _ _ => Returns true
  | IosTriggerTaps _ _ => Returns true
  | IosStartTcpdump _ _ _ => Returns fresh_pid
  | SshStartRemoteTcpdump _ _ _ => Returns fresh_pid
  | SleepTimesGet _ d => Returns (FFinite (inject_Z d))
  | PromptUser _ => Returns true
  | PopenTerminate _ | PopenKill _ | OsKillpg _ _ | PathMkdir _
  | PathWriteText _ _ | LoggerError _ | LoggerWarning _ | IptablesApplyRules _
  | AndroidStartPcapdroid _ _ _ _ _ | AndroidStopPcapdroid _ _
  | AndroidStartApp _ _ | AndroidStopApp _ _ | AndroidPullFileToServer _ _ _
  | AndroidDeleteFileFromPhone _ _ | AndroidPullBluetoothLog _ _ _ _
  | AndroidUninstallApp _ _ | AndroidReboot _ | IosStopTcpdump _ _
  | IosStartApp _ _ | IosStopApp | SshCreateFolder _ _
  | SshStopRemoteTcpdump _ _ | SshDownloadRemoteFile _ _ _ | TimeSleep _
  | TyperEcho _ | Print _ =>
      Returns tt
  end.

Definition env_ok : Env := default_answer.

(** The environment [base], except that the calls selected by [p] raise [e]. *)
Definition failing (p : Call -> bool) (e : exn) (base : Env) : Env :=
  fun history c => if p c then Raises e else base history c.

(** An empty world with local variables [l]. *)
Definition empty_world {L} (l : L) : World L :=
  {| trace := []; ledger := []; locals := l |}.

(** ** C9: [kill_tree] on a dead handle *)

(** The process behind [h] is dead (and reaped): the operating system no
    longer knows its process id. *)
Definition process_dead (env : Env) (h : ProcessHandle) : Prop :=
  forall history, env history (OsGetpgid (pid h)) = Raises ProcessLookupError.

Definition is_getpgid_or_kill (c : Call) : bool :=
  match c with
  | OsGetpgid _ | PopenKill _ | PopenTerminate _ => true
  | _ => false
  end.

(** A system in which every process is gone. *)
Definition env_all_dead : Env := failing is_getpgid_or_kill ProcessLookupError env_ok.

(** What a [kill_tree] on a dead handle leaves in the trace: the failed
    lookup of the process group and the fallback on the child, whose
    answer [a] is swallowed. *)
Definition dead_kill_events (h : ProcessHandle) (a : Answer unit) : list Event :=
  [ {| ev_call := OsGetpgid (pid h); ev_answer := Raises ProcessLookupError |};
    {| ev_call := PopenKill (pid h); ev_answer := a |} ].

(** ** C5: the bounded command runner on timeout *)

(** What [run_and_wait] hands to [TimeoutExpired]: the streams the final
    one-second read returned, or else those the first
    [TimeoutExpired] carried. *)
Definition captured_streams (read : Answer (string * string * Z))
    (e_output e_stderr : option string) : option string * option string :=
  match read with
  | Returns r => (Some (fst (fst r)), Some (snd (fst r)))
  | Raises _ => (e_output, e_stderr)
  end.

(** A forceful kill (of the group, or of the child as fallback) was sent. *)
Definition forceful_kill_sent (evs : list Event) : bool :=
  existsb (fun ev =>
             match ev_call ev with
             | OsKillpg _ SIGKILL | PopenKill _ => true
             | _ => false
             end) evs.

(** A graceful signal was sent to a process group. *)
Definition graceful_group_signal_sent (evs : list Event) : bool :=
  existsb (fun ev =>
             match ev_call ev with
             | OsKillpg _ SIGTERM => true
             | _ => false
             end) evs.

(** A command that outlives its timeout but exits on SIGTERM within the
    grace period: the first [communicate] times out, the two-second wait
    returns, the final read returns what was produced. *)
Definition env_exits_on_sigterm : Env :=
  fun history c =>
    match c as c0 return Answer (ret_ty c0) with
    | PopenSpawn _ => Returns 4321
    | PopenCommunicate _ t =>
        match t with
        | Some q => if Qeq_bool q 1 then Returns ("partial output", "", -15)
                    else Raises (TimeoutExpired [] t None None)
        | None => Returns ("", "", 0)
        end
    | PopenWait _ _ => Returns (-15)
    | c1 => default_answer history c1
    end.

(** ** Stepping through the monad *)

(** The events of the timeout handling of [run_and_wait]: the logged error,
    the graceful attempt [term], the two-second wait, the forceful attempt
    [kill] and the final read. *)
Definition timeout_handling_events (proc : Z) (term : list Event) (waited : Answer Z)
    (kill : list Event) (read : Answer (string * string * Z)) : list Event :=
  [ {| ev_call := LoggerError "Timeout. Terminating group"; ev_answer := Returns tt |} ]
  ++ term
  ++ [ {| ev_call := PopenWait proc (Some 2%Q); ev_answer := waited |} ]
  ++ kill
  ++ [ {| ev_call := PopenCommunicate proc (Some 1%Q); ev_answer := read |} ].

(** ** C6 and C10: the timing source and its backing file *)

(** The backing file is present throughout: whenever asked, the file
    system reports the modification time [mt] and the text [text], which
    the YAML loader parses to [doc]. *)
Definition file_present (env : Env) (p : Path) (mt : pyfloat) (text : string)
    (doc : yaml) : Prop :=
  forall history,
    env history (PathStatMtime p) = Returns mt
    /\ env history (PathReadText p) = Returns text
    /\ env history (YamlSafeLoad text) = Returns doc.

(** The cache already holds values loaded at modification time [mt], so
    that the file is not read again. *)
Definition cache_hit (mt : pyfloat) (c : sleep_times._Cache) : bool :=
  float_eqb mt (sleep_times.last_modified_time c)
  && match sleep_times.parsed_values c with Some _ => true | None => false end.

(** The document is not a flat mapping from keys to numbers. *)
Definition not_a_number_mapping (doc : yaml) : bool :=
  match doc with
  | YMap items => existsb (fun kv => negb (sleep_times.is_number (snd kv))) items
  | _ => true
  end.

(** The documents the loader rejects: truthy, and not a flat mapping to
    numbers. *)
Definition rejected (doc : yaml) : bool :=
  sleep_times.truthy doc && not_a_number_mapping doc.

(** The errors a rejected document is reported with. *)
Definition is_load_error (e : exn) : bool :=
  match e with
  | ValueError _ | OverflowError => true
  | _ => false
  end.

(** A file system holding one timing file with the given modification time
    and parsed content. *)
Definition env_file (mt : pyfloat) (doc : yaml) : Env :=
  fun history c =>
    match c as c0 return Answer (ret_ty c0) with
    | PathStatMtime _ => Returns mt
    | PathReadText _ => Returns "(file text)"
    | YamlSafeLoad _ => Returns doc
    | c1 => default_answer history c1
    end.

(** The value a [get] returned, if it returned. *)
Definition returned_value {L} (r : Result (pyfloat * sleep_times.SleepTimes) * World L)
    : option pyfloat :=
  match fst r with
  | Ok (v, _) => Some v
  | _ => None
  end.

(** A first lookup of [start_app], default 15 seconds, on a file that
    parses to [doc], answers with the default. *)
Definition silently_defaults (doc : yaml) : Prop :=
  returned_value
    (sleep_times.get (env_file (FFinite 1700000000) doc)
       (sleep_times.init (Some "sleep_times.yaml")) "start_app" (FFinite 15)
       (empty_world tt))
  = Some (FFinite 15).

(** The three events of a load: the stat, the read, the parse. *)
Definition load_events (p : Path) (mt : pyfloat) (text : string) (doc : yaml)
    : list Event :=
  [ {| ev_call := PathStatMtime p; ev_answer := Returns mt |};
    {| ev_call := PathReadText p; ev_answer := Returns text |};
    {| ev_call := YamlSafeLoad text; ev_answer := Returns doc |} ].

(** ** C8: the summary of the ledger *)

(** The ledger of the scenario: two baseline iterations, the second one
    failed, and one instrumented iteration. *)
Definition scenario_ledger : Ledger :=
  [ ("no_frida", [(1, true); (2, false)]); ("frida", [(1, true)]) ].

(** The summary of the scenario, as the code formats it. *)
Definition scenario_summary : string :=
  "Experiment summary:" +:+ nl
  +:+ "no_frida  :  1 /  2 failed: (2)" +:+ nl
  +:+ "frida     :  1 /  1".

(** A context to run the scenario in. *)
Definition scenario_ctx : ExperimentContext :=
  {| package_name := "com.example.app"; phone_id := "PHONE1"; device_name := "lamp";
     config := {| platform := "android"; network_profile := "lan";
                  server_interface := "eth0"; phone_interface := "wlan0";
                  frida_iterations := 1; no_frida_iterations := 2;
                  iptables_script_up_path := "up.sh";
                  iptables_script_down_path := "down.sh";
                  android := Some {| pcapdroid_api_key := "key";
                                     pcap_download_path := "/sdcard/Download/PCAPdroid";
                                     bluetooth_log_path := "/data/log/bt/btsnoop_hci.log" |};
                  ios := None; remote_server_ssh := None;
                  remote_server_interface := None |};
     experiment_path := "out/lamp/2025-01-02_03-04" |}.

(** ** C3: runner selection *)

(** The largest priority among a first entry and the others. *)
Fixpoint max_priority {L} (first : runners._Entry L) (others : list (runners._Entry L)) : Z :=
  match others with
  | [] => runners.priority first
  | x :: rest => Z.max (runners.priority first) (max_priority x rest)
  end.

(** The registered entries whose runner can handle the configuration, in
    registration order. *)
Definition matching {L} (registry : list (runners._Entry L)) (cfg : AppConfig)
    : list (runners._Entry L) :=
  List.filter (fun e => runners.can_handle (runners.cls e) cfg) registry.

(** Among [first :: others], the entries at the largest priority, in
    registration order. *)
Definition tied_at_top {L} (first : runners._Entry L) (others : list (runners._Entry L))
    : list (runners._Entry L) :=
  List.filter (fun e => runners.priority e =? max_priority first others) (first :: others).

(** How a tied candidate is named: the name it was registered under,
    followed by its priority in decimal, as [name(prio=priority)]. *)
Definition candidate_label (name : string) (priority : Z) : string :=
  name +:+ "(prio=" +:+ str_of_int priority +:+ ")".

(** The message of [RunnerAmbiguousError] for the tied candidates: their
    labels, in order, separated by commas. *)
Definition ambiguity_message {L} (tied : list (runners._Entry L)) : string :=
  "Ambiguous config; multiple runners tie: "
  +:+ join ", " (map (fun e => candidate_label (runners.name e) (runners.priority e)) tied).

(** Two classes matching every configuration, registered at priority 5
    under the names [Alpha] and [Beta], and a third at priority 1. *)
Definition runner_named {L} (id : nat) (n : string) : runners.RunnerClass L :=
  {| runners.cls_id := id; runners.cls_name := n;
     runners.can_handle := fun _ => true;
     runners.run := fun _ => pass |}.

Definition tied_registry {L} : list (runners._Entry L) :=
  runners.register None 1 (runner_named 2 "Gamma")
    (runners.register (Some "Beta") 5 (runner_named 1 "B")
       (runners.register None 5 (runner_named 0 "Alpha") [])).

(** ** C1: one ledger entry per started iteration *)

Definition is_server_start_tcpdump (c : Call) : bool :=
  match c with
  | ServerStartTcpdump _ _ => true
  | _ => false
  end.

(** A capture server on which [tcpdump] cannot be started (it is not
    installed); everything else works. *)
Definition env_no_tcpdump : Env := failing is_server_start_tcpdump FileNotFoundError env_ok.


(** ** A Hoare logic for the monad *)

(** [hoare P m Q]: from a world satisfying [P], the computation [m] ends in
    an outcome and a world related by [Q]. *)
Definition hoare {L A} (P : World L -> Prop) (m : M L A)
    (Q : Result A -> World L -> Prop) : Prop :=
  forall w, P w -> Q (fst (m w)) (snd (m w)).

(** ** Cleanup sequences: what runs after a failure *)

(** The calls [kill_tree] and [terminate] guard with their own
    [try]/[except]. *)
Definition guarded_call (c : Call) : bool :=
  match c with
  | OsGetpgid _ | OsKillpg _ _ | PopenKill _ | PopenTerminate _ => true
  | _ => false
  end.

(** The calls whose failure the helper that makes them swallows: the
    signalling calls of [kill_tree] and [terminate], and the first
    attempt of [print_status_msg]. *)
Definition swallowed_call (c : Call) : bool :=
  guarded_call c || match c with TyperEcho _ => true | _ => false end.

(** An external call that raised outside such a guard. *)
Definition unguarded_failure (ev : Event) : bool :=
  match ev_raised ev with
  | Some _ => negb (swallowed_call (ev_call ev))
  | None => false
  end.

(** No call of [evs] raised outside a guard. *)
Definition clean (evs : list Event) : Prop :=
  Forall (fun ev => unguarded_failure ev = false) evs.

(** [evs] ends with the one unguarded failure of the sequence, which
    raised [e]. *)
Definition ends_with_failure (e : exn) (evs : list Event) : Prop :=
  exists pre ev, evs = pre ++ [ev] /\ clean pre
                 /\ ev_raised ev = Some e /\ swallowed_call (ev_call ev) = false.

(** The cleanup is under way from [w0]: calls were made, none failed
    outside a guard, ledger and local variables are as they were. *)
Definition under_way {L} (w0 w : World L) : Prop :=
  exists evs, w = extend w0 evs /\ clean evs.

(** The cleanup was abandoned with [e]: either a variable still held
    [None] ([AttributeError], [TypeError]) and no call failed, or the last
    call made is the one that raised [e]; the ledger is as it was. *)
Definition abandoned {L} (w0 : World L) (e : exn) (w : World L) : Prop :=
  exists evs, w = extend w0 evs
              /\ ((clean evs /\ (e = AttributeError \/ e = TypeError))
                  \/ ends_with_failure e evs).

(** The outcome of one step of a cleanup sequence, returning a value that
    satisfies [V]. *)
Definition step_post {L A} (w0 : World L) (V : A -> Prop) (r : Result A) (w : World L)
    : Prop :=
  match r with
  | Ok a => under_way w0 w /\ V a
  | Raise e => abandoned w0 e w
  | OutOfFuel => False
  end.

(** The outcome of a whole cleanup sequence that ends by recording the
    iteration: it ran to its end without a failure and appended exactly
    the entry [(i, s)] to the phase, or it was abandoned and appended
    nothing. *)
Definition cleanup_post {L} (w0 : World L) (phase : string) (i : Z) (s : bool)
    (r : Result unit) (w : World L) : Prop :=
  match r with
  | Ok _ =>
      exists evs, trace w = trace w0 ++ evs /\ clean evs /\ locals w = locals w0
                  /\ ledger w = context.ledger_append (ledger w0) phase (i, s)
  | Raise e => abandoned w0 e w
  | OutOfFuel => False
  end.









(** ** C2: failures inside cleanup sequences *)






(** ** C4: the order of the stops in an iteration's cleanup *)






(** The events of [if h: h.kill_tree()]. *)
Definition kill_if_set (o : option ProcessHandle) (evs : list Event) : Prop :=
  match o with
  | Some h => signal_attempt (pid h) SIGKILL evs
  | None => evs = []
  end.





(** An iOS WAN context and the local variables of an instrumented
    iteration whose body has run. *)
Definition scenario_phone_ssh : SshConnectionConfig :=
  {| host := "iphone.local"; username := "mobile"; port := 22 |}.

Definition scenario_relay_ssh : SshConnectionConfig :=
  {| host := "relay.example.org"; username := "capture"; port := 22 |}.

Definition scenario_ios : iOSConfig :=
  {| ssh := scenario_phone_ssh; phone_pcap_save_path := "/var/mobile/pcaps" |}.

Definition scenario_ios_wan_ctx : ExperimentContext :=
  {| package_name := "com.example.app"; phone_id := "UDID1"; device_name := "lamp";
     config := {| platform := "ios"; network_profile := "wan";
                  server_interface := "eth0"; phone_interface := "en0";
                  frida_iterations := 1; no_frida_iterations := 1;
                  iptables_script_up_path := "up.sh";
                  iptables_script_down_path := "down.sh";
                  android := None; ios := Some scenario_ios;
                  remote_server_ssh := Some scenario_relay_ssh;
                  remote_server_interface := Some "eth1" |};
     experiment_path := "out/lamp/2025-01-02_03-04" |}.


(** ** C7: the process id passed to the stop of a remote capture *)

(** The process id a start of a remote capture returned. *)
Definition started_pid (ev : Event) : option Z :=
  match ev_call ev as c return Answer (ret_ty c) -> option Z with
  | IosStartTcpdump _ _ _ =>
      fun a => match a with Returns p => Some p | Raises _ => None end
  | SshStartRemoteTcpdump _ _ _ =>
      fun a => match a with Returns p => Some p | Raises _ => None end
  | _ => fun _ => None
  end (ev_answer ev).

(** The process id argument of a stop of a remote capture. *)
Definition stop_target_of (c : Call) : option (option Z) :=
  match c with
  | IosStopTcpdump _ t => Some t
  | SshStopRemoteTcpdump _ t => Some t
  | _ => None
  end.

Definition stop_target (ev : Event) : option (option Z) := stop_target_of (ev_call ev).

(** The process ids the starts of [evs] returned, in order. *)
Definition returned (evs : list Event) : list Z :=
  flat_map (fun ev => match started_pid ev with Some p => [p] | None => [] end) evs.

(** The process ids the stops of [evs] were given, in order. *)
Definition stop_targets (evs : list Event) : list (option Z) :=
  flat_map (fun ev => match stop_target ev with Some t => [t] | None => [] end) evs.




Section PidInvariant.
Context {L : Type}.
Variable ok : list Z -> option Z -> Prop.
Variable held : L -> list Z.
Variable w0 : World L.



End PidInvariant.




Definition scenario_ios_lan_ctx : ExperimentContext :=
  {| package_name := "com.example.app"; phone_id := "UDID1"; device_name := "lamp";
     config := {| platform := "ios"; network_profile := "lan";
                  server_interface := "eth0"; phone_interface := "en0";
                  frida_iterations := 1; no_frida_iterations := 1;
                  iptables_script_up_path := "up.sh";
                  iptables_script_down_path := "down.sh";
                  android := None; ios := Some scenario_ios;
                  remote_server_ssh := None;
                  remote_server_interface := None |};
     experiment_path := "out/lamp/2025-01-02_03-04" |}.

(** ** The ledger of a phase: one entry per completed iteration *)

(** [record_iteration_result] called once for each entry, in order. *)
Definition record_all (l : Ledger) (phase : string) (entries : list (Z * bool)) : Ledger :=
  fold_left (fun acc entry => context.ledger_append acc phase entry) entries l.

(** [m] leaves the ledger alone. *)
Definition frames {L A} (m : M L A) : Prop :=
  forall w, ledger (snd (m w)) = ledger w.

(** What one pass of the loop does to the ledger [l0]: an entry for [i]
    when it returns, nothing when it raises. *)
Definition iteration_post {L} (l0 : Ledger) (phase : string) (i : Z)
    (r : Result unit) (w : World L) : Prop :=
  match r with
  | Ok _ => exists s, ledger w = context.ledger_append l0 phase (i, s)
  | _ => ledger w = l0
  end.

(** What the loop over [xs] does to the ledger [l0]: entries for a prefix
    of [xs], for all of [xs] when it returns. *)
Definition loop_post {L} (l0 : Ledger) (phase : string) (xs : list Z)
    (r : Result unit) (w : World L) : Prop :=
  exists entries,
    ledger w = record_all l0 phase entries
    /\ (exists rest, xs = map fst entries ++ rest)
    /\ (r = Ok tt -> map fst entries = xs).

(** The [try]/[except Exception] of an iteration raises nothing. *)
Definition catches_all {L A} (m : M L A) : Prop :=
  forall w e, fst (m w) <> Raise e.

(** The entries of a phase run: those the phase had, then one entry per
    iteration that completed, with the indices [1, 2, ...] in order, and
    all of [1 .. N] when the phase returns. *)
Definition phase_post {L} (w0 : World L) (phase : string) (n : Z)
    (r : Result unit) (w : World L) : Prop :=
  exists entries,
    ledger w = record_all (ledger w0) phase entries
    /\ context.ledger_get (ledger w) phase = context.ledger_get (ledger w0) phase ++ entries
    /\ (exists rest, range_from_1 n = map fst entries ++ rest)
    /\ (r = Ok tt -> map fst entries = range_from_1 n /\ length entries = Z.to_nat n).

(** ** The timing source: lookups *)

(** An object without a backing file, before or after its first lookup. *)
Definition no_file (self : sleep_times.SleepTimes) : Prop :=
  sleep_times.path self = None
  /\ (sleep_times.parsed_values (sleep_times._cache self) = None
      \/ sleep_times.parsed_values (sleep_times._cache self) = Some ∅).

(** The object already knows that its file is missing: it holds the empty
    values of a miss, and a further miss is not reported again. *)
Definition miss_recorded (c : sleep_times._Cache) : bool :=
  match sleep_times.parsed_values c with
  | Some _ => float_eqb (sleep_times.last_modified_time c) (FFinite (-1 # 1))
  | None => false
  end.

(** The events of a lookup that finds no file. *)
Definition miss_events (p : Path) (c : sleep_times._Cache) : list Event :=
  {| ev_call := PathStatMtime p; ev_answer := Raises FileNotFoundError |}
  :: (if miss_recorded c then []
      else [ {| ev_call := LoggerWarning "SleepTimes file not found (defaults will be used)";
                ev_answer := Returns tt |} ]).

(** [float(value)] of a value the loader accepts: a float is itself, a
    Boolean is 0.0 or 1.0, an integer is the double nearest to it, as long
    as that is finite (integers up to [2^53] in magnitude are kept
    exactly, larger ones are rounded). *)
Definition as_seconds (v : yaml) : option pyfloat :=
  match v with
  | YBool b => Some (FFinite (if b then 1 else 0)%Q)
  | YInt z =>
      if Z.abs z <? 2 ^ 1024 - 2 ^ 970
      then Some (FFinite (inject_Z (sleep_times.nearest_binary64 z)))
      else None
  | YFloat f => Some f
  | _ => None
  end.

(** Every value of the mapping is a number of seconds. *)
Definition all_seconds (items : list (string * yaml)) : bool :=
  forallb (fun kv => match as_seconds (snd kv) with Some _ => true | None => false end) items.

(** The seconds the file gives a key: those of the last item with this key. *)
Fixpoint file_seconds (key : string) (items : list (string * yaml)) : option pyfloat :=
  match items with
  | [] => None
  | (k, v) :: rest =>
      match file_seconds key rest with
      | Some f => Some f
      | None => if String.eqb k key then as_seconds v else None
      end
  end.

(** The values a cache holds. *)
Definition cached_values (c : sleep_times._Cache) : gmap string pyfloat :=
  match sleep_times.parsed_values c with
  | Some d => d
  | None => ∅
  end.

(** [data.get(key, default)]. *)
Definition value_or {A} (o : option A) (default : A) : A :=
  match o with
  | Some v => v
  | None => default
  end.

(** ** The registry and the four runners *)

(** The outcome of [dispatch] when no runner matches. *)
Definition no_runner_matches {L} (w : World L) : Result unit * World L :=
  (Raise (RunnerNotFoundError "No runner matches this configuration."),
   extend w [{| ev_call := LoggerError "No runner matches this configuration.";
                ev_answer := Returns tt |}]).

(** The classes of a registry, by identity. *)
Definition registered_classes {L} (registry : list (runners._Entry L)) : list nat :=
  map (fun e => runners.cls_id (runners.cls e)) registry.

(** ** What a computation leaves alone *)

(** A relation between the world before and the world after that every
    external call respects, and that composes. *)
Class Frame (R : forall L, World L -> World L -> Prop) : Prop := {
  frame_refl : forall L (w : World L), R L w w;
  frame_trans : forall L (w1 w2 w3 : World L), R L w1 w2 -> R L w2 w3 -> R L w1 w3;
  frame_event : forall L (ev : Event) (w : World L), R L w (log_event ev w);
  frame_call_function :
    forall L L' (w : World L) (init : L') (w' : World L'),
      R L' {| trace := trace w; ledger := ledger w; locals := init |} w' ->
      R L w {| trace := trace w'; ledger := ledger w'; locals := locals w |}
}.

(** [m] respects [R], whatever its outcome. *)
Definition respects (R : forall L, World L -> World L -> Prop) {L A} (m : M L A) : Prop :=
  forall w, R L w (snd (m w)).

(** The trace only grows. *)
Definition trace_grows (L : Type) (w w' : World L) : Prop :=
  exists evs, trace w' = trace w ++ evs.

(** The ledger is as it was. *)
Definition same_ledger (L : Type) (w w' : World L) : Prop :=
  ledger w' = ledger w.

(** The local variables are as they were. *)
Definition same_locals (L : Type) (w w' : World L) : Prop :=
  locals w' = locals w.

(** ** The runs of the four runners *)

(** The frame of [run]: [overall_process = None]. *)
Definition run_frame {L} (w : World L) : World (option ProcessHandle) :=
  {| trace := trace w; ledger := ledger w; locals := None |}.

(** The start of the overall capture. *)
Definition start_overall (ctx : ExperimentContext) : Call :=
  ServerStartTcpdump (server_interface (config ctx)) (overall_pcap ctx).

(** The status line that opens the [finally] block of every [run]. *)
Definition stop_msg : string := "🛑 Stopping overall capture…".

(** The console takes the status line [msg]: the [print] that
    [print_status_msg] falls back to when [typer.echo] raised does not
    raise. *)
Definition console_takes (env : Env) (msg : string) : Prop :=
  forall history, env history (Print msg) = Returns tt.

(** The events of a status line that was printed: [typer.echo] returned,
    or it raised and [print] returned. *)
Definition printed (msg : string) (evs : list Event) : Prop :=
  evs = [ {| ev_call := TyperEcho msg; ev_answer := Returns tt |} ]
  \/ exists e, evs = [ {| ev_call := TyperEcho msg; ev_answer := Raises e |};
                       {| ev_call := Print msg; ev_answer := Returns tt |} ].

(** Events of status lines only. *)
Definition status_lines (evs : list Event) : Prop :=
  Forall (fun ev => is_status_line (ev_call ev) = true) evs.

(** The events of [summarise_iterations] on the ledger [l], the write
    being answered with [a]. *)
Definition summary_events (ctx : ExperimentContext) (l : Ledger) (a : Answer unit)
    : list Event :=
  {| ev_call := PathWriteText (path_join (experiment_path ctx) "experiment_summary.txt")
                  (context.summary_text l +:+ nl);
     ev_answer := a |}
  :: match a with
     | Raises e =>
         if is_OSError e
         then [ {| ev_call := LoggerError "Failed to write iteration summary";
                   ev_answer := Returns tt |} ]
         else []
     | Returns _ => []
     end.

(** The exception [summarise_iterations] raises when its write raised [e]. *)
Definition summary_error (e : exn) : exn :=
  if is_OSError e then RuntimeError "Failed to write iteration summary" else e.

(** The kill of the overall capture in the [finally] block of [run]: one
    attempt to signal the handle the start returned, nothing when the
    start raised. *)
Definition overall_kill (started : Answer ProcessHandle) (ks : list Event) : Prop :=
  match started with
  | Returns h => signal_attempt (pid h) SIGKILL ks
  | Raises _ => ks = []
  end.

(** The two iOS runners and the two Android runners. *)
Definition ios_run {L} (env : Env) (wan : bool) (fuel : nat) (ctx : ExperimentContext)
    : M L unit :=
  if wan then ios_wan_runner.run env fuel ctx else ios_lan_runner.run env fuel ctx.



(** What an iOS run does before it asks for the overall capture: three
    status lines. *)
Definition ios_run_opening {L} (env : Env) (wan : bool) : M L unit :=
  let* _ := user_interaction.print_status_msg env
              (if wan then "❗ Don't forget to turn off bluetooth"
               else "❗ Don't forget to turn on bluetooth") in
  let* _ := user_interaction.print_status_msg env
              "❗ Don't forget to turn on App Privacy Report in iOS Settings" in
  user_interaction.print_status_msg env "🟢 Starting overall capture on server…".




(** ** The ledger of a whole run *)

(** The ledger gained, for one phase, an entry for each of its iterations
    [1 .. N], in order. *)
Definition phase_entries (ctx : ExperimentContext) (use_frida : bool) (l l' : Ledger)
    : Prop :=
  exists entries,
    l' = record_all l (phase_name_of use_frida) entries
    /\ map fst entries = range_from_1 (num_iterations_of ctx use_frida).

(** The baseline phase, then the instrumented phase. *)
Definition both_phases (ctx : ExperimentContext) (l l' : Ledger) : Prop :=
  exists l1, phase_entries ctx false l l1 /\ phase_entries ctx true l1 l'.

(** When [m] returns, the ledger has changed by [T]. *)
Definition on_ok {L A} (T : Ledger -> Ledger -> Prop) (m : M L A) : Prop :=
  forall w a, fst (m w) = Ok a -> T (ledger w) (ledger (snd (m w))).

(** ** The adb helpers and the bounded command runner *)

(** [m] ends, with a value or an exception, in every world: it contains
    no loop that waits for the operator. *)
Definition finishes {L A} (m : M L A) : Prop :=
  forall w, fst (m w) <> OutOfFuel.

(** The calls that signal a process or wait for its end. *)
Definition is_signal (c : Call) : bool :=
  match c with
  | OsGetpgid _ | OsKillpg _ _ | PopenTerminate _ | PopenKill _ | PopenWait _ _ => true
  | _ => false
  end.

(** [isinstance(e, subprocess.TimeoutExpired)]. *)
Definition is_timeout (e : exn) : bool :=
  match e with
  | TimeoutExpired _ _ _ _ => true
  | _ => false
  end.

(** [isinstance(e, subprocess.CalledProcessError)]. *)
Definition is_called_process_error (e : exn) : bool :=
  match e with
  | CalledProcessError _ _ _ _ => true
  | _ => false
  end.

(** What [run_and_wait] does with the answer of [proc.communicate] when
    that answer is not a timeout. *)
Definition completed (args : list string) (check : bool) (a : Answer (string * string * Z))
    : Result process_handler.CompletedProcess * list Event :=
  match a with
  | Returns (out, err, rc) =>
      if check && negb (rc =? 0)
      then (Raise (CalledProcessError rc args (Some out) (Some err)),
            [ {| ev_call := LoggerError "Command failed"; ev_answer := Returns tt |} ])
      else (Ok {| process_handler.cp_args := args;
                  process_handler.cp_returncode := rc;
                  process_handler.cp_stdout := Some out;
                  process_handler.cp_stderr := Some err |}, [])
  | Raises e => (Raise e, [])
  end.

(** The staged copy of the Bluetooth log on the phone. *)
Definition staged_bluetooth_log (device_name : string) : Path :=
  "/sdcard/Download" +:+ "/" +:+ ("bluetooth-" +:+ device_name +:+ ".log").

(** The adb command that removes a file from the phone. *)
Definition adb_rm (phone_id : string) (p : Path) : list string :=
  ["adb"; "-s"; phone_id; "shell"; "su"; "-c"; "rm"; p].

(** Between [w] and [w'] the call [c] was made: the trace of [w'] is that
    of [w] followed by events among which is one of [c]. *)
Definition called_since {L} (c : Call) (w w' : World L) : Prop :=
  exists pre a post,
    trace w' = trace w ++ pre ++ {| ev_call := c; ev_answer := a |} :: post.

(** The region of tap number [tap_index], taps being numbered from 1:
    none for a number below 1 or beyond the list. *)
Definition region_of_tap {A} (crop_list : option (list A)) (tap_index : Z) : option A :=
  match crop_list with
  | None => None
  | Some l => if tap_index <? 1 then None else nth_error l (Z.to_nat (tap_index - 1))
  end.

(** ** The ledger as a dictionary *)

(** The phases of a ledger, in the order of its keys. *)
Definition phases (l : Ledger) : list string := map fst l.

(** The keys after an entry was recorded for [phase]: a phase seen for the
    first time comes last. *)
Definition phases_with (l : Ledger) (phase : string) : list string :=
  if existsb (String.eqb phase) (phases l) then phases l else phases l ++ [phase].

(** ** The adb helpers *)

(** The command line [_adb] builds. *)
Definition adb_command (phone_id : string) (adb_args : list string) : list string :=
  "adb" :: "-s" :: phone_id :: adb_args.

(** The helpers of communication/android.py that run one adb command and
    return nothing, each with the arguments it gives to adb. *)
Definition adb_helpers {L} (env : Env) (strip : string -> string)
    (phone_id package_name dump_name phone_interface pcapdroid_api_key : string)
    (file_path destination_path : Path) : list (list string * M L unit) :=
  [ (["shell"; "monkey"; "-p"; package_name;
      "-c"; "android.intent.category.LAUNCHER"; "1"],
     comm_android.start_app env strip phone_id package_name);
    (["shell"; "am"; "force-stop"; package_name],
     comm_android.stop_app env strip phone_id package_name);
    (["uninstall"; package_name],
     comm_android.uninstall_app env strip phone_id package_name);
    (["reboot"], comm_android.reboot env strip phone_id);
    (["shell"; "am"; "start";
      "-e"; "action"; "start";
      "-e"; "pcap_dump_mode"; "pcap_file";
      "-e"; "app_filter"; package_name;
      "-e"; "pcap_name"; comm_android._ensure_pcap_name dump_name;
      "-e"; "root_capture"; "true";
      "-e"; "capture_interface"; phone_interface;
      "-e"; "auto_block_private_dns"; "false";
      "-e"; "api_key"; pcapdroid_api_key;
      "-n"; "com.emanuelef.remote_capture/com.emanuelef.remote_capture.activities.CaptureCtrl"],
     comm_android.start_pcapdroid env strip phone_id package_name dump_name
       phone_interface pcapdroid_api_key);
    (["shell"; "am"; "start";
      "-e"; "action"; "stop";
      "-e"; "api_key"; pcapdroid_api_key;
      "-n"; "com.emanuelef.remote_capture/com.emanuelef.remote_capture.activities.CaptureCtrl"],
     comm_android.stop_pcapdroid env strip phone_id pcapdroid_api_key);
    (["pull"; file_path; destination_path],
     comm_android.pull_file_to_server env strip phone_id file_path destination_path);
    (["shell"; "su"; "-c"; "rm"; file_path],
     comm_android.delete_file_from_phone env strip phone_id file_path);
    (["shell"; "svc"; "bluetooth"; "enable"],
     comm_android.enable_bluetooth env strip phone_id);
    (["shell"; "svc"; "bluetooth"; "disable"],
     comm_android.disable_bluetooth env strip phone_id);
    (["shell"; "settings"; "put"; "system"; "accelerometer_rotation"; "0"],
     comm_android.disable_autorotate env strip phone_id) ].

(** How a helper ends when its command exited with status [rc], and what
    it logs: nothing is returned for status 0, any other status is logged
    and raised. *)
Definition adb_outcome (cmd : list string) (out err : string) (rc : Z)
    : Result unit * list Event :=
  if rc =? 0 then (Ok tt, [])
  else (Raise (CalledProcessError rc cmd (Some out) (Some err)),
        [ {| ev_call := LoggerError "Command failed"; ev_answer := Returns tt |} ]).

(** An environment in which every command runs to its end and exits with
    the given output and status; the other calls are answered as by
    [env_ok]. *)
Definition env_exit (out err : string) (rc : Z) : Env :=
  fun history c =>
    match c as c0 return Answer (ret_ty c0) with
    | PopenCommunicate _ _ => Returns (out, err, rc)
    | c1 => env_ok history c1
    end.

(** * Properties *)

(** ** Worlds, traces and the monad *)

Lemma extend_nil {L} (w : World L) : extend w [] = w.
Proof. destruct w; unfold extend; simpl. now rewrite app_nil_r. Qed.

Lemma extend_extend {L} (w : World L) (a b : list Event) :
  extend (extend w a) b = extend w (a ++ b).
Proof. unfold extend; simpl. now rewrite app_assoc. Qed.

Lemma log_event_extend {L} (ev : Event) (w : World L) : log_event ev w = extend w [ev].
Proof. reflexivity. Qed.

Lemma call_returns {L} (env : Env) (c : Call) (w : World L) (v : ret_ty c) :
  env (trace w) c = Returns v ->
  call env c w = (Ok v, extend w [{| ev_call := c; ev_answer := Returns v |}]).
Proof. intros H. unfold call. now rewrite H. Qed.

Lemma call_raises {L} (env : Env) (c : Call) (w : World L) (e : exn) :
  env (trace w) c = Raises e ->
  call env c w = (Raise e, extend w [{| ev_call := c; ev_answer := Raises e |}]).
Proof. intros H. unfold call. now rewrite H. Qed.

(** ** Process handles: signalling a group, with its fallback *)

(** Proof steps: run the next external call of the goal under both answers
    of the environment. *)
Ltac step_call :=
  match goal with
  | |- context [call ?env ?c ?w] =>
      let H := fresh "Hcall" in
      let v := fresh "v" in
      let e := fresh "e" in
      destruct (env (trace w) c) as [v|e] eqn:H;
      [ rewrite (call_returns env c w v H);
        simpl in v; try match type of v with unit => destruct v end
      | rewrite (call_raises env c w e H) ];
      cbv beta iota
  end.

Ltac unfold_monad := unfold try_finally, try_except, bind, pass, ret, raise, when, attr.

(** Signalling a group never raises, and leaves one attempt in the trace. *)
Lemma signal_group_runs {L} (env : Env) (proc : Z) (sig : Signal) (w : World L) :
  exists evs, signal_group env proc sig w = (Ok tt, extend w evs)
              /\ signal_attempt proc sig evs.
Proof.
  unfold signal_group; unfold_monad.
  step_call.
  - step_call.
    + eexists. rewrite extend_extend. split; [reflexivity|].
      apply attempt_group.
    + destruct sig; step_call; rewrite !extend_extend; eexists;
        (split; [reflexivity|]);
        first [ apply (attempt_group_failed proc SIGTERM v e (Returns tt))
              | apply (attempt_group_failed proc SIGTERM v e (Raises e0))
              | apply (attempt_group_failed proc SIGKILL v e (Returns tt))
              | apply (attempt_group_failed proc SIGKILL v e (Raises e0)) ].
  - destruct sig; step_call; rewrite !extend_extend; eexists;
      (split; [reflexivity|]);
      first [ apply (attempt_no_group proc SIGTERM e (Returns tt))
            | apply (attempt_no_group proc SIGTERM e (Raises e0))
            | apply (attempt_no_group proc SIGKILL e (Returns tt))
            | apply (attempt_no_group proc SIGKILL e (Raises e0)) ].
Qed.

Lemma kill_tree_is_signal_group {L} (env : Env) (h : ProcessHandle) :
  @process_handler.kill_tree env L h = signal_group env (pid h) SIGKILL.
Proof. reflexivity. Qed.

Lemma terminate_is_signal_group {L} (env : Env) (h : ProcessHandle) :
  @process_handler.terminate env L h = signal_group env (pid h) SIGTERM.
Proof. reflexivity. Qed.

(** [kill_tree] returns normally in every world, whatever the operating
    system answers. *)
Lemma kill_tree_runs {L} (env : Env) (h : ProcessHandle) (w : World L) :
  exists evs, process_handler.kill_tree env h w = (Ok tt, extend w evs)
              /\ signal_attempt (pid h) SIGKILL evs.
Proof. rewrite kill_tree_is_signal_group. apply signal_group_runs. Qed.

(** ** C9: [kill_tree] on a dead handle *)

Lemma kill_tree_on_dead_handle {L} (env : Env) (h : ProcessHandle) (w : World L) :
  process_dead env h ->
  exists a, process_handler.kill_tree env h w = (Ok tt, extend w (dead_kill_events h a)).
Proof.
  intros Hdead. unfold process_handler.kill_tree; unfold_monad.
  rewrite (call_raises env _ w _ (Hdead (trace w))). cbv beta iota.
  step_call; rewrite extend_extend.
  - now exists (Returns tt).
  - now exists (Raises e).
Qed.

(** C9. For every process handle whose process is already dead,
    [kill_tree()] raises no exception, and a second [kill_tree()] on the
    same handle raises none either: each call returns normally, having
    only looked the process group up in vain and tried the child. *)
Theorem kill_tree_twice_on_dead_handle {L} (env : Env) (h : ProcessHandle)
    (w : World L) :
  process_dead env h ->
  exists a1 a2,
    let w1 := extend w (dead_kill_events h a1) in
    let w2 := extend w1 (dead_kill_events h a2) in
    process_handler.kill_tree env h w = (Ok tt, w1)
    /\ process_handler.kill_tree env h w1 = (Ok tt, w2).
Proof.
  intros Hdead.
  destruct (kill_tree_on_dead_handle env h w Hdead) as [a1 H1].
  destruct (kill_tree_on_dead_handle env h (extend w (dead_kill_events h a1)) Hdead)
    as [a2 H2].
  exists a1, a2. cbv zeta. split; assumption.
Qed.

Lemma kill_tree_twice_on_dead_handle_witness :
  process_dead env_all_dead {| pid := 4711 |}
  /\ exists a1 a2,
       let w1 := extend (empty_world tt) (dead_kill_events {| pid := 4711 |} a1) in
       let w2 := extend w1 (dead_kill_events {| pid := 4711 |} a2) in
       process_handler.kill_tree env_all_dead {| pid := 4711 |} (empty_world tt) = (Ok tt, w1)
       /\ process_handler.kill_tree env_all_dead {| pid := 4711 |} w1 = (Ok tt, w2).
Proof.
  assert (Hdead : process_dead env_all_dead {| pid := 4711 |})
    by (intros history; reflexivity).
  split; [exact Hdead|].
  exact (kill_tree_twice_on_dead_handle env_all_dead {| pid := 4711 |} (empty_world tt) Hdead).
Defined.

(** ** C5: the bounded command runner on timeout *)

(** C5, as stated, fails: this timed-out invocation raises
    [TimeoutExpired] with the captured output and the requested timeout
    after a graceful group signal, and no forceful kill is ever sent. *)
Lemma run_and_wait_timeout_without_kill :
  let r := process_handler.run_and_wait env_exits_on_sigterm ["sleep"; "60"]
             (Some (3 # 2)%Q) false (empty_world tt) in
  fst r = Raise (TimeoutExpired ["sleep"; "60"] (Some (3 # 2)%Q)
                   (Some "partial output") (Some ""))
  /\ graceful_group_signal_sent (trace (snd r)) = true
  /\ forceful_kill_sent (trace (snd r)) = false.
Proof. vm_compute. repeat split. Qed.

(** ** Stepping through the monad *)

Lemma bind_ok {L A B} (m : M L A) (k : A -> M L B) (w w' : World L) (a : A) :
  m w = (Ok a, w') -> bind m k w = k a w'.
Proof. intros H. unfold bind. now rewrite H. Qed.

Lemma bind_raise {L A B} (m : M L A) (k : A -> M L B) (w w' : World L) (e : exn) :
  m w = (Raise e, w') -> bind m k w = (Raise e, w').
Proof. intros H. unfold bind. now rewrite H. Qed.

Lemma try_except_ok {L A} (m : M L A) (h : exn -> M L A) (w w' : World L) (a : A) :
  m w = (Ok a, w') -> try_except m h w = (Ok a, w').
Proof. intros H. unfold try_except. now rewrite H. Qed.

Lemma try_except_raise {L A} (m : M L A) (h : exn -> M L A) (w w' : World L) (e : exn) :
  m w = (Raise e, w') -> try_except m h w = h e w'.
Proof. intros H. unfold try_except. now rewrite H. Qed.

Lemma log_error_runs {L} (msg : string) (w : World L) :
  log_error msg w = (Ok tt, extend w [{| ev_call := LoggerError msg; ev_answer := Returns tt |}]).
Proof. reflexivity. Qed.

Lemma read_output_runs {L} (env : Env) (proc : Z) (e_output e_stderr : option string)
    (w : World L) :
  exists read,
    try_except
      (let* r := call env (PopenCommunicate proc (Some 1%Q)) in
       ret (Some (fst (fst r)), Some (snd (fst r))))
      (fun _ => ret (e_output, e_stderr)) w
    = (Ok (captured_streams read e_output e_stderr),
       extend w [{| ev_call := PopenCommunicate proc (Some 1%Q); ev_answer := read |}]).
Proof.
  destruct (env (trace w) (PopenCommunicate proc (Some 1%Q))) as [r|e] eqn:Hread.
  - exists (Returns r). apply try_except_ok.
    now rewrite (bind_ok _ _ _ _ _ (call_returns env _ _ _ Hread)).
  - exists (Raises e).
    rewrite (try_except_raise _ _ _ _ _
               (bind_raise _ _ _ _ _ (call_raises env _ _ _ Hread))).
    reflexivity.
Qed.

Lemma grace_period_runs {L} (env : Env) (proc : Z) (w : World L) :
  exists waited kill,
    try_except
      (let* _ := call env (PopenWait proc (Some 2%Q)) in pass)
      (fun _ => try_except
         (let* pg := call env (OsGetpgid proc) in call env (OsKillpg pg SIGKILL))
         (fun _ => try_except (call env (PopenKill proc)) (fun _ => pass))) w
    = (Ok tt, extend w ([{| ev_call := PopenWait proc (Some 2%Q); ev_answer := waited |}]
                          ++ kill))
    /\ match waited with
       | Returns _ => kill = []
       | Raises _ => signal_attempt proc SIGKILL kill
       end.
Proof.
  change (try_except
            (let* pg := call env (OsGetpgid proc) in call env (OsKillpg pg SIGKILL))
            (fun _ => try_except (call env (PopenKill proc)) (fun _ => pass)))
    with (@signal_group L env proc SIGKILL).
  destruct (env (trace w) (PopenWait proc (Some 2%Q))) as [rc|e] eqn:Hwait.
  - exists (Returns rc), []. split; [|reflexivity].
    apply try_except_ok.
    now rewrite (bind_ok _ _ _ _ _ (call_returns env _ _ _ Hwait)).
  - destruct (signal_group_runs env proc SIGKILL
                (extend w [{| ev_call := PopenWait proc (Some 2%Q);
                              ev_answer := Raises e |}])) as [kill [Hkill Hatt]].
    exists (Raises e), kill. split; [|exact Hatt].
    rewrite (try_except_raise _ _ _ _ _
               (bind_raise _ _ _ _ _ (call_raises env _ _ _ Hwait))).
    rewrite Hkill. now rewrite extend_extend.
Qed.

Lemma on_timeout_runs {L} (env : Env) (args : list string) (timeout : option Q)
    (proc : Z) (e_output e_stderr : option string) (w : World L) :
  exists term waited kill read,
    process_handler.on_timeout env args timeout proc e_output e_stderr w
    = (Raise (TimeoutExpired args timeout
                (fst (captured_streams read e_output e_stderr))
                (snd (captured_streams read e_output e_stderr))),
       extend w (timeout_handling_events proc term waited kill read))
    /\ signal_attempt proc SIGTERM term
    /\ match waited with
       | Returns _ => kill = []
       | Raises _ => signal_attempt proc SIGKILL kill
       end.
Proof.
  unfold process_handler.on_timeout, timeout_handling_events.
  change (try_except
            (let* pg := call env (OsGetpgid proc) in call env (OsKillpg pg SIGTERM))
            (fun _ => try_except (call env (PopenTerminate proc)) (fun _ => pass)))
    with (@signal_group L env proc SIGTERM).
  set (w1 := extend w [{| ev_call := LoggerError "Timeout. Terminating group";
                          ev_answer := Returns tt |}]).
  destruct (signal_group_runs env proc SIGTERM w1) as [term [Hterm Hatt]].
  destruct (grace_period_runs env proc (extend w1 term)) as [waited [kill [Hgrace Hkill]]].
  set (w2 := extend (extend w1 term)
               ([{| ev_call := PopenWait proc (Some 2%Q); ev_answer := waited |}] ++ kill))
    in Hgrace.
  destruct (read_output_runs env proc e_output e_stderr w2) as [read Hread].
  exists term, waited, kill, read.
  split; [|split; assumption].
  rewrite (bind_ok _ _ w w1 tt (log_error_runs _ w)).
  rewrite (bind_ok _ _ _ _ _ Hterm).
  rewrite (bind_ok _ _ _ _ _ Hgrace).
  rewrite (bind_ok _ _ _ _ _ Hread).
  unfold raise, w2, w1. rewrite !extend_extend. rewrite <- !app_assoc. reflexivity.
Qed.

(** C5, amended. When the command does not complete within the timeout,
    [run_and_wait] sends a graceful signal to the process group (to the
    child alone if the group cannot be signalled), waits two seconds, and
    sends the forceful kill only if that wait did not see the process
    exit; it then reads the output for at most a second and raises
    [TimeoutExpired] with the command, the requested timeout and the
    captured streams (those of the final read, else those of the first
    timeout, possibly none). *)
Theorem run_and_wait_timeout_escalation {L} (env : Env) (args : list string)
    (timeout : option Q) (check : bool) (w : World L) (proc : Z)
    (cmd0 : list string) (t0 : option Q) (e_output e_stderr : option string) :
  env (trace w) (PopenSpawn args) = Returns proc ->
  env (trace w ++ [{| ev_call := PopenSpawn args; ev_answer := Returns proc |}])
      (PopenCommunicate proc timeout)
    = Raises (TimeoutExpired cmd0 t0 e_output e_stderr) ->
  exists term waited kill read,
    process_handler.run_and_wait env args timeout check w
    = (Raise (TimeoutExpired args timeout
                (fst (captured_streams read e_output e_stderr))
                (snd (captured_streams read e_output e_stderr))),
       extend w
         ([ {| ev_call := PopenSpawn args; ev_answer := Returns proc |};
            {| ev_call := PopenCommunicate proc timeout;
               ev_answer := Raises (TimeoutExpired cmd0 t0 e_output e_stderr) |} ]
          ++ timeout_handling_events proc term waited kill read))
    /\ signal_attempt proc SIGTERM term
    /\ match waited with
       | Returns _ => kill = []
       | Raises _ => signal_attempt proc SIGKILL kill
       end.
Proof.
  intros Hspawn Hcomm.
  set (w1 := extend w [{| ev_call := PopenSpawn args; ev_answer := Returns proc |}]).
  change (trace w ++ [{| ev_call := PopenSpawn args; ev_answer := Returns proc |}])
    with (trace w1) in Hcomm.
  set (w2 := extend w1 [{| ev_call := PopenCommunicate proc timeout;
                           ev_answer := Raises (TimeoutExpired cmd0 t0 e_output e_stderr) |}]).
  destruct (on_timeout_runs env args timeout proc e_output e_stderr w2)
    as [term [waited [kill [read [Hrun [Hatt Hkill]]]]]].
  exists term, waited, kill, read.
  split; [|split; assumption].
  unfold process_handler.run_and_wait.
  rewrite (bind_ok _ _ _ _ _ (call_returns env _ w _ Hspawn)).
  apply bind_raise.
  rewrite (try_except_raise _ _ _ _ _
             (bind_raise _ _ _ _ _ (call_raises env _ _ _ Hcomm))).
  fold w1. fold w2. rewrite Hrun.
  unfold w2, w1. now rewrite !extend_extend.
Qed.

Lemma run_and_wait_timeout_escalation_witness :
  exists term waited kill read,
    process_handler.run_and_wait env_exits_on_sigterm ["sleep"; "60"]
      (Some (3 # 2)%Q) false (empty_world tt)
    = (Raise (TimeoutExpired ["sleep"; "60"] (Some (3 # 2)%Q)
                (fst (captured_streams read None None))
                (snd (captured_streams read None None))),
       extend (empty_world tt)
         ([ {| ev_call := PopenSpawn ["sleep"; "60"]; ev_answer := Returns 4321 |};
            {| ev_call := PopenCommunicate 4321 (Some (3 # 2)%Q);
               ev_answer := Raises (TimeoutExpired [] (Some (3 # 2)%Q) None None) |} ]
          ++ timeout_handling_events 4321 term waited kill read))
    /\ signal_attempt 4321 SIGTERM term
    /\ match waited with
       | Returns _ => kill = []
       | Raises _ => signal_attempt 4321 SIGKILL kill
       end.
Proof.
  apply (run_and_wait_timeout_escalation env_exits_on_sigterm ["sleep"; "60"]
           (Some (3 # 2)%Q) false (empty_world tt) 4321 [] (Some (3 # 2)%Q) None None);
    reflexivity.
Defined.

(** ** C6 and C10: the timing source and its backing file *)

Lemma parse_items_rejects {L} (items : list (string * yaml))
    (parsed : gmap string pyfloat) (w : World L) :
  existsb (fun kv => negb (sleep_times.is_number (snd kv))) items = true ->
  exists e, sleep_times.parse_items items parsed w = (Raise e, w)
            /\ is_load_error e = true.
Proof.
  revert parsed.
  induction items as [|[key value] rest IH]; intros parsed Hex; simpl in Hex.
  - discriminate.
  - simpl. destruct (sleep_times.is_number value) eqn:Hnum; simpl in *.
    + destruct value; try discriminate; simpl.
      * apply IH, Hex.
      * unfold sleep_times.float_of_int. cbv zeta.
        destruct (Z.abs (sleep_times.nearest_binary64 z) <? 2 ^ 1024).
        -- apply IH, Hex.
        -- now exists OverflowError.
      * apply IH, Hex.
    + eexists. split; reflexivity.
Qed.

(** With the file present and the cache not holding values for its
    modification time, [_load_if_file_changed] reads and parses the file
    and then validates the document. *)
Lemma load_reads_file {L} (env : Env) (self : sleep_times.SleepTimes)
    (p : Path) (mt : pyfloat) (text : string) (doc : yaml) (w : World L) :
  sleep_times.path self = Some p ->
  file_present env p mt text doc ->
  cache_hit mt (sleep_times._cache self) = false ->
  sleep_times._load_if_file_changed env self w
  = match (if sleep_times.truthy doc then doc else YMap []) with
    | YMap items =>
        let* parsed := sleep_times.parse_items items ∅ in
        ret {| sleep_times.path := Some p;
               sleep_times._cache :=
                 {| sleep_times.last_modified_time := mt;
                    sleep_times.parsed_values := Some parsed |} |}
    | _ => raise (ValueError "Sleep times file must be a mapping")
    end (extend w (load_events p mt text doc)).
Proof.
  intros Hpath Hfile Hmiss. unfold cache_hit in Hmiss.
  unfold sleep_times._load_if_file_changed. rewrite Hpath.
  destruct (Hfile (trace w)) as [Hstat _].
  set (w1 := extend w [{| ev_call := PathStatMtime p; ev_answer := Returns mt |}]).
  assert (Hs : try_except (let* t := call env (PathStatMtime p) in ret (Some t))
                 (fun e => match e with FileNotFoundError => ret None | _ => raise e end) w
               = (Ok (Some mt), w1)).
  { apply try_except_ok. now rewrite (bind_ok _ _ _ _ _ (call_returns env _ _ _ Hstat)). }
  rewrite (bind_ok _ _ _ _ _ Hs). rewrite Hmiss.
  destruct (Hfile (trace w1)) as [_ [Hread _]].
  rewrite (bind_ok _ _ _ _ _ (call_returns env _ _ _ Hread)).
  set (w2 := extend w1 [{| ev_call := PathReadText p; ev_answer := Returns text |}]).
  destruct (Hfile (trace w2)) as [_ [_ Hload]].
  rewrite (bind_ok _ _ _ _ _ (call_returns env _ _ _ Hload)).
  unfold w2, w1. rewrite !extend_extend. reflexivity.
Qed.

(** With the file present and the cache holding values for its
    modification time, [_load_if_file_changed] only stats the file. *)
Lemma load_uses_cache {L} (env : Env) (self : sleep_times.SleepTimes)
    (p : Path) (mt : pyfloat) (text : string) (doc : yaml) (w : World L) :
  sleep_times.path self = Some p ->
  file_present env p mt text doc ->
  cache_hit mt (sleep_times._cache self) = true ->
  sleep_times._load_if_file_changed env self w
  = (Ok self, extend w [{| ev_call := PathStatMtime p; ev_answer := Returns mt |}]).
Proof.
  intros Hpath Hfile Hhit. unfold cache_hit in Hhit.
  unfold sleep_times._load_if_file_changed. rewrite Hpath.
  destruct (Hfile (trace w)) as [Hstat _].
  assert (Hs : try_except (let* t := call env (PathStatMtime p) in ret (Some t))
                 (fun e => match e with FileNotFoundError => ret None | _ => raise e end) w
               = (Ok (Some mt),
                  extend w [{| ev_call := PathStatMtime p; ev_answer := Returns mt |}])).
  { apply try_except_ok. now rewrite (bind_ok _ _ _ _ _ (call_returns env _ _ _ Hstat)). }
  rewrite (bind_ok _ _ _ _ _ Hs). now rewrite Hhit.
Qed.

(** C6, on the code: a backing file whose top level is an empty list is
    not a mapping from keys to numbers, and yet [get] returns the caller's
    default for it instead of raising; so for a top level that is [0],
    [0.0], [false] or an empty string.  [yaml.safe_load(raw_text) or {}]
    replaces every falsy document by an empty mapping before the check
    that the document is a mapping. *)
Theorem get_defaults_on_empty_list_document :
  Forall (fun doc => not_a_number_mapping doc = true /\ silently_defaults doc)
    [YSeq []; YInt 0; YFloat (FFinite 0); YBool false; YStr ""].
Proof. repeat constructor. Qed.

(** X20. If the backing file is present and its parsed content is a truthy
    top level that is not a mapping, or a mapping with a value that is not
    an int, a float or a bool, then [get] raises ([ValueError], or
    [OverflowError] for an integer too large for a float) on every call,
    for every key and default and whatever happened before, as long as
    the object does not already hold values for the file's modification
    time. *)
Theorem get_raises_on_rejected_file {L} (env : Env) (self : sleep_times.SleepTimes)
    (p : Path) (mt : pyfloat) (text : string) (doc : yaml) :
  sleep_times.path self = Some p ->
  file_present env p mt text doc ->
  rejected doc = true ->
  cache_hit mt (sleep_times._cache self) = false ->
  forall (key : string) (default : pyfloat) (w : World L),
  exists e w',
    sleep_times.get env self key default w = (Raise e, w')
    /\ is_load_error e = true.
Proof.
  intros Hpath Hfile Hrej Hmiss key default w.
  unfold rejected in Hrej. apply andb_true_iff in Hrej as [Htruthy Hbad].
  unfold sleep_times.get.
  pose proof (load_reads_file env self p mt text doc w Hpath Hfile Hmiss) as Hload.
  rewrite Htruthy in Hload.
  destruct doc; simpl in Hbad;
    try (exists (ValueError "Sleep times file must be a mapping");
         eexists; split; [apply bind_raise; exact Hload | reflexivity]).
  destruct (parse_items_rejects items ∅ (extend w (load_events p mt text (YMap items))) Hbad)
    as [e [Hparse He]].
  exists e. eexists. split; [|exact He].
  apply bind_raise. rewrite Hload. apply bind_raise. exact Hparse.
Qed.

Lemma get_raises_on_rejected_file_witness :
  sleep_times.path (sleep_times.init (Some "sleep_times.yaml")) = Some "sleep_times.yaml"
  /\ file_present (env_file (FFinite 1700000000) (YSeq [YInt 1; YInt 2]))
       "sleep_times.yaml" (FFinite 1700000000) "(file text)" (YSeq [YInt 1; YInt 2])
  /\ rejected (YSeq [YInt 1; YInt 2]) = true
  /\ forall (key : string) (default : pyfloat) (w : World unit),
     exists e w',
       sleep_times.get (env_file (FFinite 1700000000) (YSeq [YInt 1; YInt 2]))
         (sleep_times.init (Some "sleep_times.yaml")) key default w = (Raise e, w')
       /\ is_load_error e = true.
Proof.
  assert (Hfile : file_present (env_file (FFinite 1700000000) (YSeq [YInt 1; YInt 2]))
                    "sleep_times.yaml" (FFinite 1700000000) "(file text)"
                    (YSeq [YInt 1; YInt 2]))
    by (intros history; repeat split).
  repeat split; try exact Hfile.
  exact (get_raises_on_rejected_file
           (env_file (FFinite 1700000000) (YSeq [YInt 1; YInt 2]))
           (sleep_times.init (Some "sleep_times.yaml")) "sleep_times.yaml"
           (FFinite 1700000000) "(file text)" (YSeq [YInt 1; YInt 2])
           eq_refl Hfile eq_refl eq_refl).
Defined.

(** ** C10: an empty document *)

(** C10, as stated, fails: the file is read again only when its
    modification time changes.  A first lookup on a file that holds
    [start_app: 3] returns 3 and keeps the values; the file is then
    emptied without a change of its modification time, and the next
    lookup still returns 3, not the caller's default; the file is not
    read. *)
Lemma get_answers_from_cache_on_emptied_file :
  let first := sleep_times.get (env_file (FFinite 1700000000)
                                  (YMap [("start_app", YInt 3)]))
                 (sleep_times.init (Some "sleep_times.yaml")) "start_app" (FFinite 15)
                 (empty_world tt) in
  exists self,
    fst first = Ok (FFinite 3, self)
    /\ file_present (env_file (FFinite 1700000000) YNull)
         "sleep_times.yaml" (FFinite 1700000000) "(file text)" YNull
    /\ sleep_times.get (env_file (FFinite 1700000000) YNull) self "start_app" (FFinite 15)
         (snd first)
       = (Ok (FFinite 3, self),
          extend (snd first)
            [{| ev_call := PathStatMtime "sleep_times.yaml";
                ev_answer := Returns (FFinite 1700000000) |}]).
Proof.
  eexists. split; [reflexivity|]. split; [intros history; repeat split|].
  reflexivity.
Qed.

(** C10, amended. If the backing file exists and its parsed content is
    empty ([yaml.safe_load] returns [None]: an empty file, or comments
    only), [get] reads it as an empty mapping: for every key it returns
    the caller's default, without raising, and leaves an empty mapping in
    the cache -- provided the object does not already hold values of an
    earlier, non-empty content under the file's modification time: those
    are served as long as the modification time stays the same. *)
Theorem get_defaults_on_empty_document {L} (env : Env) (self : sleep_times.SleepTimes)
    (p : Path) (mt : pyfloat) (text : string) :
  sleep_times.path self = Some p ->
  file_present env p mt text YNull ->
  (cache_hit mt (sleep_times._cache self) = true ->
   sleep_times.parsed_values (sleep_times._cache self) = Some ∅) ->
  forall (key : string) (default : pyfloat) (w : World L),
  exists self' w',
    sleep_times.get env self key default w = (Ok (default, self'), w')
    /\ sleep_times.path self' = Some p
    /\ sleep_times.parsed_values (sleep_times._cache self') = Some ∅.
Proof.
  intros Hpath Hfile Hcache key default w.
  destruct (cache_hit mt (sleep_times._cache self)) eqn:Hhit.
  - (* the cache already holds the empty mapping *)
    specialize (Hcache eq_refl).
    exists self. eexists. split; [|split; [exact Hpath|exact Hcache]].
    unfold sleep_times.get.
    rewrite (bind_ok _ _ _ _ _ (load_uses_cache env self p mt text YNull w Hpath Hfile Hhit)).
    unfold ret. rewrite Hcache. now rewrite lookup_empty.
  - pose proof (load_reads_file env self p mt text YNull w Hpath Hfile Hhit) as Hload.
    cbn in Hload.
    eexists. eexists. split; [|split].
    + unfold sleep_times.get. rewrite (bind_ok _ _ _ _ _ Hload).
      unfold ret. cbn. now rewrite lookup_empty.
    + reflexivity.
    + reflexivity.
Qed.

Lemma get_defaults_on_empty_document_witness :
  file_present (env_file (FFinite 1700000000) YNull)
    "sleep_times.yaml" (FFinite 1700000000) "(file text)" YNull
  /\ forall (key : string) (default : pyfloat) (w : World unit),
     exists self' w',
       sleep_times.get (env_file (FFinite 1700000000) YNull)
         (sleep_times.init (Some "sleep_times.yaml")) key default w
       = (Ok (default, self'), w')
       /\ sleep_times.path self' = Some "sleep_times.yaml"
       /\ sleep_times.parsed_values (sleep_times._cache self') = Some ∅.
Proof.
  assert (Hfile : file_present (env_file (FFinite 1700000000) YNull)
                    "sleep_times.yaml" (FFinite 1700000000) "(file text)" YNull)
    by (intros history; repeat split).
  split; [exact Hfile|].
  refine (get_defaults_on_empty_document (env_file (FFinite 1700000000) YNull)
            (sleep_times.init (Some "sleep_times.yaml")) "sleep_times.yaml"
            (FFinite 1700000000) "(file text)" eq_refl Hfile _).
  intros H. discriminate H.
Defined.

(** ** C8: the summary of the ledger *)

(** The scenario's ledger is what three [record_iteration_result] calls
    leave in an empty ledger. *)
Lemma scenario_ledger_recorded :
  ledger (snd ((let* _ := context.record_iteration_result "no_frida" 1 true in
                let* _ := context.record_iteration_result "no_frida" 2 false in
                context.record_iteration_result "frida" 1 true) (empty_world tt)))
  = scenario_ledger.
Proof. reflexivity. Qed.

(** C8, as stated, fails: the summary of the scenario's ledger contains
    neither ['no_frida: 1 / 2 failed: (2)'] nor ['frida: 1 / 1'], because
    the phase name is padded to ten characters and each count to two. *)
Lemma summary_lacks_unpadded_substrings :
  contains "no_frida: 1 / 2 failed: (2)" (context.summary_text scenario_ledger) = false
  /\ contains "frida: 1 / 1" (context.summary_text scenario_ledger) = false.
Proof. split; vm_compute; reflexivity. Qed.

(** C8, amended. For the scenario's ledger, [summarise_iterations] (when
    the summary file can be written) returns the header and one line per
    phase, in the order the phases were first recorded: the phase name
    left-justified in ten characters, the successful and total counts
    right-justified in two, and the failed indices only when there are
    some.  The text contains ['no_frida  :  1 /  2 failed: (2)'] and
    ['frida     :  1 /  1']; with whitespace removed it contains
    ['no_frida:1/2failed:(2)'] and ['frida:1/1']. *)
Theorem summarise_iterations_scenario {L} (env : Env) (ctx : ExperimentContext)
    (w : World L) :
  ledger w = scenario_ledger ->
  env (trace w)
      (PathWriteText (path_join (experiment_path ctx) "experiment_summary.txt")
         (scenario_summary +:+ nl)) = Returns tt ->
  context.summarise_iterations env ctx w
  = (Ok scenario_summary,
     extend w [{| ev_call := PathWriteText
                               (path_join (experiment_path ctx) "experiment_summary.txt")
                               (scenario_summary +:+ nl);
                  ev_answer := Returns tt |}])
  /\ contains "no_frida  :  1 /  2 failed: (2)" scenario_summary = true
  /\ contains "frida     :  1 /  1" scenario_summary = true
  /\ contains "no_frida:1/2failed:(2)" (remove_whitespace scenario_summary) = true
  /\ contains "frida:1/1" (remove_whitespace scenario_summary) = true
  /\ context.summary_line "frida" [(1, true)] = "frida     :  1 /  1".
Proof.
  intros Hledger Hwrite.
  split; [|repeat split; vm_compute; reflexivity].
  unfold context.summarise_iterations. rewrite Hledger.
  assert (Htext : context.summary_text scenario_ledger = scenario_summary)
    by (vm_compute; reflexivity).
  rewrite Htext.
  pose proof (call_returns env _ w _ Hwrite) as Hcall.
  rewrite (bind_ok _ _ _ _ _ (try_except_ok _ _ _ _ _ Hcall)).
  reflexivity.
Qed.

Lemma summarise_iterations_scenario_witness :
  context.summarise_iterations env_ok scenario_ctx
    {| trace := []; ledger := scenario_ledger; locals := tt |}
  = (Ok scenario_summary,
     extend {| trace := []; ledger := scenario_ledger; locals := tt |}
       [{| ev_call := PathWriteText
                        (path_join (experiment_path scenario_ctx) "experiment_summary.txt")
                        (scenario_summary +:+ nl);
           ev_answer := Returns tt |}])
  /\ contains "no_frida  :  1 /  2 failed: (2)" scenario_summary = true
  /\ contains "frida     :  1 /  1" scenario_summary = true
  /\ contains "no_frida:1/2failed:(2)" (remove_whitespace scenario_summary) = true
  /\ contains "frida:1/1" (remove_whitespace scenario_summary) = true
  /\ context.summary_line "frida" [(1, true)] = "frida     :  1 /  1".
Proof.
  apply (summarise_iterations_scenario env_ok scenario_ctx
           {| trace := []; ledger := scenario_ledger; locals := tt |});
    reflexivity.
Defined.

(** ** C3: runner selection *)

(** The sort is stable: the entries of any one priority come out in the
    order they went in. *)
Lemma filter_insert_desc {L} (p : Z) (e : runners._Entry L) (l : list (runners._Entry L)) :
  List.filter (fun x => runners.priority x =? p) (runners.insert_desc e l)
  = List.filter (fun x => runners.priority x =? p) (e :: l).
Proof.
  induction l as [|x rest IH]; [reflexivity|].
  cbn [runners.insert_desc].
  destruct (runners.priority e <? runners.priority x) eqn:Hlt; [|reflexivity].
  apply Z.ltb_lt in Hlt.
  cbn [List.filter] in *. rewrite IH.
  destruct (runners.priority e =? p) eqn:He; [|reflexivity].
  apply Z.eqb_eq in He.
  destruct (runners.priority x =? p) eqn:Hx; [|reflexivity].
  apply Z.eqb_eq in Hx. lia.
Qed.

Lemma filter_sorted_desc {L} (p : Z) (l : list (runners._Entry L)) :
  List.filter (fun x => runners.priority x =? p) (runners.sorted_desc l)
  = List.filter (fun x => runners.priority x =? p) l.
Proof.
  induction l as [|e rest IH]; [reflexivity|].
  unfold runners.sorted_desc in *. cbn [fold_right].
  rewrite filter_insert_desc. cbn [List.filter]. now rewrite IH.
Qed.

(** The sorted list starts with an entry of the largest priority. *)
Lemma sorted_desc_head {L} (first : runners._Entry L) (others : list (runners._Entry L)) :
  exists e tl, runners.sorted_desc (first :: others) = e :: tl
               /\ runners.priority e = max_priority first others.
Proof.
  revert first. induction others as [|x rest IH]; intros first.
  - exists first, []. split; reflexivity.
  - destruct (IH x) as [e [tl [Hs Hp]]].
    unfold runners.sorted_desc in *. cbn [fold_right] in *. rewrite Hs.
    cbn [runners.insert_desc max_priority].
    destruct (runners.priority first <? runners.priority e) eqn:Hlt.
    + apply Z.ltb_lt in Hlt. exists e. eexists. split; [reflexivity|]. lia.
    + apply Z.ltb_ge in Hlt. exists first. eexists. split; [reflexivity|]. lia.
Qed.

(** Substrings of concatenations and joins. *)
Lemma append_cons (a : ascii) (s t : string) : String a s +:+ t = String a (s +:+ t).
Proof. reflexivity. Qed.

Lemma append_empty_right (s : string) : s +:+ "" = s.
Proof. induction s as [|a s IH]; [reflexivity|]. now rewrite append_cons, IH. Qed.

Lemma prefix_append (s t : string) : String.prefix s (s +:+ t) = true.
Proof.
  induction s as [|a s IH]; [now destruct t|].
  rewrite append_cons. cbn [String.prefix].
  destruct (ascii_dec a a); [exact IH|contradiction].
Qed.

Lemma contains_unfold (needle hay : string) :
  contains needle hay
  = String.prefix needle hay
    || match hay with
       | EmptyString => false
       | String _ rest => contains needle rest
       end.
Proof. destruct hay; reflexivity. Qed.

Lemma contains_append_here (needle t : string) : contains needle (needle +:+ t) = true.
Proof. rewrite contains_unfold, prefix_append. reflexivity. Qed.

Lemma contains_append_right (needle p t : string) :
  contains needle t = true -> contains needle (p +:+ t) = true.
Proof.
  intros H. induction p as [|a p IH]; [exact H|].
  rewrite append_cons, contains_unfold, IH. apply orb_true_r.
Qed.

Lemma contains_join (sep x : string) (l : list string) :
  In x l -> contains x (join sep l) = true.
Proof.
  induction l as [|a rest IH]; intros Hin; [contradiction|].
  unfold join in *. cbn [String.concat].
  destruct Hin as [->|Hin].
  - destruct rest.
    + rewrite <- (append_empty_right x) at 2. apply contains_append_here.
    + apply contains_append_here.
  - destruct rest as [|b rest']; [contradiction|].
    apply contains_append_right, contains_append_right, IH, Hin.
Qed.

(** The ambiguity message names every tied candidate with its priority. *)
Lemma ambiguity_message_names {L} (tied : list (runners._Entry L)) :
  Forall (fun e => contains (candidate_label (runners.name e) (runners.priority e))
                     (ambiguity_message tied) = true) tied.
Proof.
  apply List.Forall_forall. intros e Hin. unfold ambiguity_message.
  apply contains_append_right, contains_join.
  exact (in_map (fun e => candidate_label (runners.name e) (runners.priority e)) tied e Hin).
Qed.

(** The message for two candidates tied at priority 5 above a third. *)
Lemma ambiguity_message_of_tied_registry (ctx : ExperimentContext) :
  fst (runners.dispatch tied_registry ctx (empty_world tt))
  = Raise (RunnerAmbiguousError
             "Ambiguous config; multiple runners tie: Alpha(prio=5), Beta(prio=5)").
Proof. reflexivity. Qed.

(** C3. For every registry and configuration, [dispatch] evaluates the
    capability check of every registered runner and: with no match it
    raises [RunnerNotFoundError]; with exactly one match at the largest
    priority among the matches it does exactly what that runner's [run]
    does, outcome and effects included, so that an error of the runner
    propagates unchanged; with two or more matches tied at the largest
    priority it raises [RunnerAmbiguousError] with a message that lists,
    in registration order and separated by commas, every tied candidate
    by the name it was registered under and its priority in decimal, as
    [name(prio=priority)]; the same message is logged as an error. *)
Theorem dispatch_selects {L} (registry : list (runners._Entry L))
    (ctx : ExperimentContext) (w : World L) :
  match matching registry (config ctx) with
  | [] =>
      runners.dispatch registry ctx w
      = (Raise (RunnerNotFoundError "No runner matches this configuration."),
         extend w [{| ev_call := LoggerError "No runner matches this configuration.";
                      ev_answer := Returns tt |}])
  | first :: others =>
      match tied_at_top first others with
      | [entry] =>
          runners.dispatch registry ctx w = runners.run (runners.cls entry) ctx w
      | tied =>
          runners.dispatch registry ctx w
          = (Raise (RunnerAmbiguousError (ambiguity_message tied)),
             extend w [{| ev_call := LoggerError (ambiguity_message tied);
                          ev_answer := Returns tt |}])
          /\ Forall (fun e => contains (candidate_label (runners.name e) (runners.priority e))
                               (ambiguity_message tied) = true)
               tied
      end
  end.
Proof.
  unfold runners.dispatch, matching.
  destruct (List.filter (fun e => runners.can_handle (runners.cls e) (config ctx)) registry)
    as [|first others] eqn:Hm.
  - reflexivity.
  - destruct (sorted_desc_head first others) as [e [tl [Hs Hp]]].
    unfold tied_at_top.
    assert (Htop : List.filter (fun x => runners.priority x =? runners.priority e)
                     (runners.sorted_desc (first :: others))
                   = List.filter (fun x => runners.priority x =? max_priority first others)
                       (first :: others)).
    { rewrite filter_sorted_desc. now rewrite Hp. }
    rewrite Hs in *.
    rewrite (bind_ok _ _ w w e eq_refl).
    rewrite Htop.
    destruct (List.filter (fun x => runners.priority x =? max_priority first others)
                (first :: others)) as [|a [|b rest]];
      first [ reflexivity | split; [reflexivity | apply ambiguity_message_names] ].
Qed.

(** ** C1: one ledger entry per started iteration *)

(** C1, on the code: with two baseline iterations configured and a capture
    start that raises, the first iteration is entered, its [except] block
    marks it failed, and its [finally] block stops at
    [server_process.kill_tree()] with [AttributeError], the variable still
    holding [None].  The error leaves the phase loop: nothing is appended
    to the ledger, and the second iteration is never started. *)
Theorem iteration_phase_loses_entry_when_capture_start_raises :
  android_lan._iteration_phase env_no_tcpdump scenario_ctx false (empty_world tt)
  = (Raise AttributeError,
     {| trace :=
          [ {| ev_call := TyperEcho "➡️  NO_FRIDA phase: 2 iterations";
               ev_answer := Returns tt |};
            {| ev_call := PathMkdir "out/lamp/2025-01-02_03-04/no_frida";
               ev_answer := Returns tt |};
            {| ev_call := TyperEcho "  • no_frida iteration 1/2…";
               ev_answer := Returns tt |};
            {| ev_call := ServerStartTcpdump "eth0"
                 "out/lamp/2025-01-02_03-04/no_frida/iteration-1-no_frida-server-lamp.pcap";
               ev_answer := Raises FileNotFoundError |};
            {| ev_call := LoggerError "iteration failed"; ev_answer := Returns tt |};
            {| ev_call := AndroidStopPcapdroid "PHONE1" "key"; ev_answer := Returns tt |} ];
        ledger := [];
        locals := tt |}).
Proof. vm_compute. reflexivity. Qed.

(** ** A Hoare logic for the monad *)

Lemma hoare_bind {L A B} (P : World L -> Prop) (m : M L A) (k : A -> M L B)
    (Q1 : Result A -> World L -> Prop) (Q : Result B -> World L -> Prop) :
  hoare P m Q1 ->
  (forall a, hoare (Q1 (Ok a)) (k a) Q) ->
  (forall e w, Q1 (Raise e) w -> Q (Raise e) w) ->
  (forall w, Q1 OutOfFuel w -> Q OutOfFuel w) ->
  hoare P (bind m k) Q.
Proof.
  intros Hm Hk He Hf w Hw. specialize (Hm w Hw). unfold bind.
  destruct (m w) as [[a|e|] w1]; simpl in Hm.
  - apply Hk, Hm.
  - apply He, Hm.
  - apply Hf, Hm.
Qed.




(** ** Cleanup sequences: what runs after a failure *)

Lemma clean_nil : clean [].
Proof. constructor. Qed.

Lemma clean_app (a b : list Event) : clean a -> clean b -> clean (a ++ b).
Proof. unfold clean. intros. apply Forall_app. now split. Qed.

Lemma under_way_refl {L} (w : World L) : under_way w w.
Proof. exists []. split; [now rewrite extend_nil | apply clean_nil]. Qed.

Lemma step_bind {L A B} (w0 : World L) (V : A -> Prop) (m : M L A) (k : A -> M L B)
    (Q : Result B -> World L -> Prop) :
  hoare (under_way w0) m (step_post w0 V) ->
  (forall a, V a -> hoare (under_way w0) (k a) Q) ->
  (forall e w, abandoned w0 e w -> Q (Raise e) w) ->
  hoare (under_way w0) (bind m k) Q.
Proof.
  intros Hm Hk He. apply (hoare_bind _ _ _ (step_post w0 V)); [exact Hm| | |].
  - intros a w [Hw Ha]. now apply Hk.
  - intros e w Hw. now apply He.
  - intros w [].
Qed.

Section Steps.
Context {L : Type} (env : Env) (w0 : World L).

Lemma step_external_call (c : Call) :
  swallowed_call c = false ->
  hoare (under_way w0) (call env c) (step_post w0 (fun _ => True)).
Proof.
  intros Hc w [evs [-> Hclean]]. unfold call. cbn [fst snd].
  destruct (env (trace (extend w0 evs)) c) as [v|e] eqn:Ha; cbn [step_post].
  - split; [|exact I]. eexists. rewrite log_event_extend, extend_extend.
    split; [reflexivity|]. apply clean_app; [exact Hclean|].
    constructor; [|constructor]. reflexivity.
  - eexists. rewrite log_event_extend, extend_extend. split; [reflexivity|].
    right. eexists _, _. split; [reflexivity|]. repeat split; assumption.
Qed.

Lemma step_get_locals :
  hoare (under_way w0) get_locals (step_post w0 (fun l => l = locals w0)).
Proof.
  intros w [evs [-> Hclean]]. cbn. split; [|reflexivity]. now exists evs.
Qed.

Lemma step_attr {A} (o : option A) :
  hoare (under_way w0) (attr o) (step_post w0 (fun a => o = Some a)).
Proof.
  intros w [evs [-> Hclean]]. destruct o; cbn.
  - split; [now exists evs|reflexivity].
  - exists evs. split; [reflexivity|]. left. split; [exact Hclean|now left].
Qed.

Lemma step_path_div (p : Path) (o : option string) :
  hoare (under_way w0) (path_div p o)
    (step_post w0 (fun q => exists n, o = Some n /\ q = path_join p n)).
Proof.
  intros w [evs [-> Hclean]]. destruct o; cbn.
  - split; [now exists evs|]. now eexists.
  - exists evs. split; [reflexivity|]. left. split; [exact Hclean|now right].
Qed.

Lemma signal_attempt_clean (proc : Z) (sig : Signal) (evs : list Event) :
  signal_attempt proc sig evs -> clean evs.
Proof.
  intros H. destruct H; destruct sig; repeat constructor;
    unfold unguarded_failure, ev_raised; cbn;
    try match goal with |- context [match ?a with _ => _ end] => destruct a end;
    reflexivity.
Qed.

Lemma step_kill_tree (h : ProcessHandle) :
  hoare (under_way w0) (process_handler.kill_tree env h) (step_post w0 (fun _ => True)).
Proof.
  intros w [evs [-> Hclean]].
  destruct (kill_tree_runs env h (extend w0 evs)) as [ks [Hrun Hatt]].
  rewrite Hrun. cbn. split; [|exact I].
  exists (evs ++ ks). rewrite extend_extend. split; [reflexivity|].
  apply clean_app; [exact Hclean|]. eapply signal_attempt_clean, Hatt.
Qed.

Lemma step_kill_tree_of (o : option ProcessHandle) :
  hoare (under_way w0) (kill_tree_of env o) (step_post w0 (fun _ => True)).
Proof.
  unfold kill_tree_of.
  apply (step_bind w0 (fun a => o = Some a)); [apply step_attr| |].
  - intros a _. apply step_kill_tree.
  - intros e w Hw. exact Hw.
Qed.

Lemma step_kill_tree_if_set (o : option ProcessHandle) :
  hoare (under_way w0) (kill_tree_if_set env o) (step_post w0 (fun _ => True)).
Proof.
  destruct o; cbn [kill_tree_if_set]; [apply step_kill_tree|].
  intros w Hw. cbn. now split.
Qed.

Lemma step_when (b : bool) (m : M L unit) :
  hoare (under_way w0) m (step_post w0 (fun _ => True)) ->
  hoare (under_way w0) (when b m) (step_post w0 (fun _ => True)).
Proof.
  intros Hm. destruct b; [exact Hm|]. intros w Hw. cbn. now split.
Qed.

(** A status line: the failure of [typer.echo] is swallowed, the one of
    the [print] that follows it is not. *)
Lemma print_status_msg_runs (msg : string) (w : World L) :
  exists evs,
    snd (user_interaction.print_status_msg env msg w) = extend w evs
    /\ match fst (user_interaction.print_status_msg env msg w) with
       | Ok _ => clean evs
       | Raise e => ends_with_failure e evs
       | OutOfFuel => False
       end.
Proof.
  unfold user_interaction.print_status_msg, try_except, call. cbn [fst snd].
  destruct (env (trace w) (TyperEcho msg)) as [[]|e1] eqn:H1.
  - exists [{| ev_call := TyperEcho msg; ev_answer := Returns tt |}].
    split; [now rewrite log_event_extend|]. now repeat constructor.
  - cbn [fst snd log_event trace].
    destruct (env (trace w ++ [{| ev_call := TyperEcho msg; ev_answer := Raises e1 |}])
                (Print msg)) as [[]|e2] eqn:H2.
    + exists [{| ev_call := TyperEcho msg; ev_answer := Raises e1 |};
              {| ev_call := Print msg; ev_answer := Returns tt |}].
      split; [|now repeat constructor].
      unfold log_event, extend. cbn [trace ledger locals]. now rewrite <- List.app_assoc.
    + exists [{| ev_call := TyperEcho msg; ev_answer := Raises e1 |};
              {| ev_call := Print msg; ev_answer := Raises e2 |}].
      split.
      * unfold log_event, extend. cbn [trace ledger locals]. now rewrite <- List.app_assoc.
      * exists [{| ev_call := TyperEcho msg; ev_answer := Raises e1 |}],
               {| ev_call := Print msg; ev_answer := Raises e2 |}.
        repeat split. now repeat constructor.
Qed.

Lemma step_print_status_msg (msg : string) :
  hoare (under_way w0) (user_interaction.print_status_msg env msg)
    (step_post w0 (fun _ => True)).
Proof.
  intros w [evs [-> Hclean]].
  destruct (print_status_msg_runs msg (extend w0 evs)) as [ps [Hw Hr]].
  rewrite Hw.
  destruct (fst (user_interaction.print_status_msg env msg (extend w0 evs))) as [[]|e|];
    cbn [step_post]; [| |contradiction].
  - split; [|exact I]. exists (evs ++ ps). rewrite extend_extend.
    split; [reflexivity|]. now apply clean_app.
  - exists (evs ++ ps). rewrite extend_extend. split; [reflexivity|]. right.
    destruct Hr as [pre [ev [-> [Hpre [Hev Hg]]]]].
    exists (evs ++ pre), ev. rewrite List.app_assoc.
    repeat split; try assumption. now apply clean_app.
Qed.

End Steps.

Lemma record_ends_cleanup {L} (w0 : World L) (phase : string) (i : Z) (s : bool) :
  hoare (under_way w0) (context.record_iteration_result phase i s)
    (cleanup_post w0 phase i s).
Proof.
  intros w [evs [-> Hclean]]. cbn. exists evs. repeat split. exact Hclean.
Qed.

(** One step of a cleanup sequence, followed by the rest. *)
Ltac cleanup_step :=
  eapply step_bind;
  [ first [ apply step_external_call; reflexivity
          | apply step_print_status_msg
          | apply step_get_locals
          | apply step_kill_tree_of
          | apply step_kill_tree_if_set
          | apply step_path_div
          | apply step_attr
          | match goal with
            | |- hoare _ (when _ (call ?e ?c)) _ =>
                apply step_when; apply (step_external_call e _ c); reflexivity
            end ]
  | intros ? ?
  | intros ? ? ?; assumption ].

Lemma android_lan_finally_fails_fast (env : Env) (ctx : ExperimentContext)
    (a : AndroidConfig) (use_frida : bool) (target_dir : Path) (i : Z)
    (w0 : World android_lan.Locals) :
  hoare (under_way w0) (android_lan.iteration_finally env ctx a use_frida target_dir i)
    (cleanup_post w0 (phase_name_of use_frida) i (android_lan.success (locals w0))).
Proof.
  unfold android_lan.iteration_finally.
  repeat cleanup_step.
  cbv beta in *. subst. apply record_ends_cleanup.
Qed.

Lemma ios_wan_finally_fails_fast (env : Env) (ctx : ExperimentContext)
    (io : iOSConfig) (use_frida : bool) (target_dir : Path) (i : Z)
    (w0 : World ios_wan.Locals) :
  hoare (under_way w0) (ios_wan.iteration_finally env ctx io use_frida target_dir i)
    (cleanup_post w0 (phase_name_of use_frida) i (ios_wan.success (locals w0))).
Proof.
  unfold ios_wan.iteration_finally.
  repeat cleanup_step.
  eapply step_bind; [ | intros ? ? | intros ? ? ?; assumption ].
  - instantiate (1 := fun _ => True).
    destruct use_frida.
    + cleanup_step.
      match goal with
      | |- hoare _ (call ?e ?c) _ => apply (step_external_call e _ c); reflexivity
      end.
    + intros w Hw. cbn. now split.
  - repeat cleanup_step.
    cbv beta in *. subst. apply record_ends_cleanup.
Qed.

(** *** Cleanup sequences whose variables are set *)


Section StrictSteps.
Context {L : Type} (env : Env) (w0 : World L).










End StrictSteps.







(** ** C2: failures inside cleanup sequences *)




(** ** C4: the order of the stops in an iteration's cleanup *)









Lemma get_locals_runs {L} (w : World L) : get_locals w = (Ok (locals w), w).
Proof. reflexivity. Qed.








(** ** C7: the process id passed to the stop of a remote capture *)




Section PidDiscipline.
Context {L : Type}.
Variable ok : list Z -> option Z -> Prop.
Variable held : L -> list Z.
Variable env : Env.
Variable w0 : World L.





















End PidDiscipline.

Section PidDisciplineSteps.
Context {L : Type}.
Variable ok : list Z -> option Z -> Prop.
Variable held : L -> list Z.
Variable env : Env.
Variable w0 : World L.








End PidDisciplineSteps.














(** The adjustment is in the LAN profile: a run of its iteration phase and
    a run of its setup phase stop the capture with the returned process id
    plus one. *)
Lemma ios_lan_stops_with_adjustment :
  let evs := trace (snd (ios_lan._iteration_phase env_ok scenario_ios_lan_ctx false
                           (empty_world tt))) in
  let setup := trace (snd (ios_lan._record_setup_phase env_ok 1 scenario_ios_lan_ctx
                             (empty_world tt))) in
  returned evs = [4020] /\ stop_targets evs = [Some 4021]
  /\ returned setup = [4010] /\ stop_targets setup = [Some 4011].
Proof. vm_compute. repeat split. Qed.


(** ** The ledger of a phase: one entry per completed iteration *)

Lemma frames_bind {L A B} (m : M L A) (k : A -> M L B) :
  frames m -> (forall a, frames (k a)) -> frames (bind m k).
Proof.
  intros Hm Hk w. unfold bind. specialize (Hm w).
  destruct (m w) as [[a|e|] w1]; cbn [snd] in *; [|exact Hm|exact Hm].
  rewrite Hk. exact Hm.
Qed.

Lemma frames_try_except {L A} (m : M L A) (h : exn -> M L A) :
  frames m -> (forall e, frames (h e)) -> frames (try_except m h).
Proof.
  intros Hm Hh w. unfold try_except. specialize (Hm w).
  destruct (m w) as [[a|e|] w1]; cbn [snd] in *; [exact Hm| |exact Hm].
  rewrite Hh. exact Hm.
Qed.

Lemma frames_call {L} (env : Env) (c : Call) : frames (L := L) (call env c).
Proof. intros w. reflexivity. Qed.

Lemma frames_assign {L} (f : L -> L) : frames (assign f).
Proof. intros w. reflexivity. Qed.

Lemma frames_log_error {L} (msg : string) : frames (L := L) (log_error msg).
Proof. intros w. reflexivity. Qed.

Lemma frames_pass {L} : frames (L := L) pass.
Proof. intros w. reflexivity. Qed.

Lemma frames_attr {L A} (o : option A) : frames (L := L) (attr o).
Proof. intros w. destruct o; reflexivity. Qed.

Lemma frames_int_of_float {L} (f : pyfloat) : frames (L := L) (int_of_float f).
Proof. intros w. destruct f; reflexivity. Qed.

Lemma frames_print_status_msg {L} (env : Env) (msg : string) :
  frames (L := L) (user_interaction.print_status_msg env msg).
Proof.
  unfold user_interaction.print_status_msg.
  apply frames_try_except; [|intros e]; apply frames_call.
Qed.

Ltac frames_step :=
  lazymatch goal with
  | |- frames (user_interaction.print_status_msg _ _) => apply frames_print_status_msg
  | |- frames (bind _ _) => apply frames_bind; [ | intros ? ]
  | |- frames (call _ _) => apply frames_call
  | |- frames (assign _) => apply frames_assign
  | |- frames (log_error _) => apply frames_log_error
  | |- frames pass => apply frames_pass
  | |- frames (attr _) => apply frames_attr
  | |- frames (int_of_float _) => apply frames_int_of_float
  end.

Lemma android_lan_body_frames (env : Env) (ctx : ExperimentContext) (a : AndroidConfig)
    (use_frida : bool) (target_dir : Path) (i : Z) :
  frames (try_except (android_lan.iteration_body env ctx a use_frida target_dir i)
            android_lan.iteration_except).
Proof.
  apply frames_try_except.
  - unfold android_lan.iteration_body, when. destruct use_frida; repeat frames_step.
  - intros e. unfold android_lan.iteration_except. repeat frames_step.
Qed.

Lemma ios_wan_body_frames (env : Env) (ctx : ExperimentContext) (io : iOSConfig)
    (use_frida : bool) (target_dir log_folder : Path) (i : Z) :
  frames (try_except (ios_wan.iteration_body env ctx io use_frida target_dir log_folder i)
            ios_wan.iteration_except).
Proof.
  apply frames_try_except.
  - unfold ios_wan.iteration_body, when. destruct use_frida; repeat frames_step.
  - intros e. unfold ios_wan.iteration_except. repeat frames_step.
Qed.

Lemma try_except_catches_all {L} (m : M L unit) (h : exn -> M L unit) :
  (forall e w, fst (h e w) = Ok tt) -> catches_all (try_except m h).
Proof.
  intros Hh w e. unfold try_except.
  destruct (m w) as [[a|e'|] w1]; cbn [fst]; try discriminate.
  rewrite Hh. discriminate.
Qed.

(** A cleanup that fails fast turns a framed [try]/[except] into a pass of
    the loop. *)
Lemma iteration_records_once {L} (phase : string) (i : Z) (s : L -> bool)
    (body : M L unit) (cleanup : M L unit) (reset : L -> L) :
  frames body -> catches_all body ->
  (forall w0, hoare (under_way w0) cleanup (cleanup_post w0 phase i (s (locals w0)))) ->
  forall l0,
    hoare (fun w => ledger w = l0)
      (bind (assign reset) (fun _ => try_finally body cleanup))
      (iteration_post l0 phase i).
Proof.
  intros Hbody Hcatch Hclean l0 w Hw. unfold bind, assign, try_finally.
  pose proof (Hbody {| trace := trace w; ledger := ledger w; locals := reset (locals w) |})
    as Hl.
  pose proof (Hcatch {| trace := trace w; ledger := ledger w; locals := reset (locals w) |})
    as Hr.
  cbn [ledger] in Hl.
  destruct (body {| trace := trace w; ledger := ledger w; locals := reset (locals w) |})
    as [[[]|e|] w2]; cbn [fst snd] in *.
  - pose proof (Hclean w2 w2 (under_way_refl w2)) as Hc.
    destruct (cleanup w2) as [[[]|e|] w3]; cbn [fst snd cleanup_post iteration_post] in *.
    + destruct Hc as [evs [_ [_ [_ Hc]]]]. exists (s (locals w2)). congruence.
    + destruct Hc as [evs [-> _]]. cbn [ledger extend]. congruence.
    + destruct Hc.
  - now destruct (Hr e).
  - cbn [iteration_post]. congruence.
Qed.

(** The status line that opens an iteration leaves the ledger alone. *)
Lemma frames_before_iteration {L A} (l0 : Ledger) (phase : string) (i : Z)
    (m : M L A) (k : A -> M L unit) :
  frames m ->
  (forall a, hoare (fun w => ledger w = l0) (k a) (iteration_post l0 phase i)) ->
  hoare (fun w => ledger w = l0) (bind m k) (iteration_post l0 phase i).
Proof.
  intros Hm Hk w Hw. unfold bind. specialize (Hm w).
  destruct (m w) as [[a|e|] w1]; cbn [fst snd iteration_post] in *.
  - apply Hk. congruence.
  - congruence.
  - congruence.
Qed.

Lemma record_all_app (l : Ledger) (phase : string) (a b : list (Z * bool)) :
  record_all l phase (a ++ b) = record_all (record_all l phase a) phase b.
Proof. unfold record_all. apply fold_left_app. Qed.

(** The loop: the iterations that return leave their entry, in order; the
    first that raises ends the loop. *)
Lemma for_each_records {L} (phase : string) (body : Z -> M L unit) (xs : list Z) :
  (forall i l0, hoare (fun w => ledger w = l0) (body i) (iteration_post l0 phase i)) ->
  forall l0,
    hoare (fun w => ledger w = l0) (for_each xs body) (loop_post l0 phase xs).
Proof.
  intros Hbody. induction xs as [|x xs IH]; intros l0 w Hw; cbn [for_each].
  - exists []. cbn. repeat split; [exact Hw|now exists []].
  - unfold bind. pose proof (Hbody x l0 w Hw) as Hx.
    destruct (body x w) as [[[]|e|] w1]; cbn [fst snd iteration_post] in *.
    + destruct Hx as [s Hx].
      destruct (IH _ w1 Hx) as [entries [Hl [[rest Hp] Hok]]].
      exists ((x, s) :: entries). split; [exact Hl|]. split.
      * exists rest. cbn. now rewrite Hp at 1.
      * intros Hr. cbn. now rewrite (Hok Hr).
    + exists []. cbn. split; [exact Hx|]. split; [now exists (x :: xs)|discriminate].
    + exists []. cbn. split; [exact Hx|]. split; [now exists (x :: xs)|discriminate].
Qed.

(** The entries of a phase after [record_all]. *)
Lemma ledger_get_append (l : Ledger) (phase : string) (entry : Z * bool) :
  context.ledger_get (context.ledger_append l phase entry) phase
  = context.ledger_get l phase ++ [entry].
Proof.
  induction l as [|[p results] rest IH]; cbn.
  - now rewrite String.eqb_refl.
  - destruct (String.eqb p phase) eqn:E; cbn; rewrite E; [reflexivity|exact IH].
Qed.

Lemma ledger_get_record_all (l : Ledger) (phase : string) (entries : list (Z * bool)) :
  context.ledger_get (record_all l phase entries) phase
  = context.ledger_get l phase ++ entries.
Proof.
  revert l. induction entries as [|e entries IH]; intros l; cbn.
  - now rewrite app_nil_r.
  - change (fold_left _ entries ?x) with (record_all x phase entries).
    rewrite IH, ledger_get_append, <- app_assoc. reflexivity.
Qed.

Lemma range_from_1_length (n : Z) : length (range_from_1 n) = Z.to_nat n.
Proof. unfold range_from_1. now rewrite length_map, length_seq. Qed.

Lemma loop_is_phase {L L'} (w0 : World L) (phase : string) (n : Z)
    (r : Result unit) (w' : World L') (w : World L) :
  loop_post (ledger w0) phase (range_from_1 n) r w' ->
  ledger w = ledger w' ->
  phase_post w0 phase n r w.
Proof.
  intros [entries [Hl [Hp Hok]]] Hw. exists entries. rewrite Hw, Hl.
  split; [reflexivity|]. split; [apply ledger_get_record_all|]. split; [exact Hp|].
  intros Hr. specialize (Hok Hr). split; [exact Hok|].
  rewrite <- (length_map fst), Hok. apply range_from_1_length.
Qed.

(** A step that leaves the ledger alone, before the loop. *)
Lemma frames_then {L A} (l0 : Ledger) (phase : string) (xs : list Z)
    (m : M L A) (k : A -> M L unit) :
  frames m ->
  (forall a, hoare (fun w => ledger w = l0) (k a) (loop_post l0 phase xs)) ->
  hoare (fun w => ledger w = l0) (bind m k) (loop_post l0 phase xs).
Proof.
  intros Hm Hk w Hw. unfold bind. specialize (Hm w).
  destruct (m w) as [[a|e|] w1]; cbn [fst snd] in *.
  - apply Hk. congruence.
  - exists []. cbn. split; [congruence|]. split; [now eexists|discriminate].
  - exists []. cbn. split; [congruence|]. split; [now eexists|discriminate].
Qed.

(** A phase is a function call: the loop runs on the caller's ledger. *)
Lemma phase_records {L L'} (phase : string) (n : Z) (init : L') (body : M L' unit)
    (w : World L) :
  hoare (fun w1 => ledger w1 = ledger w) body (loop_post (ledger w) phase (range_from_1 n)) ->
  phase_post w phase n (fst (call_function init body w)) (snd (call_function init body w)).
Proof.
  intros Hbody. unfold call_function.
  specialize (Hbody {| trace := trace w; ledger := ledger w; locals := init |} eq_refl).
  destruct (body {| trace := trace w; ledger := ledger w; locals := init |}) as [r w'].
  cbn [fst snd] in *. eapply loop_is_phase; [exact Hbody|reflexivity].
Qed.

Lemma android_lan_phase_ledger (env : Env) {L} (ctx : ExperimentContext)
    (use_frida : bool) (w : World L) :
  phase_post w (phase_name_of use_frida) (num_iterations_of ctx use_frida)
    (fst (android_lan._iteration_phase env ctx use_frida w))
    (snd (android_lan._iteration_phase env ctx use_frida w)).
Proof.
  unfold android_lan._iteration_phase. apply phase_records.
  apply frames_then; [apply frames_attr|intros a].
  apply frames_then; [apply frames_print_status_msg|intros _].
  apply frames_then; [apply frames_call|intros _].
  apply for_each_records. intros i l0. unfold android_lan.iteration.
  apply frames_before_iteration; [apply frames_print_status_msg|intros _].
  apply (iteration_records_once _ _ android_lan.success).
  - apply android_lan_body_frames.
  - apply try_except_catches_all. reflexivity.
  - intros w0. apply android_lan_finally_fails_fast.
Qed.

Lemma ios_wan_phase_ledger (env : Env) {L} (ctx : ExperimentContext)
    (use_frida : bool) (w : World L) :
  phase_post w (phase_name_of use_frida) (num_iterations_of ctx use_frida)
    (fst (ios_wan._iteration_phase env ctx use_frida w))
    (snd (ios_wan._iteration_phase env ctx use_frida w)).
Proof.
  unfold ios_wan._iteration_phase. apply phase_records.
  apply frames_then; [apply frames_print_status_msg|intros _].
  apply frames_then; [apply frames_call|intros _].
  apply frames_then; [apply frames_attr|intros io].
  apply frames_then; [apply frames_call|intros _].
  apply for_each_records. intros i l0. unfold ios_wan.iteration.
  apply frames_before_iteration; [apply frames_print_status_msg|intros _].
  apply (iteration_records_once _ _ ios_wan.success).
  - apply ios_wan_body_frames.
  - apply try_except_catches_all. reflexivity.
  - intros w0. apply ios_wan_finally_fails_fast.
Qed.


(** A run of the Android baseline phase in which every call succeeds: two
    iterations, two entries. *)
Lemma android_lan_phase_records_two :
  let r := android_lan._iteration_phase env_ok scenario_ctx false (empty_world tt) in
  fst r = Ok tt /\ ledger (snd r) = [("no_frida", [(1, true); (2, true)])].
Proof. vm_compute. split; reflexivity. Qed.

(** X2. [terminate] and [kill_tree] never raise: in every world, and
    whatever the operating system answers, each returns normally after
    one signal attempt (the process group first, the child alone if the
    group could not be found or signalled), leaving ledger and local
    variables as they were. *)
Theorem terminate_and_kill_tree_never_raise {L} (env : Env) (h : ProcessHandle)
    (w : World L) :
  (exists evs, process_handler.terminate env h w = (Ok tt, extend w evs)
               /\ signal_attempt (pid h) SIGTERM evs)
  /\ (exists evs, process_handler.kill_tree env h w = (Ok tt, extend w evs)
                  /\ signal_attempt (pid h) SIGKILL evs).
Proof.
  split.
  - rewrite terminate_is_signal_group. apply signal_group_runs.
  - rewrite kill_tree_is_signal_group. apply signal_group_runs.
Qed.

(** ** The timing source: lookups *)

(** X3. A timing source without a backing file answers every lookup with
    the caller's default and touches nothing: no call is made, and the
    object stays without file and without values. *)
Theorem get_without_file_returns_default {L} (env : Env) (self : sleep_times.SleepTimes)
    (key : string) (default : pyfloat) (w : World L) :
  no_file self ->
  exists self',
    sleep_times.get env self key default w = (Ok (default, self'), w)
    /\ no_file self'.
Proof.
  intros [Hpath Hvalues]. unfold sleep_times.get, sleep_times._load_if_file_changed.
  rewrite Hpath. destruct Hvalues as [Hv|Hv]; rewrite Hv.
  - eexists. split; [reflexivity|]. split; [reflexivity|now right].
  - exists self. cbn [bind ret]. unfold bind, ret. rewrite Hv, lookup_empty.
    split; [reflexivity|]. split; [exact Hpath|now right].
Qed.

Lemma get_without_file_returns_default_witness :
  no_file (sleep_times.init None)
  /\ exists self',
       sleep_times.get env_ok (sleep_times.init None) "start_app" (FFinite 15)
         (empty_world tt)
       = (Ok (FFinite 15, self'), empty_world tt)
       /\ no_file self'.
Proof.
  assert (H : no_file (sleep_times.init None)) by (split; [reflexivity|now left]).
  split; [exact H|].
  exact (get_without_file_returns_default env_ok (sleep_times.init None) "start_app"
           (FFinite 15) (empty_world tt) H).
Defined.

Lemma load_on_missing_file {L} (env : Env) (self : sleep_times.SleepTimes) (p : Path)
    (w : World L) :
  sleep_times.path self = Some p ->
  env (trace w) (PathStatMtime p) = Raises FileNotFoundError ->
  sleep_times._load_if_file_changed env self w
  = (Ok {| sleep_times.path := Some p; sleep_times._cache := sleep_times.empty_cache |},
     extend w (miss_events p (sleep_times._cache self))).
Proof.
  intros Hpath Hstat. unfold sleep_times._load_if_file_changed. rewrite Hpath.
  assert (Hs : try_except (let* t := call env (PathStatMtime p) in ret (Some t))
                 (fun e => match e with FileNotFoundError => ret None | _ => raise e end) w
               = (Ok None,
                  extend w [{| ev_call := PathStatMtime p;
                               ev_answer := Raises FileNotFoundError |}])).
  { rewrite (try_except_raise _ _ w
               (extend w [{| ev_call := PathStatMtime p;
                             ev_answer := Raises FileNotFoundError |}])
               FileNotFoundError); [reflexivity|].
    apply bind_raise. now apply call_raises. }
  rewrite (bind_ok _ _ _ _ _ Hs).
  unfold miss_events, miss_recorded.
  destruct (sleep_times.parsed_values (sleep_times._cache self)) as [d|]; cbn [orb].
  - destruct (float_eqb (sleep_times.last_modified_time (sleep_times._cache self))
                (FFinite (-1 # 1))); cbn [negb when].
    + reflexivity.
    + unfold bind, log_warning, ret. now rewrite log_event_extend, extend_extend.
  - cbn [when]. unfold bind, log_warning, ret. now rewrite log_event_extend, extend_extend.
Qed.

(** X4. When the backing file does not exist, a lookup returns the
    caller's default and leaves the object with the empty values of a
    miss.  The miss is reported by one warning, unless the object already
    holds the values of a miss: of two lookups in a row that find no file,
    the second logs nothing. *)
Theorem get_on_missing_file {L} (env : Env) (self : sleep_times.SleepTimes) (p : Path)
    (key : string) (default : pyfloat) (w : World L) :
  sleep_times.path self = Some p ->
  env (trace w) (PathStatMtime p) = Raises FileNotFoundError ->
  sleep_times.get env self key default w
  = (Ok (default, {| sleep_times.path := Some p;
                     sleep_times._cache := sleep_times.empty_cache |}),
     extend w (miss_events p (sleep_times._cache self)))
  /\ miss_recorded sleep_times.empty_cache = true.
Proof.
  intros Hpath Hstat. split; [|reflexivity].
  unfold sleep_times.get.
  rewrite (bind_ok _ _ _ _ _ (load_on_missing_file env self p w Hpath Hstat)).
  unfold ret. cbn. now rewrite lookup_empty.
Qed.

(** A file system without the timing file. *)
Lemma get_on_missing_file_witness :
  sleep_times.get (failing (fun c => match c with PathStatMtime _ => true | _ => false end)
                     FileNotFoundError env_ok)
    (sleep_times.init (Some "sleep_times.yaml")) "start_app" (FFinite 15) (empty_world tt)
  = (Ok (FFinite 15, {| sleep_times.path := Some "sleep_times.yaml";
                        sleep_times._cache := sleep_times.empty_cache |}),
     extend (empty_world tt) (miss_events "sleep_times.yaml" sleep_times.fresh_cache))
  /\ miss_recorded sleep_times.empty_cache = true.
Proof.
  exact (get_on_missing_file _ (sleep_times.init (Some "sleep_times.yaml"))
           "sleep_times.yaml" "start_app" (FFinite 15) (empty_world tt) eq_refl eq_refl).
Defined.

(** Integers of at most 53 bits, and [2^53], are floats. *)
Lemma nearest_binary64_small (z : Z) :
  Z.abs z <= 2 ^ 53 -> sleep_times.nearest_binary64 z = z.
Proof.
  intros Hz. unfold sleep_times.nearest_binary64. cbv zeta.
  destruct (Z.log2 (Z.abs z) + 1 <=? 53) eqn:E; [reflexivity|].
  apply Z.leb_gt in E.
  assert (Hl : Z.log2 (Z.abs z) = 53).
  { assert (Z.log2 (Z.abs z) <= Z.log2 (2 ^ 53)) by (apply Z.log2_le_mono; lia).
    rewrite Z.log2_pow2 in H by lia. lia. }
  assert (Ha : Z.abs z = 2 ^ 53).
  { assert (0 < Z.abs z) by (destruct (Z.abs z) eqn:?; try lia; cbn in Hl; lia).
    pose proof (Z.log2_spec (Z.abs z) H) as [Hlo _]. rewrite Hl in Hlo. lia. }
  rewrite Hl, Ha. destruct z; try discriminate; cbn in Ha; injection Ha as ->; reflexivity.
Qed.

(** Below [2^1024 - 2^970] the nearest double is finite. *)
Lemma nearest_binary64_finite (z : Z) :
  Z.abs z < 2 ^ 1024 - 2 ^ 970 -> Z.abs (sleep_times.nearest_binary64 z) < 2 ^ 1024.
Proof.
  intros Hz. unfold sleep_times.nearest_binary64. cbv zeta.
  destruct (Z.log2 (Z.abs z) + 1 <=? 53) eqn:E.
  { lia. }
  apply Z.leb_gt in E.
  set (a := Z.abs z) in *. set (n := Z.log2 a) in *.
  assert (Hpos : 0 < a) by (destruct a eqn:?; try lia; cbn in n; lia).
  pose proof (Z.log2_spec a Hpos) as [Hlo Hhi]. fold n in Hlo, Hhi.
  assert (Hn : n <= 1023).
  { assert (n < 1024); [|lia]. apply Z.log2_lt_pow2; lia. }
  set (s := n + 1 - 53) in *.
  assert (Hs : 0 < s) by lia.
  rewrite Z.shiftr_div_pow2, Z.land_ones, !Z.shiftl_mul_pow2 by lia.
  rewrite Z.mul_1_l.
  assert (H2s : 0 < 2 ^ s) by (apply Z.pow_pos_nonneg; lia).
  pose proof (Z.div_mod a (2 ^ s) ltac:(lia)) as Hdm.
  pose proof (Z.mod_pos_bound a (2 ^ s) H2s) as Hr.
  set (q := a / 2 ^ s) in *. set (r := a mod 2 ^ s) in *.
  assert (Hsplit : 2 ^ s = 2 * 2 ^ (s - 1)).
  { replace s with (Z.succ (s - 1)) at 1 by lia. apply Z.pow_succ_r. lia. }
  assert (Hq : q < 2 ^ 53).
  { apply Z.div_lt_upper_bound; [lia|]. rewrite <- Z.pow_add_r by lia.
    replace (s + 53) with (Z.succ n) by lia. exact Hhi. }
  rewrite Z.abs_mul. replace (Z.abs (Z.sgn z)) with 1
    by (destruct z; cbn in *; try reflexivity; subst a; cbn in Hpos; lia).
  rewrite Z.mul_1_l.
  assert (Hbound : forall q', 0 <= q' -> q' * 2 ^ s < 2 ^ 1024 -> Z.abs (q' * 2 ^ s) < 2 ^ 1024).
  { intros q' H0 H1. rewrite Z.abs_eq by nia. exact H1. }
  assert (Hq0 : 0 <= q) by (apply Z.div_pos; lia).
  assert (Hcap : 2 ^ 53 * 2 ^ s = 2 ^ (n + 1)).
  { rewrite <- Z.pow_add_r by lia. f_equal. lia. }
  assert (Hmono : 2 ^ (n + 1) <= 2 ^ 1024) by (apply Z.pow_le_mono_r; lia).
  destruct ((2 ^ (s - 1) <? r) || ((r =? 2 ^ (s - 1)) && Z.odd q)) eqn:Hup.
  - apply Hbound; [lia|].
    destruct (Z.eq_dec n 1023) as [Hn'|Hn'].
    +      assert (Hs' : s = 971) by lia.
      assert (Hhalf : 2 ^ (s - 1) <= r).
      { apply orb_true_iff in Hup as [H|H]; [apply Z.ltb_lt in H; lia|].
        apply andb_true_iff in H as [H _]. apply Z.eqb_eq in H. lia. }
      assert (q + 1 < 2 ^ 53); [|nia].
      rewrite Hs' in *. change (971 - 1) with 970 in *.
      assert (2 ^ 1024 = 2 ^ 53 * 2 ^ 971) by (rewrite <- Z.pow_add_r by lia; reflexivity).
      nia.
    + assert (2 ^ (n + 1) < 2 ^ 1024) by (apply Z.pow_lt_mono_r; lia). nia.
  - apply Hbound; [lia|]. nia.
Qed.

(** Rounding at work: [2^53 + 1] is halfway between two doubles and goes
    to the even one, [2^53 + 3] goes up to [2^53 + 4]. *)
Lemma nearest_binary64_rounds :
  sleep_times.nearest_binary64 9007199254740993 = 9007199254740992
  /\ sleep_times.nearest_binary64 9007199254740995 = 9007199254740996
  /\ sleep_times.nearest_binary64 (-9007199254740993) = -9007199254740992.
Proof. repeat split. Qed.

(** A mapping of numbers is parsed item by item; a later item for a key
    replaces an earlier one. *)
Lemma parse_items_accepts {L} (items : list (string * yaml))
    (parsed : gmap string pyfloat) (w : World L) :
  all_seconds items = true ->
  exists m,
    sleep_times.parse_items items parsed w = (Ok m, w)
    /\ forall key,
         m !! key = match file_seconds key items with
                    | Some f => Some f
                    | None => parsed !! key
                    end.
Proof.
  revert parsed. induction items as [|[k v] rest IH]; intros parsed Hall.
  - exists parsed. split; reflexivity.
  - cbn [all_seconds forallb snd] in Hall. apply andb_true_iff in Hall as [Hv Hrest].
    destruct (as_seconds v) as [f|] eqn:Hf; [|discriminate].
    assert (Hnum : sleep_times.is_number v = true)
      by (destruct v; try discriminate; reflexivity).
    assert (Hfloat : sleep_times.float_of_number (L := L) v w = (Ok f, w)).
    { destruct v; try discriminate;
        cbn [as_seconds sleep_times.float_of_number] in Hf |- *.
      - now injection Hf as <-.
      - unfold sleep_times.float_of_int. cbv zeta.
        destruct (Z.abs z <? 2 ^ 1024 - 2 ^ 970) eqn:Hz; [|discriminate].
        apply Z.ltb_lt, nearest_binary64_finite, Z.ltb_lt in Hz. rewrite Hz.
        now injection Hf as <-.
      - now injection Hf as <-. }
    destruct (IH (<[k := f]> parsed) Hrest) as [m [Hm Hlookup]].
    exists m. split.
    + cbn [sleep_times.parse_items]. rewrite Hnum. cbn [negb].
      rewrite (bind_ok _ _ _ _ _ Hfloat). exact Hm.
    + intros key. rewrite Hlookup. cbn [file_seconds].
      destruct (file_seconds key rest) as [g|]; [reflexivity|].
      destruct (String.eqb k key) eqn:Hk.
      * apply String.eqb_eq in Hk as ->. now rewrite lookup_insert_eq, Hf.
      * apply String.eqb_neq in Hk. now rewrite lookup_insert_ne.
Qed.

(** X5. When the backing file holds a mapping of numbers and the object
    has no values for the file's modification time (a first lookup, or the
    file was rewritten since), a lookup reads and parses the file once,
    returns the seconds of the last item with the key, or the caller's
    default when no item has it, and keeps the values for this
    modification time.  The seconds of an item are [float(value)]: an
    integer above [2^53] is rounded to the nearest double. *)
Theorem get_reads_values_from_file {L} (env : Env) (self : sleep_times.SleepTimes)
    (p : Path) (mt : pyfloat) (text : string) (items : list (string * yaml))
    (key : string) (default : pyfloat) (w : World L) :
  sleep_times.path self = Some p ->
  file_present env p mt text (YMap items) ->
  cache_hit mt (sleep_times._cache self) = false ->
  all_seconds items = true ->
  exists self',
    sleep_times.get env self key default w
    = (Ok (value_or (file_seconds key items) default, self'),
       extend w (load_events p mt text (YMap items)))
    /\ sleep_times.path self' = Some p
    /\ sleep_times.last_modified_time (sleep_times._cache self') = mt
    /\ forall k, cached_values (sleep_times._cache self') !! k = file_seconds k items.
Proof.
  intros Hpath Hfile Hmiss Hall.
  pose proof (load_reads_file env self p mt text (YMap items) w Hpath Hfile Hmiss) as Hload.
  assert (Hraw : (if sleep_times.truthy (YMap items) then YMap items else YMap [])
                 = YMap items) by (destruct items; reflexivity).
  rewrite Hraw in Hload.
  destruct (parse_items_accepts items ∅ (extend w (load_events p mt text (YMap items))) Hall)
    as [m [Hm Hlookup]].
  rewrite (bind_ok _ _ _ _ _ Hm) in Hload.
  exists {| sleep_times.path := Some p;
            sleep_times._cache := {| sleep_times.last_modified_time := mt;
                                     sleep_times.parsed_values := Some m |} |}.
  unfold sleep_times.get. rewrite (bind_ok _ _ _ _ _ Hload).
  unfold ret. cbn [sleep_times.parsed_values sleep_times._cache sleep_times.path
                     sleep_times.last_modified_time cached_values].
  split; [|split; [reflexivity|split; [reflexivity|]]].
  - rewrite Hlookup, lookup_empty. unfold value_or. now destruct (file_seconds key items).
  - intros k. rewrite Hlookup, lookup_empty. now destruct (file_seconds k items).
Qed.

Lemma get_reads_values_from_file_witness :
  exists self',
    sleep_times.get
      (env_file (FFinite 1700000000)
         (YMap [("start_app", YInt 3); ("after_tap", YFloat (FFinite (1 # 2)));
                ("start_app", YInt 9007199254740993)]))
      (sleep_times.init (Some "sleep_times.yaml")) "start_app" (FFinite 15) (empty_world tt)
    = (Ok (value_or (Some (FFinite 9007199254740992)) (FFinite 15), self'),
       extend (empty_world tt)
         (load_events "sleep_times.yaml" (FFinite 1700000000) "(file text)"
            (YMap [("start_app", YInt 3); ("after_tap", YFloat (FFinite (1 # 2)));
                   ("start_app", YInt 9007199254740993)])))
    /\ sleep_times.path self' = Some "sleep_times.yaml"
    /\ sleep_times.last_modified_time (sleep_times._cache self') = FFinite 1700000000
    /\ forall k, cached_values (sleep_times._cache self') !! k
                 = file_seconds k [("start_app", YInt 3);
                                   ("after_tap", YFloat (FFinite (1 # 2)));
                                   ("start_app", YInt 9007199254740993)].
Proof.
  refine (get_reads_values_from_file _ (sleep_times.init (Some "sleep_times.yaml"))
            "sleep_times.yaml" (FFinite 1700000000) "(file text)"
            [("start_app", YInt 3); ("after_tap", YFloat (FFinite (1 # 2)));
             ("start_app", YInt 9007199254740993)]
            "start_app" (FFinite 15) (empty_world tt) eq_refl _ eq_refl eq_refl).
  intros history. repeat split.
Defined.

(** X6. While the file keeps the modification time of the values the
    object holds, a lookup asks for that time and nothing else: the file
    is neither read nor parsed, whatever it contains by now, the object
    is unchanged, and the answer comes from the values held. *)
Theorem get_uses_cache_until_file_changes {L} (env : Env)
    (self : sleep_times.SleepTimes) (p : Path) (mt : pyfloat)
    (key : string) (default : pyfloat) (w : World L) :
  sleep_times.path self = Some p ->
  env (trace w) (PathStatMtime p) = Returns mt ->
  cache_hit mt (sleep_times._cache self) = true ->
  sleep_times.get env self key default w
  = (Ok (value_or (cached_values (sleep_times._cache self) !! key) default, self),
     extend w [{| ev_call := PathStatMtime p; ev_answer := Returns mt |}]).
Proof.
  intros Hpath Hstat Hhit. unfold cache_hit in Hhit.
  assert (Hload : sleep_times._load_if_file_changed env self w
                  = (Ok self,
                     extend w [{| ev_call := PathStatMtime p; ev_answer := Returns mt |}])).
  { unfold sleep_times._load_if_file_changed. rewrite Hpath.
    assert (Hs : try_except (let* t := call env (PathStatMtime p) in ret (Some t))
                   (fun e => match e with FileNotFoundError => ret None | _ => raise e end) w
                 = (Ok (Some mt),
                    extend w [{| ev_call := PathStatMtime p; ev_answer := Returns mt |}])).
    { apply try_except_ok. now rewrite (bind_ok _ _ _ _ _ (call_returns env _ _ _ Hstat)). }
    rewrite (bind_ok _ _ _ _ _ Hs). now rewrite Hhit. }
  unfold sleep_times.get. rewrite (bind_ok _ _ _ _ _ Hload).
  unfold ret, cached_values, value_or.
  now destruct (sleep_times.parsed_values (sleep_times._cache self)).
Qed.

(** The file was rewritten to reject, but kept its modification time: the
    values loaded before are still served. *)
Lemma get_uses_cache_until_file_changes_witness :
  sleep_times.get (env_file (FFinite 1700000000) (YStr "broken"))
    {| sleep_times.path := Some "sleep_times.yaml";
       sleep_times._cache :=
         {| sleep_times.last_modified_time := FFinite 1700000000;
            sleep_times.parsed_values := Some {[ "start_app" := FFinite 3 ]} |} |}
    "start_app" (FFinite 15) (empty_world tt)
  = (Ok (value_or (({[ "start_app" := FFinite 3 ]} : gmap string pyfloat) !! "start_app")
           (FFinite 15),
         {| sleep_times.path := Some "sleep_times.yaml";
            sleep_times._cache :=
              {| sleep_times.last_modified_time := FFinite 1700000000;
                 sleep_times.parsed_values := Some {[ "start_app" := FFinite 3 ]} |} |}),
     extend (empty_world tt)
       [{| ev_call := PathStatMtime "sleep_times.yaml";
           ev_answer := Returns (FFinite 1700000000) |}]).
Proof.
  exact (get_uses_cache_until_file_changes
           (env_file (FFinite 1700000000) (YStr "broken"))
           {| sleep_times.path := Some "sleep_times.yaml";
              sleep_times._cache :=
                {| sleep_times.last_modified_time := FFinite 1700000000;
                   sleep_times.parsed_values := Some {[ "start_app" := FFinite 3 ]} |} |}
           "sleep_times.yaml" (FFinite 1700000000)
           "start_app" (FFinite 15) (empty_world tt) eq_refl eq_refl eq_refl).
Defined.

(** ** The registry and the four runners *)

(** X7. Registering a class is idempotent and keeps the registry free of
    duplicates: a class that is already registered is skipped, whatever
    name and priority the second registration gives (the first one
    stays); otherwise one entry is appended.  Entries already there keep
    their place, and if the classes of the registry were pairwise distinct
    they still are. *)
Theorem register_keeps_classes_distinct {L} (given_name given_name' : option string)
    (given_priority given_priority' : Z) (c : runners.RunnerClass L)
    (registry : list (runners._Entry L)) :
  runners.register given_name' given_priority' c
    (runners.register given_name given_priority c registry)
  = runners.register given_name given_priority c registry
  /\ (exists added, runners.register given_name given_priority c registry = registry ++ added
                    /\ (length added <= 1)%nat)
  /\ In (runners.cls_id c)
       (registered_classes (runners.register given_name given_priority c registry))
  /\ (NoDup (registered_classes registry) ->
      NoDup (registered_classes (runners.register given_name given_priority c registry))).
Proof.
  assert (Hin : forall r : list (runners._Entry L),
             existsb (fun e => Nat.eqb (runners.cls_id (runners.cls e)) (runners.cls_id c)) r
             = true <-> In (runners.cls_id c) (registered_classes r)).
  { intros r. rewrite existsb_exists. unfold registered_classes. rewrite in_map_iff.
    split; intros [e [H1 H2]]; exists e.
    - apply Nat.eqb_eq in H2. split; [exact H2|exact H1].
    - split; [exact H2|]. now apply Nat.eqb_eq. }
  destruct (existsb (fun e => Nat.eqb (runners.cls_id (runners.cls e)) (runners.cls_id c))
              registry) eqn:Hthere.
  - assert (Hreg : runners.register given_name given_priority c registry = registry)
      by (unfold runners.register; now rewrite Hthere).
    rewrite Hreg. split; [|split; [|split]].
    + unfold runners.register. now rewrite Hthere.
    + exists []. rewrite app_nil_r. split; [reflexivity|cbn; lia].
    + now apply Hin.
    + auto.
  - assert (Hreg : exists entry, runners.register given_name given_priority c registry
                                 = registry ++ [entry] /\ runners.cls entry = c).
    { unfold runners.register. rewrite Hthere. eexists. split; reflexivity. }
    destruct Hreg as [entry [Hreg Hcls]]. rewrite Hreg.
    assert (Hnow : existsb (fun e => Nat.eqb (runners.cls_id (runners.cls e))
                                       (runners.cls_id c)) (registry ++ [entry]) = true).
    { rewrite existsb_app. cbn. rewrite Hcls, Nat.eqb_refl. now rewrite orb_true_r. }
    split; [|split; [|split]].
    + unfold runners.register. now rewrite Hnow.
    + exists [entry]. split; [reflexivity|cbn; lia].
    + now apply Hin.
    + intros Hnd. unfold registered_classes. rewrite map_app. cbn [map].
      apply NoDup_app. split; [exact Hnd|]. split.
      * intros x Hx Hx'. apply list_elem_of_singleton in Hx'. subst x.
        apply list_elem_of_In in Hx. rewrite Hcls in Hx. apply Hin in Hx. congruence.
      * apply NoDup_singleton.
Qed.

Lemma registry_entries {L} (env : Env) (strip : string -> string) (fuel : nat) :
  _REGISTRY (L := L) env strip fuel
  = [ {| runners.cls := AndroidLanRunner env strip fuel;
         runners.name := "AndroidLanRunner"; runners.priority := 0 |};
      {| runners.cls := AndroidWanRunner env strip fuel;
         runners.name := "AndroidWanRunner"; runners.priority := 0 |};
      {| runners.cls := iOSWanRunner env fuel;
         runners.name := "iOSWanRunner"; runners.priority := 0 |};
      {| runners.cls := iOSLanRunner env fuel;
         runners.name := "iOSLanRunner"; runners.priority := 0 |} ].
Proof. reflexivity. Qed.

(** The capability checks of the four runners are mutually exclusive. *)
Lemma dispatch_over_registry {L} (env : Env) (strip : string -> string)
    (fuel : nat) (ctx : ExperimentContext) (w : World L) :
  runners.dispatch (_REGISTRY env strip fuel) ctx w
  = match String.eqb (platform (config ctx)) "android",
          String.eqb (platform (config ctx)) "ios",
          String.eqb (network_profile (config ctx)) "lan",
          String.eqb (network_profile (config ctx)) "wan" with
    | true, _, true, _ => android_lan_runner.run env strip fuel ctx w
    | true, _, _, true => android_wan_runner.run env strip fuel ctx w
    | _, true, true, _ => ios_lan_runner.run env fuel ctx w
    | _, true, _, true => ios_wan_runner.run env fuel ctx w
    | _, _, _, _ => no_runner_matches w
    end.
Proof.
  rewrite registry_entries. unfold runners.dispatch.
  cbn [List.filter runners.can_handle runners.cls AndroidLanRunner AndroidWanRunner
         iOSWanRunner iOSLanRunner].
  unfold android_lan_runner.can_handle, android_wan.can_handle,
    ios_wan_runner.can_handle, ios_lan_runner.can_handle.
  destruct (String.eqb_spec (platform (config ctx)) "android") as [Hp|Hp];
    destruct (String.eqb_spec (platform (config ctx)) "ios") as [Hq|Hq];
    try (rewrite Hp in Hq; discriminate Hq);
    destruct (String.eqb_spec (network_profile (config ctx)) "lan") as [Hn|Hn];
    destruct (String.eqb_spec (network_profile (config ctx)) "wan") as [Hm|Hm];
    try (rewrite Hn in Hm; discriminate Hm);
    reflexivity.
Qed.

(** X8. With the four runners registered as the command line's imports
    register them, [dispatch] is never ambiguous: the capability checks
    are mutually exclusive, so it runs the one runner of the
    configuration's platform and network profile, with that runner's
    outcome and effects, and fails with [RunnerNotFoundError] exactly when the
    platform is neither [android] nor [ios] or the profile neither [lan]
    nor [wan]. *)
Theorem dispatch_runs_the_profile_runner {L} (env : Env) (strip : string -> string)
    (fuel : nat) (ctx : ExperimentContext) (w : World L) :
  runners.dispatch (_REGISTRY env strip fuel) ctx w
  = match String.eqb (platform (config ctx)) "android",
          String.eqb (platform (config ctx)) "ios",
          String.eqb (network_profile (config ctx)) "lan",
          String.eqb (network_profile (config ctx)) "wan" with
    | true, _, true, _ => android_lan_runner.run env strip fuel ctx w
    | true, _, _, true => android_wan_runner.run env strip fuel ctx w
    | _, true, true, _ => ios_lan_runner.run env fuel ctx w
    | _, true, _, true => ios_wan_runner.run env fuel ctx w
    | _, _, _, _ => no_runner_matches w
    end.
Proof. apply dispatch_over_registry. Qed.

(** ** What a computation leaves alone *)

#[export] Instance trace_grows_frame : Frame trace_grows.
Proof.
  split.
  - intros L w. exists []. now rewrite app_nil_r.
  - intros L w1 w2 w3 [a Ha] [b Hb]. exists (a ++ b). now rewrite Hb, Ha, app_assoc.
  - intros L ev w. now exists [ev].
  - intros L L' w init w' [a Ha]. now exists a.
Qed.

#[export] Instance same_ledger_frame : Frame same_ledger.
Proof.
  split; unfold same_ledger.
  - reflexivity.
  - intros L w1 w2 w3 H1 H2. congruence.
  - reflexivity.
  - intros L L' w init w' H. exact H.
Qed.

#[export] Instance same_locals_frame : Frame same_locals.
Proof.
  split; unfold same_locals.
  - reflexivity.
  - intros L w1 w2 w3 H1 H2. congruence.
  - reflexivity.
  - reflexivity.
Qed.

Section Respects.
Variable R : forall L, World L -> World L -> Prop.
Context `{HR : Frame R}.

Lemma respects_ret {L A} (a : A) : respects R (L := L) (ret a).
Proof. intros w. apply frame_refl. Qed.

Lemma respects_raise {L A} (e : exn) : respects R (L := L) (A := A) (raise e).
Proof. intros w. apply frame_refl. Qed.

Lemma respects_pass {L} : respects R (L := L) pass.
Proof. intros w. apply frame_refl. Qed.

Lemma respects_get_locals {L} : respects R (L := L) get_locals.
Proof. intros w. apply frame_refl. Qed.

Lemma respects_call {L} (env : Env) (c : Call) : respects R (L := L) (call env c).
Proof. intros w. apply frame_event. Qed.

Lemma respects_log_error {L} (msg : string) : respects R (L := L) (log_error msg).
Proof. intros w. apply frame_event. Qed.

Lemma respects_log_warning {L} (msg : string) : respects R (L := L) (log_warning msg).
Proof. intros w. apply frame_event. Qed.

Lemma respects_bind {L A B} (m : M L A) (k : A -> M L B) :
  respects R m -> (forall a, respects R (k a)) -> respects R (bind m k).
Proof.
  intros Hm Hk w. unfold bind. specialize (Hm w).
  destruct (m w) as [[a|e|] w1]; cbn [snd] in *; try exact Hm.
  eapply frame_trans; [exact Hm|apply Hk].
Qed.

Lemma respects_try_except {L A} (m : M L A) (h : exn -> M L A) :
  respects R m -> (forall e, respects R (h e)) -> respects R (try_except m h).
Proof.
  intros Hm Hh w. unfold try_except. specialize (Hm w).
  destruct (m w) as [[a|e|] w1]; cbn [snd] in *; try exact Hm.
  eapply frame_trans; [exact Hm|apply Hh].
Qed.

Lemma respects_try_finally {L A} (m : M L A) (f : M L unit) :
  respects R m -> respects R f -> respects R (try_finally m f).
Proof.
  intros Hm Hf w. unfold try_finally. specialize (Hm w).
  destruct (m w) as [[a|e|] w1]; cbn [snd] in *; try exact Hm;
    specialize (Hf w1); destruct (f w1) as [[[]|e'|] w2]; cbn [snd] in *;
    eapply frame_trans; eauto.
Qed.

Lemma respects_when {L} (b : bool) (m : M L unit) :
  respects R m -> respects R (when b m).
Proof. intros Hm. destruct b; [exact Hm|apply respects_pass]. Qed.

Lemma respects_attr {L A} (o : option A) : respects R (L := L) (attr o).
Proof. destruct o; [apply respects_ret|apply respects_raise]. Qed.

Lemma respects_path_div {L} (p : Path) (n : option string) :
  respects R (L := L) (path_div p n).
Proof. destruct n; [apply respects_ret|apply respects_raise]. Qed.

Lemma respects_int_of_float {L} (f : pyfloat) : respects R (L := L) (int_of_float f).
Proof. destruct f; first [apply respects_ret|apply respects_raise]. Qed.

Lemma respects_add_one {L} (o : option Z) : respects R (L := L) (ios_lan.add_one o).
Proof. destruct o; [apply respects_ret|apply respects_raise]. Qed.

Lemma respects_for_each {L T} (xs : list T) (body : T -> M L unit) :
  (forall x, respects R (body x)) -> respects R (for_each xs body).
Proof.
  intros Hb. induction xs as [|x xs IH]; cbn [for_each].
  - apply respects_pass.
  - apply respects_bind; [apply Hb|intros _; exact IH].
Qed.

Lemma respects_call_function {L L' A} (init : L') (body : M L' A) :
  respects R body -> respects R (L := L) (call_function init body).
Proof.
  intros Hb w. unfold call_function.
  specialize (Hb {| trace := trace w; ledger := ledger w; locals := init |}).
  destruct (body _) as [r w']. cbn [snd] in *.
  exact (frame_call_function L L' w init w' Hb).
Qed.

Lemma respects_print_status_msg {L} (env : Env) (msg : string) :
  respects R (L := L) (user_interaction.print_status_msg env msg).
Proof.
  unfold user_interaction.print_status_msg.
  apply respects_try_except; [|intros e]; apply respects_call.
Qed.

Lemma respects_ask_until_yes {L} (env : Env) (fuel : nat) (prompt : string)
    (body : M L unit) :
  respects R body -> respects R (user_interaction.ask_until_yes env fuel prompt body).
Proof.
  intros Hbody. induction fuel as [|n IH]; cbn [user_interaction.ask_until_yes].
  - intros w. apply frame_refl.
  - apply respects_bind; [apply respects_call|].
    intros [|]; [apply respects_pass|].
    apply respects_bind; [exact Hbody|intros _; exact IH].
Qed.

End Respects.

Lemma assign_trace_grows {L} (f : L -> L) : respects trace_grows (assign f).
Proof. intros w. exists []. cbn. now rewrite app_nil_r. Qed.

Lemma assign_same_ledger {L} (f : L -> L) : respects same_ledger (assign f).
Proof. intros w. reflexivity. Qed.

Lemma record_trace_grows {L} (phase : string) (i : Z) (s : bool) :
  respects trace_grows (L := L) (context.record_iteration_result phase i s).
Proof. intros w. exists []. cbn. now rewrite app_nil_r. Qed.

Lemma record_same_locals {L} (phase : string) (i : Z) (s : bool) :
  respects same_locals (L := L) (context.record_iteration_result phase i s).
Proof. intros w. reflexivity. Qed.

Lemma call_function_same_locals {L L' A} (init : L') (body : M L' A) :
  respects same_locals (L := L) (call_function init body).
Proof. intros w. unfold call_function. now destruct (body _). Qed.

(** One step of a proof that a computation respects a frame. *)
Ltac solve_frame :=
  lazymatch goal with
  | |- Frame _ => typeclasses eauto
  | _ => idtac
  end.

Ltac respects_step :=
  cbv beta;
  lazymatch goal with
  | |- respects _ (user_interaction.print_status_msg _ _) =>
      apply respects_print_status_msg; solve_frame
  | |- respects _ (bind _ _) => apply respects_bind; solve_frame; [ | intros ? ]
  | |- respects _ (try_except _ _) => apply respects_try_except; solve_frame; [ | intros ? ]
  | |- respects _ (try_finally _ _) => apply respects_try_finally; solve_frame
  | |- respects _ (call _ _) => apply respects_call; solve_frame
  | |- respects _ (ret _) => apply respects_ret; solve_frame
  | |- respects _ (raise _) => apply respects_raise; solve_frame
  | |- respects _ pass => apply respects_pass; solve_frame
  | |- respects _ get_locals => apply respects_get_locals; solve_frame
  | |- respects _ (log_error _) => apply respects_log_error; solve_frame
  | |- respects _ (log_warning _) => apply respects_log_warning; solve_frame
  | |- respects _ (when _ _) => apply respects_when; solve_frame
  | |- respects _ (attr _) => apply respects_attr; solve_frame
  | |- respects _ (path_div _ _) => apply respects_path_div; solve_frame
  | |- respects _ (int_of_float _) => apply respects_int_of_float; solve_frame
  | |- respects _ (ios_lan.add_one _) => apply respects_add_one; solve_frame
  | |- respects _ (for_each _ _) => apply respects_for_each; solve_frame; intros ?
  | |- respects _ (user_interaction.print_status_msg _ _) =>
      apply respects_print_status_msg; solve_frame
  | |- respects _ (user_interaction.ask_until_yes _ _ _ _) =>
      apply respects_ask_until_yes; solve_frame
  | |- respects _ (wait_for_setup _ _) => unfold wait_for_setup
  | |- respects _ (wait_for_coordinates _ _) => unfold wait_for_coordinates
  | |- respects same_locals (call_function _ _) => apply call_function_same_locals
  | |- respects _ (call_function _ _) => apply respects_call_function; solve_frame
  | |- respects trace_grows (assign _) => apply assign_trace_grows
  | |- respects same_ledger (assign _) => apply assign_same_ledger
  | |- respects trace_grows (context.record_iteration_result _ _ _) =>
      apply record_trace_grows
  | |- respects same_locals (context.record_iteration_result _ _ _) =>
      apply record_same_locals
  | |- respects _ (match ?x with _ => _ end) => destruct x
  | |- respects _ (if ?x then _ else _) => destruct x
  end.

Section RespectsCode.
Variable R : forall L, World L -> World L -> Prop.
Context `{HR : Frame R}.
Variable env : Env.

Lemma respects_kill_tree {L} (h : ProcessHandle) :
  respects R (L := L) (process_handler.kill_tree env h).
Proof. unfold process_handler.kill_tree. repeat respects_step. Qed.

Lemma respects_terminate {L} (h : ProcessHandle) :
  respects R (L := L) (process_handler.terminate env h).
Proof. unfold process_handler.terminate. repeat respects_step. Qed.

Lemma respects_kill_tree_of {L} (h : option ProcessHandle) :
  respects R (L := L) (kill_tree_of env h).
Proof. unfold kill_tree_of. respects_step; [respects_step|apply respects_kill_tree]. Qed.

Lemma respects_kill_tree_if_set {L} (h : option ProcessHandle) :
  respects R (L := L) (kill_tree_if_set env h).
Proof. destruct h; cbn; [apply respects_kill_tree|respects_step]. Qed.

Lemma respects_run_and_wait {L} (args : list string) (timeout : option Q) (check : bool) :
  respects R (L := L) (process_handler.run_and_wait env args timeout check).
Proof.
  unfold process_handler.run_and_wait, process_handler.on_timeout.
  repeat respects_step.
Qed.

Lemma respects_adb {L} (strip : string -> string) (phone : string) (args : list string)
    (timeout : option Q) :
  respects R (L := L) (comm_android._adb env strip phone args timeout).
Proof.
  unfold comm_android._adb. respects_step; [apply respects_run_and_wait|respects_step].
Qed.

Lemma respects_summarise_iterations {L} (ctx : ExperimentContext) :
  respects R (L := L) (context.summarise_iterations env ctx).
Proof.
  intros w. unfold context.summarise_iterations.
  match goal with
  | |- R L w (snd (?m w)) => cut (respects R m); [intros H; apply H|]
  end.
  repeat respects_step.
Qed.

End RespectsCode.

(** One step through the code of the runners. *)
Ltac respects_code_step :=
  cbv beta;
  lazymatch goal with
  | |- respects _ (process_handler.kill_tree _ _) => apply respects_kill_tree; solve_frame
  | |- respects _ (kill_tree_of _ _) => apply respects_kill_tree_of; solve_frame
  | |- respects _ (kill_tree_if_set _ _) => apply respects_kill_tree_if_set; solve_frame
  | |- respects _ (process_handler.run_and_wait _ _ _ _) =>
      apply respects_run_and_wait; solve_frame
  | |- respects _ (comm_android._adb _ _ _ _ _) => apply respects_adb; solve_frame
  | |- respects _ (context.summarise_iterations _ _) =>
      apply respects_summarise_iterations; solve_frame
  | _ => respects_step
  end.

Section RespectsRunners.
Variable R : forall L, World L -> World L -> Prop.
Context `{HR : Frame R}.
Variable env : Env.

Lemma respects_ios_lan_setup {L} (fuel : nat) (ctx : ExperimentContext) :
  respects R (L := L) (ios_lan._record_setup_phase env fuel ctx).
Proof. unfold ios_lan._record_setup_phase. repeat respects_code_step. Qed.

Lemma respects_android_lan_setup {L} (fuel : nat) (ctx : ExperimentContext) :
  respects R (L := L) (android_lan_runner._record_setup_phase env fuel ctx).
Proof. unfold android_lan_runner._record_setup_phase. repeat respects_code_step. Qed.

Lemma respects_android_lan_clean_up {L} (ctx : ExperimentContext) :
  respects R (L := L) (android_lan.clean_up env ctx).
Proof. unfold android_lan.clean_up. repeat respects_code_step. Qed.

Lemma respects_android_wan_clean_up {L} (ctx : ExperimentContext) :
  respects R (L := L) (android_wan.clean_up env ctx).
Proof. unfold android_wan.clean_up. repeat respects_code_step. Qed.


End RespectsRunners.

(** The phases only append to the trace. *)
Lemma android_lan_phase_trace_grows (env : Env) {L} (ctx : ExperimentContext)
    (use_frida : bool) :
  respects trace_grows (L := L) (android_lan._iteration_phase env ctx use_frida).
Proof.
  unfold android_lan._iteration_phase, android_lan.iteration, android_lan.iteration_body,
    android_lan.iteration_except, android_lan.iteration_finally.
  repeat respects_code_step.
Qed.

Lemma android_wan_phase_trace_grows (env : Env) {L} (ctx : ExperimentContext)
    (use_frida : bool) :
  respects trace_grows (L := L) (android_wan._iteration_phase env ctx use_frida).
Proof.
  unfold android_wan._iteration_phase, android_wan.iteration, android_wan.iteration_body,
    android_wan.iteration_except, android_wan.iteration_finally.
  repeat respects_code_step.
Qed.

Lemma ios_wan_phase_trace_grows (env : Env) {L} (ctx : ExperimentContext)
    (use_frida : bool) :
  respects trace_grows (L := L) (ios_wan._iteration_phase env ctx use_frida).
Proof.
  unfold ios_wan._iteration_phase, ios_wan.iteration, ios_wan.iteration_body,
    ios_wan.iteration_except, ios_wan.iteration_finally.
  repeat respects_code_step.
Qed.

Lemma ios_lan_phase_trace_grows (env : Env) {L} (ctx : ExperimentContext)
    (use_frida : bool) :
  respects trace_grows (L := L) (ios_lan._iteration_phase env ctx use_frida).
Proof.
  unfold ios_lan._iteration_phase, ios_lan.iteration, ios_lan.iteration_body,
    ios_lan.iteration_except, ios_lan.iteration_finally.
  repeat respects_code_step.
Qed.

(** ** The runs of the four runners *)

Lemma kill_tree_if_set_runs {L} (env : Env) (o : option ProcessHandle) (w : World L) :
  exists ks, kill_tree_if_set env o w = (Ok tt, extend w ks) /\ kill_if_set o ks.
Proof.
  destruct o as [h|]; cbn [kill_tree_if_set kill_if_set].
  - apply kill_tree_runs.
  - exists []. now rewrite extend_nil.
Qed.

Lemma summarise_iterations_runs {L} (env : Env) (ctx : ExperimentContext) (w : World L) :
  context.summarise_iterations env ctx w
  = (match env (trace w)
             (PathWriteText (path_join (experiment_path ctx) "experiment_summary.txt")
                (context.summary_text (ledger w) +:+ nl)) with
     | Returns _ => Ok (context.summary_text (ledger w))
     | Raises e => Raise (summary_error e)
     end,
     extend w (summary_events ctx (ledger w)
                 (env (trace w)
                    (PathWriteText (path_join (experiment_path ctx) "experiment_summary.txt")
                       (context.summary_text (ledger w) +:+ nl))))).
Proof.
  unfold context.summarise_iterations, summary_events, summary_error.
  unfold bind, try_except, call.
  destruct (env (trace w) _) as [[]|e]; cbn.
  - reflexivity.
  - destruct (is_OSError e); cbn; [|reflexivity].
    now rewrite !log_event_extend, extend_extend.
Qed.

Lemma bind_assoc {L A B C} (m : M L A) (k : A -> M L B) (k' : B -> M L C) (w : World L) :
  bind (bind m k) k' w = bind m (fun a => bind (k a) k') w.
Proof. unfold bind. now destruct (m w) as [[a|e|] w1]. Qed.

Lemma bind_ext {L A B} (m : M L A) (k k' : A -> M L B) (w : World L) :
  (forall a w1, k a w1 = k' a w1) -> bind m k w = bind m k' w.
Proof. intros H. unfold bind. destruct (m w) as [[a|e|] w1]; auto. Qed.

(** A status line the console takes is printed. *)
Lemma print_status_msg_prints {L} (env : Env) (msg : string) (w : World L) :
  console_takes env msg ->
  exists line,
    user_interaction.print_status_msg env msg w = (Ok tt, extend w line)
    /\ printed msg line.
Proof.
  intros Hc. unfold user_interaction.print_status_msg, try_except, call.
  destruct (env (trace w) (TyperEcho msg)) as [[]|e1].
  - exists [{| ev_call := TyperEcho msg; ev_answer := Returns tt |}].
    split; [reflexivity|now left].
  - cbn [fst snd log_event trace]. rewrite Hc.
    exists [{| ev_call := TyperEcho msg; ev_answer := Raises e1 |};
            {| ev_call := Print msg; ev_answer := Returns tt |}].
    split; [|right; now exists e1].
    unfold log_event, extend. cbn [trace ledger locals]. now rewrite <- List.app_assoc.
Qed.

(** A status line appends status lines only, and leaves the ledger. *)
Lemma print_status_msg_appends {L} (env : Env) (msg : string) (w : World L) :
  exists evs,
    snd (user_interaction.print_status_msg env msg w) = extend w evs
    /\ status_lines evs.
Proof.
  unfold user_interaction.print_status_msg, try_except, call. cbn [fst snd].
  destruct (env (trace w) (TyperEcho msg)) as [[]|e1].
  - exists [{| ev_call := TyperEcho msg; ev_answer := Returns tt |}].
    split; [reflexivity|now repeat constructor].
  - cbn [fst snd log_event trace].
    exists [{| ev_call := TyperEcho msg; ev_answer := Raises e1 |};
            {| ev_call := Print msg;
               ev_answer := env (trace w ++ [{| ev_call := TyperEcho msg;
                                                ev_answer := Raises e1 |}]) (Print msg) |}].
    split; [|now repeat constructor].
    destruct (env _ (Print msg)) as [[]|e2]; unfold log_event, extend;
      cbn [snd trace ledger locals]; now rewrite <- List.app_assoc.
Qed.

(** The [finally] block of a run on a console that takes its status line:
    the status line, the kill of the handle held, then the closing
    steps. *)
Lemma run_finally_runs (env : Env) (closing : M (option ProcessHandle) unit)
    (w1 : World (option ProcessHandle)) :
  console_takes env stop_msg ->
  exists line ks,
    (let* _ := user_interaction.print_status_msg env stop_msg in
     let* overall_process := get_locals in
     let* _ := kill_tree_if_set env overall_process in
     closing) w1
    = closing (extend w1 (line ++ ks))
    /\ printed stop_msg line /\ kill_if_set (locals w1) ks.
Proof.
  intros Hc. destruct (print_status_msg_prints env stop_msg w1 Hc) as [line [Hl Hp]].
  destruct (kill_tree_if_set_runs env (locals w1) (extend w1 line)) as [ks [Hk Hks]].
  exists line, ks. split; [|now split].
  rewrite (bind_ok _ _ _ _ _ Hl).
  rewrite (bind_ok _ _ _ _ _ (get_locals_runs (extend w1 line))).
  cbn [locals extend]. cbn [locals extend] in Hk.
  rewrite (bind_ok _ _ _ _ _ Hk). now rewrite extend_extend.
Qed.

Lemma wrap_world {L A} (m : M L A) (w : World L) :
  snd (wrap_experiment_error m w) = snd (m w).
Proof.
  unfold wrap_experiment_error, try_except. now destruct (m w) as [[a|e|] w1].
Qed.

(** The overall capture once asked for: what the body of a run leaves
    when the steps after the start only append to the trace and keep the
    variable [overall_process]. *)
Lemma started_body_runs (env : Env) (ctx : ExperimentContext) {A}
    (rest : ProcessHandle -> M (option ProcessHandle) A)
    (w : World (option ProcessHandle)) (started : Answer ProcessHandle) :
  (forall h, respects trace_grows (rest h)) ->
  (forall h, respects same_locals (rest h)) ->
  env (trace w) (start_overall ctx) = started ->
  forall r,
    r = (let* h := call env (start_overall ctx) in
         let* _ := assign (fun _ => Some h) in
         rest h) w ->
    exists mid,
      trace (snd r)
      = trace w ++ [{| ev_call := start_overall ctx; ev_answer := started |}] ++ mid
      /\ match started with
         | Returns h => locals (snd r) = Some h
         | Raises e => mid = [] /\ locals (snd r) = locals w /\ fst r = Raise e
         end.
Proof.
  intros Hgrows Hlocals Hstart r ->. destruct started as [h|e].
  - rewrite (bind_ok _ _ _ _ _ (call_returns env (start_overall ctx) w h Hstart)).
    unfold bind at 1. cbn [assign].
    match goal with |- context [rest h ?w1] => set (w2 := w1) end.
    destruct (Hgrows h w2) as [mid Hmid]. exists mid. split.
    + transitivity (trace w2 ++ mid); [exact Hmid|].
      subst w2. cbn [trace extend]. now rewrite <- app_assoc.
    + exact (Hlocals h w2).
  - rewrite (bind_raise _ _ _ _ _ (call_raises env (start_overall ctx) w e Hstart)).
    exists []. cbn. auto.
Qed.

(** A run: an opening, the start of the overall capture, the rest of the
    [try] block; in the [finally] block the status line, the kill and the
    closing steps. *)
Lemma run_shape (env : Env) (ctx : ExperimentContext) {L}
    (body opening : M (option ProcessHandle) unit)
    (rest : ProcessHandle -> M (option ProcessHandle) unit)
    (closing : M (option ProcessHandle) unit) (w : World L) :
  (forall w0, body w0 = (let* _ := opening in
                         let* h := call env (start_overall ctx) in
                         let* _ := assign (fun _ => Some h) in
                         rest h) w0) ->
  respects same_locals opening ->
  (forall h, respects trace_grows (rest h)) ->
  (forall h, respects same_locals (rest h)) ->
  console_takes env stop_msg ->
  forall wb, opening (run_frame w) = (Ok tt, wb) ->
  forall r,
    r = call_function (None : option ProcessHandle)
          (try_finally (wrap_experiment_error body)
             (let* _ := user_interaction.print_status_msg env stop_msg in
              let* overall_process := get_locals in
              let* _ := kill_tree_if_set env overall_process in
              closing)) w ->
    fst r <> OutOfFuel ->
    exists mid line ks (wk : World (option ProcessHandle)),
      trace wk
      = trace wb
        ++ [{| ev_call := start_overall ctx;
               ev_answer := env (trace wb) (start_overall ctx) |}]
        ++ mid ++ line ++ ks
      /\ (forall e, env (trace wb) (start_overall ctx) = Raises e -> mid = [])
      /\ printed stop_msg line
      /\ overall_kill (env (trace wb) (start_overall ctx)) ks
      /\ trace (snd r) = trace (snd (closing wk))
      /\ ledger (snd r) = ledger (snd (closing wk))
      /\ (forall e, fst (closing wk) = Raise e -> fst r = Raise e).
Proof.
  intros Hbody Hop Hgrows Hlocals Hc wb Hwb r -> Hfuel. unfold call_function in *.
  change {| trace := trace w; ledger := ledger w; locals := None |} with (run_frame w) in *.
  set (started := let* h := call env (start_overall ctx) in
                  let* _ := assign (fun _ => Some h) in rest h) in *.
  assert (Hb : body (run_frame w) = started wb)
    by (rewrite Hbody; now rewrite (bind_ok _ _ _ _ _ Hwb)).
  assert (Hlb : locals wb = None).
  { pose proof (Hop (run_frame w)) as H. rewrite Hwb in H. exact H. }
  destruct (started_body_runs env ctx rest wb _ Hgrows Hlocals eq_refl (started wb) eq_refl)
    as [mid [Htrace Hstarted]].
  pose proof (wrap_world body (run_frame w)) as Hworld.
  unfold try_finally in *.
  destruct (wrap_experiment_error body (run_frame w)) as [r1 w1] eqn:Hwrap.
  cbn [snd] in Hworld. subst w1. rewrite Hb in *.
  change (ret_ty (start_overall ctx)) with ProcessHandle in *.
  destruct (run_finally_runs env closing (snd (started wb)) Hc) as [line [ks [Hfin [Hp Hks]]]].
  exists mid, line, ks, (extend (snd (started wb)) (line ++ ks)).
  assert (Hkill : overall_kill (env (trace wb) (start_overall ctx)) ks).
  { unfold overall_kill. destruct (env (trace wb) (start_overall ctx)) as [h|e].
    - exact (eq_ind _ (fun o => kill_if_set o ks) Hks _ Hstarted).
    - destruct Hstarted as [_ [Hl _]]. rewrite Hlb in Hl.
      exact (eq_ind _ (fun o => kill_if_set o ks) Hks _ Hl). }
  assert (Hmid : forall e, env (trace wb) (start_overall ctx) = Raises e -> mid = []).
  { intros e He. rewrite He in Hstarted. exact (proj1 Hstarted). }
  split; [cbn [trace extend]; rewrite Htrace; now rewrite <- !app_assoc|].
  split; [exact Hmid|]. split; [exact Hp|]. split; [exact Hkill|].
  destruct r1 as [[]|e1|]; [| |now cbn in Hfuel].
  - rewrite Hfin in *.
    destruct (closing (extend (snd (started wb)) (line ++ ks))) as [[[]|e|] w3];
      cbn [fst snd trace ledger] in *; repeat split; try congruence.
  - rewrite Hfin in *.
    destruct (closing (extend (snd (started wb)) (line ++ ks))) as [[[]|e|] w3];
      cbn [fst snd trace ledger] in *; repeat split; try congruence.
Qed.

(** The closing steps of an iOS run: the summary, then two status
    lines. *)
Lemma ios_closing_runs (env : Env) (ctx : ExperimentContext) {L} (wk : World L) :
  exists a after r,
    (let* summary := context.summarise_iterations env ctx in
     let* _ := user_interaction.print_status_msg env (summary_msg summary) in
     user_interaction.print_status_msg env
       "❗ Don't forget to collect contacted domains in App Privacy Report") wk
    = (r, extend wk (summary_events ctx (ledger wk) a ++ after))
    /\ status_lines after
    /\ (forall e, a = Raises e -> after = [] /\ r = Raise (summary_error e)).
Proof.
  exists (env (trace wk)
            (PathWriteText (path_join (experiment_path ctx) "experiment_summary.txt")
               (context.summary_text (ledger wk) +:+ nl))).
  unfold bind at 1. rewrite summarise_iterations_runs.
  destruct (env (trace wk) _) as [[]|e].
  - unfold bind.
    match goal with
    | |- context [user_interaction.print_status_msg env ?m ?w] =>
        destruct (print_status_msg_appends env m w) as [evs1 [H1 Hs1]];
        destruct (user_interaction.print_status_msg env m w) as [[[]|e1|] w2]
    end; cbn [fst snd] in H1; subst w2.
    + match goal with
      | |- context [user_interaction.print_status_msg env ?m ?w] =>
          destruct (print_status_msg_appends env m w) as [evs2 [H2 Hs2]];
          destruct (user_interaction.print_status_msg env m w) as [r2 w3]
      end.
      cbn [snd] in H2. subst w3. exists (evs1 ++ evs2), r2.
      split; [now rewrite !extend_extend|].
      split; [now apply Forall_app|discriminate].
    + exists evs1, (Raise e1).
      split; [now rewrite !extend_extend|]. split; [exact Hs1|discriminate].
    + exists evs1, OutOfFuel.
      split; [now rewrite !extend_extend|]. split; [exact Hs1|discriminate].
  - exists [], (Raise (summary_error e)). rewrite app_nil_r.
    split; [reflexivity|]. split; [constructor|].
    intros e' [= <-]. now split.
Qed.

(** One step through the body of a [run]. *)
Ltac respects_run_step :=
  cbv beta;
  lazymatch goal with
  | |- respects trace_grows (android_lan._iteration_phase _ _ _) =>
      apply android_lan_phase_trace_grows
  | |- respects trace_grows (android_wan._iteration_phase _ _ _) =>
      apply android_wan_phase_trace_grows
  | |- respects trace_grows (ios_wan._iteration_phase _ _ _) =>
      apply ios_wan_phase_trace_grows
  | |- respects trace_grows (ios_lan._iteration_phase _ _ _) =>
      apply ios_lan_phase_trace_grows
  | |- respects same_locals (android_lan._iteration_phase _ _ _) =>
      apply call_function_same_locals
  | |- respects same_locals (android_wan._iteration_phase _ _ _) =>
      apply call_function_same_locals
  | |- respects same_locals (ios_wan._iteration_phase _ _ _) =>
      apply call_function_same_locals
  | |- respects same_locals (ios_lan._iteration_phase _ _ _) =>
      apply call_function_same_locals
  | |- respects _ (ios_lan._record_setup_phase _ _ _) =>
      apply respects_ios_lan_setup; solve_frame
  | |- respects _ (android_lan_runner._record_setup_phase _ _ _) =>
      apply respects_android_lan_setup; solve_frame
  | |- respects _ (android_lan.clean_up _ _) =>
      apply respects_android_lan_clean_up; solve_frame
  | |- respects _ (android_wan.clean_up _ _) =>
      apply respects_android_wan_clean_up; solve_frame
  | _ => respects_code_step
  end.

(** The opening of a run is a prefix of its [try] block. *)
Ltac split_opening :=
  intros ?;
  repeat first [ reflexivity
               | rewrite bind_assoc; apply bind_ext; intros ? ?; cbv beta ].

(** X9. How an iOS run ends (WAN and LAN runner alike), when its three
    opening status lines were printed, the console takes the status line
    of the [finally] block, and the operator answers in the end.  The
    overall capture is asked for next.  Whatever happened in between, the
    [finally] block prints its status line, then makes one attempt to kill
    the handle the start returned ([kill_tree], which swallows the errors
    of signalling), then writes the summary of the ledger, then prints
    status lines and nothing else.  When the start raised, the [try] block
    ends there and nothing is killed.  When the write of the summary
    raised, nothing follows it, and the run ends with the error of the
    summary ([RuntimeError] for an [OSError]) in place of the outcome of
    the experiment. *)
Theorem ios_run_teardown {L} (env : Env) (wan : bool) (fuel : nat)
    (ctx : ExperimentContext) (w : World L) (wb : World (option ProcessHandle)) :
  console_takes env stop_msg ->
  ios_run_opening env wan (run_frame w) = (Ok tt, wb) ->
  fst (ios_run env wan fuel ctx w) <> OutOfFuel ->
  exists mid line ks a after,
    trace (snd (ios_run env wan fuel ctx w))
    = trace wb
      ++ [{| ev_call := start_overall ctx;
             ev_answer := env (trace wb) (start_overall ctx) |}]
      ++ mid ++ line ++ ks
      ++ summary_events ctx (ledger (snd (ios_run env wan fuel ctx w))) a ++ after
    /\ (forall e, env (trace wb) (start_overall ctx) = Raises e -> mid = [])
    /\ printed stop_msg line
    /\ overall_kill (env (trace wb) (start_overall ctx)) ks
    /\ status_lines after
    /\ (forall e, a = Raises e ->
          after = [] /\ fst (ios_run env wan fuel ctx w) = Raise (summary_error e)).
Proof.
  intros Hc Hwb Hfuel.
  assert (Hshape :
    exists mid line ks (wk : World (option ProcessHandle)),
      trace wk
      = trace wb
        ++ [{| ev_call := start_overall ctx;
               ev_answer := env (trace wb) (start_overall ctx) |}]
        ++ mid ++ line ++ ks
      /\ (forall e, env (trace wb) (start_overall ctx) = Raises e -> mid = [])
      /\ printed stop_msg line
      /\ overall_kill (env (trace wb) (start_overall ctx)) ks
      /\ trace (snd (ios_run env wan fuel ctx w))
         = trace (snd ((let* summary := context.summarise_iterations env ctx in
                        let* _ := user_interaction.print_status_msg env
                                    (summary_msg summary) in
                        user_interaction.print_status_msg env
                          "❗ Don't forget to collect contacted domains in App Privacy Report")
                         wk))
      /\ ledger (snd (ios_run env wan fuel ctx w))
         = ledger (snd ((let* summary := context.summarise_iterations env ctx in
                         let* _ := user_interaction.print_status_msg env
                                     (summary_msg summary) in
                         user_interaction.print_status_msg env
                           "❗ Don't forget to collect contacted domains in App Privacy Report")
                          wk))
      /\ (forall e,
            fst ((let* summary := context.summarise_iterations env ctx in
                  let* _ := user_interaction.print_status_msg env (summary_msg summary) in
                  user_interaction.print_status_msg env
                    "❗ Don't forget to collect contacted domains in App Privacy Report") wk)
            = Raise e ->
            fst (ios_run env wan fuel ctx w) = Raise e)).
  { destruct wan; cbn [ios_run] in *.
    - refine (run_shape env ctx _ (ios_run_opening env true)
                (fun h =>
                   let* _ := wait_for_coordinates env fuel in
                   let* _ := user_interaction.print_status_msg env
                               "▶️  Starting NO-FRIDA phase…" in
                   let* _ := ios_wan._iteration_phase env ctx false in
                   let* _ := user_interaction.print_status_msg env
                               "▶️  Starting FRIDA phase…" in
                   ios_wan._iteration_phase env ctx true)
                _ w _ _ _ _ Hc wb Hwb _ eq_refl Hfuel).
      + unfold ios_run_opening. split_opening.
      + unfold ios_run_opening. repeat respects_run_step.
      + intros h; repeat respects_run_step.
      + intros h; repeat respects_run_step.
    - refine (run_shape env ctx _ (ios_run_opening env false)
                (fun h =>
                   let* io := attr (ios (config ctx)) in
                   let* _ := call env (SshCreateFolder (ssh io) (phone_pcap_save_path io)) in
                   let* record := call env (PromptUser "❓ Record setup phase of IoT device?") in
                   let* _ := when record (ios_lan._record_setup_phase env fuel ctx) in
                   let* _ := wait_for_coordinates env fuel in
                   let* _ := user_interaction.print_status_msg env
                               "▶️  Starting NO-FRIDA phase…" in
                   let* _ := ios_lan._iteration_phase env ctx false in
                   let* _ := user_interaction.print_status_msg env
                               "▶️  Starting FRIDA phase…" in
                   ios_lan._iteration_phase env ctx true)
                _ w _ _ _ _ Hc wb Hwb _ eq_refl Hfuel).
      + unfold ios_run_opening. split_opening.
      + unfold ios_run_opening. repeat respects_run_step.
      + intros h; repeat respects_run_step.
      + intros h; repeat respects_run_step. }
  destruct Hshape as [mid [line [ks [wk [Hwk [Hmid [Hp [Hk [Ht [Hl Hr]]]]]]]]]].
  destruct (ios_closing_runs env ctx wk) as [a [after [r [Hrun [Hs Ha]]]]].
  rewrite Hrun in Ht, Hl, Hr. cbn [fst snd trace ledger extend] in Ht, Hl, Hr.
  exists mid, line, ks, a, after.
  split.
  { rewrite Ht, Hwk, Hl. now rewrite <- !List.app_assoc. }
  split; [exact Hmid|]. split; [exact Hp|]. split; [exact Hk|]. split; [exact Hs|].
  intros e He. destruct (Ha e He) as [Hafter Hfst]. split; [exact Hafter|].
  apply Hr, Hfst.
Qed.

Lemma ios_run_teardown_witness :
  console_takes env_ok stop_msg
  /\ fst (ios_run env_ok true 1 scenario_ios_wan_ctx (empty_world tt)) <> OutOfFuel
  /\ exists mid line ks a after,
       trace (snd (ios_run env_ok true 1 scenario_ios_wan_ctx (empty_world tt)))
       = trace (snd (ios_run_opening env_ok true (run_frame (empty_world tt))))
         ++ [{| ev_call := start_overall scenario_ios_wan_ctx;
                ev_answer :=
                  env_ok (trace (snd (ios_run_opening env_ok true
                                        (run_frame (empty_world tt)))))
                    (start_overall scenario_ios_wan_ctx) |}]
         ++ mid ++ line ++ ks
         ++ summary_events scenario_ios_wan_ctx
              (ledger (snd (ios_run env_ok true 1 scenario_ios_wan_ctx (empty_world tt)))) a
         ++ after
       /\ (forall e,
             env_ok (trace (snd (ios_run_opening env_ok true (run_frame (empty_world tt)))))
               (start_overall scenario_ios_wan_ctx) = Raises e -> mid = [])
       /\ printed stop_msg line
       /\ overall_kill
            (env_ok (trace (snd (ios_run_opening env_ok true (run_frame (empty_world tt)))))
               (start_overall scenario_ios_wan_ctx)) ks
       /\ status_lines after
       /\ (forall e, a = Raises e ->
             after = []
             /\ fst (ios_run env_ok true 1 scenario_ios_wan_ctx (empty_world tt))
                = Raise (summary_error e)).
Proof.
  assert (Hc : console_takes env_ok stop_msg) by (intros history; reflexivity).
  assert (Hwb : ios_run_opening env_ok true (run_frame (empty_world tt))
                = (Ok tt, snd (ios_run_opening env_ok true (run_frame (empty_world tt)))))
    by (vm_compute; reflexivity).
  assert (Hfuel : fst (ios_run env_ok true 1 scenario_ios_wan_ctx (empty_world tt))
                  <> OutOfFuel)
    by (vm_compute; discriminate).
  split; [exact Hc|]. split; [exact Hfuel|].
  exact (ios_run_teardown env_ok true 1 scenario_ios_wan_ctx (empty_world tt) _
           Hc Hwb Hfuel).
Defined.









(** ** The ledger of the other two phases, and of a whole run *)

Lemma step_add_one {L} (w0 : World L) (o : option Z) :
  hoare (under_way w0) (ios_lan.add_one o) (step_post w0 (fun _ => True)).
Proof.
  intros w [evs [-> Hclean]]. destruct o; cbn.
  - split; [now exists evs|exact I].
  - exists evs. split; [reflexivity|]. left. split; [exact Hclean|now right].
Qed.

(** One step of a cleanup sequence, followed by the rest. *)
Ltac cleanup_step' :=
  first [ cleanup_step
        | eapply step_bind;
          [ apply step_add_one | intros ? ? | intros ? ? ?; assumption ] ].

Lemma android_wan_finally_fails_fast (env : Env) (ctx : ExperimentContext)
    (a : AndroidConfig) (use_frida : bool) (target_dir : Path) (i : Z)
    (w0 : World android_wan.Locals) :
  hoare (under_way w0) (android_wan.iteration_finally env ctx a use_frida target_dir i)
    (cleanup_post w0 (phase_name_of use_frida) i (android_wan.success (locals w0))).
Proof.
  unfold android_wan.iteration_finally.
  repeat cleanup_step'.
  cbv beta in *. subst. apply record_ends_cleanup.
Qed.

Lemma ios_lan_finally_fails_fast (env : Env) (ctx : ExperimentContext)
    (use_frida : bool) (target_dir : Path) (i : Z) (w0 : World ios_lan.Locals) :
  hoare (under_way w0) (ios_lan.iteration_finally env ctx use_frida target_dir i)
    (cleanup_post w0 (phase_name_of use_frida) i (ios_lan.success (locals w0))).
Proof.
  unfold ios_lan.iteration_finally.
  repeat cleanup_step'.
  cbv beta in *. subst. apply record_ends_cleanup.
Qed.

Lemma frames_respects {L A} (m : M L A) : respects same_ledger m -> frames m.
Proof. intros H w. exact (H w). Qed.

Lemma android_wan_phase_ledger (env : Env) {L} (ctx : ExperimentContext)
    (use_frida : bool) (w : World L) :
  phase_post w (phase_name_of use_frida) (num_iterations_of ctx use_frida)
    (fst (android_wan._iteration_phase env ctx use_frida w))
    (snd (android_wan._iteration_phase env ctx use_frida w)).
Proof.
  unfold android_wan._iteration_phase. apply phase_records.
  apply frames_then; [apply frames_attr|intros a].
  apply frames_then; [apply frames_print_status_msg|intros _].
  apply frames_then; [apply frames_call|intros _].
  apply for_each_records. intros i l0. unfold android_wan.iteration.
  apply frames_before_iteration; [apply frames_print_status_msg|intros _].
  apply (iteration_records_once _ _ android_wan.success).
  - apply frames_respects.
    unfold android_wan.iteration_body, android_wan.iteration_except.
    repeat respects_code_step.
  - apply try_except_catches_all. reflexivity.
  - intros w0. apply android_wan_finally_fails_fast.
Qed.

Lemma ios_lan_phase_ledger (env : Env) {L} (ctx : ExperimentContext)
    (use_frida : bool) (w : World L) :
  phase_post w (phase_name_of use_frida) (num_iterations_of ctx use_frida)
    (fst (ios_lan._iteration_phase env ctx use_frida w))
    (snd (ios_lan._iteration_phase env ctx use_frida w)).
Proof.
  unfold ios_lan._iteration_phase. apply phase_records.
  apply frames_then; [apply frames_print_status_msg|intros _].
  apply frames_then; [apply frames_call|intros _].
  apply for_each_records. intros i l0. unfold ios_lan.iteration.
  apply frames_before_iteration; [apply frames_print_status_msg|intros _].
  apply (iteration_records_once _ _ ios_lan.success).
  - apply frames_respects.
    unfold ios_lan.iteration_body, ios_lan.iteration_except.
    repeat respects_code_step.
  - apply try_except_catches_all. reflexivity.
  - intros w0. apply ios_lan_finally_fails_fast.
Qed.


(** *** When a run returns *)

Lemma on_ok_frame_then {L A B} (T : Ledger -> Ledger -> Prop) (m : M L A) (k : A -> M L B) :
  respects same_ledger m -> (forall a, on_ok T (k a)) -> on_ok T (bind m k).
Proof.
  intros Hm Hk w b. unfold bind. specialize (Hm w). unfold same_ledger in Hm.
  destruct (m w) as [[a|e|] w1]; cbn [fst snd] in *; try discriminate.
  intros Hb. rewrite <- Hm. exact (Hk a w1 b Hb).
Qed.

Lemma on_ok_phases {L} (ctx : ExperimentContext) (phase : bool -> M L unit)
    (between : M L unit) :
  (forall uf w, phase_post w (phase_name_of uf) (num_iterations_of ctx uf)
                  (fst (phase uf w)) (snd (phase uf w))) ->
  respects same_ledger between ->
  on_ok (both_phases ctx)
    (let* _ := phase false in let* _ := between in phase true).
Proof.
  intros Hphase Hbetween w [] Hok. unfold bind in *.
  pose proof (Hphase false w) as H1.
  destruct (phase false w) as [[[]|e|] w1]; cbn [fst snd] in *; try discriminate.
  pose proof (Hbetween w1) as Hb. unfold same_ledger in Hb.
  destruct (between w1) as [[[]|e|] wm]; cbn [fst snd] in *; try discriminate.
  pose proof (Hphase true wm) as H2.
  destruct (phase true wm) as [[[]|e|] w2]; cbn [fst snd] in *; try discriminate.
  destruct H1 as [e1 [Hl1 [_ [_ Hall1]]]]. destruct H2 as [e2 [Hl2 [_ [_ Hall2]]]].
  exists (ledger w1). split.
  - exists e1. split; [exact Hl1|]. exact (proj1 (Hall1 eq_refl)).
  - exists e2. split; [now rewrite Hl2, Hb|]. exact (proj1 (Hall2 eq_refl)).
Qed.

Lemma on_ok_wrap {L A} (T : Ledger -> Ledger -> Prop) (m : M L A) :
  on_ok T m -> on_ok T (wrap_experiment_error m).
Proof.
  intros Hm w a. unfold wrap_experiment_error, try_except. specialize (Hm w).
  destruct (m w) as [[b|e|] w1]; cbn [fst snd] in *; try discriminate.
  intros _. exact (Hm b eq_refl).
Qed.

(** The ledger changes that compose with a step that keeps the ledger. *)
Lemma on_ok_try_finally {L A} (T : Ledger -> Ledger -> Prop) (m : M L A) (f : M L unit) :
  on_ok T m -> respects same_ledger f -> on_ok T (try_finally m f).
Proof.
  intros Hm Hf w a. unfold try_finally. specialize (Hm w).
  destruct (m w) as [[b|e|] w1]; cbn [fst snd] in *; try discriminate;
    specialize (Hf w1); unfold same_ledger in Hf;
    destruct (f w1) as [[[]|e'|] w2]; cbn [fst snd] in *; try discriminate.
  intros _. rewrite Hf. exact (Hm b eq_refl).
Qed.

Lemma on_ok_call_function {L L' A} (T : Ledger -> Ledger -> Prop) (init : L')
    (body : M L' A) :
  on_ok T body -> on_ok T (L := L) (call_function init body).
Proof.
  intros Hb w a. unfold call_function.
  specialize (Hb {| trace := trace w; ledger := ledger w; locals := init |}).
  destruct (body _) as [r w1]. cbn [fst snd ledger] in *. intros ->. exact (Hb a eq_refl).
Qed.

Ltac on_ok_step :=
  cbv beta;
  first [ apply on_ok_frame_then; [ solve [repeat respects_run_step] | intros ? ] ].

Lemma android_lan_run_on_ok {L} (env : Env) (strip : string -> string) (fuel : nat)
    (ctx : ExperimentContext) :
  on_ok (both_phases ctx) (L := L) (android_lan_runner.run env strip fuel ctx).
Proof.
  unfold android_lan_runner.run. apply on_ok_call_function.
  apply on_ok_try_finally; [|repeat respects_run_step].
  apply on_ok_wrap. unfold comm_android.enable_bluetooth.
  repeat on_ok_step.
  apply (on_ok_phases ctx (fun uf => android_lan._iteration_phase env ctx uf)).
  - intros uf w. apply android_lan_phase_ledger.
  - repeat respects_run_step.
Qed.

Lemma android_wan_run_on_ok {L} (env : Env) (strip : string -> string) (fuel : nat)
    (ctx : ExperimentContext) :
  on_ok (both_phases ctx) (L := L) (android_wan_runner.run env strip fuel ctx).
Proof.
  unfold android_wan_runner.run. apply on_ok_call_function.
  apply on_ok_try_finally; [|repeat respects_run_step].
  apply on_ok_wrap. unfold comm_android.disable_bluetooth.
  repeat on_ok_step.
  apply (on_ok_phases ctx (fun uf => android_wan._iteration_phase env ctx uf)).
  - intros uf w. apply android_wan_phase_ledger.
  - repeat respects_run_step.
Qed.

Lemma ios_lan_run_on_ok {L} (env : Env) (fuel : nat) (ctx : ExperimentContext) :
  on_ok (both_phases ctx) (L := L) (ios_lan_runner.run env fuel ctx).
Proof.
  unfold ios_lan_runner.run. apply on_ok_call_function.
  apply on_ok_try_finally;
    [|unfold ios_lan_runner.run_finally; repeat respects_run_step].
  apply on_ok_wrap.
  repeat on_ok_step.
  apply (on_ok_phases ctx (fun uf => ios_lan._iteration_phase env ctx uf)).
  - intros uf w. apply ios_lan_phase_ledger.
  - repeat respects_run_step.
Qed.

Lemma ios_wan_run_on_ok {L} (env : Env) (fuel : nat) (ctx : ExperimentContext) :
  on_ok (both_phases ctx) (L := L) (ios_wan_runner.run env fuel ctx).
Proof.
  unfold ios_wan_runner.run. apply on_ok_call_function.
  apply on_ok_try_finally;
    [|unfold ios_lan_runner.run_finally; repeat respects_run_step].
  apply on_ok_wrap.
  repeat on_ok_step.
  apply (on_ok_phases ctx (fun uf => ios_wan._iteration_phase env ctx uf)).
  - intros uf w. apply ios_wan_phase_ledger.
  - repeat respects_run_step.
Qed.

Lemma ledger_get_append_other (l : Ledger) (phase q : string) (entry : Z * bool) :
  phase <> q ->
  context.ledger_get (context.ledger_append l phase entry) q = context.ledger_get l q.
Proof.
  intros Hne. induction l as [|[p results] rest IH]; cbn.
  - destruct (String.eqb_spec phase q); [contradiction|reflexivity].
  - destruct (String.eqb_spec p phase) as [->|Hp]; cbn.
    + destruct (String.eqb_spec phase q); [contradiction|reflexivity].
    + destruct (String.eqb_spec p q); [reflexivity|exact IH].
Qed.

Lemma ledger_get_record_all_other (l : Ledger) (phase q : string)
    (entries : list (Z * bool)) :
  phase <> q ->
  context.ledger_get (record_all l phase entries) q = context.ledger_get l q.
Proof.
  intros Hne. revert l. induction entries as [|e entries IH]; intros l; cbn.
  - reflexivity.
  - change (fold_left _ entries ?x) with (record_all x phase entries).
    rewrite IH. now apply ledger_get_append_other.
Qed.

(** X13. When [dispatch], over the four registered runners, returns
    normally, the experiment is complete in the ledger: the baseline phase
    has gained exactly one entry for each of its [no_frida_iterations]
    iterations and the instrumented phase one for each of its
    [frida_iterations] iterations, with the indices [1 .. N] in order;
    an iteration that could not be recorded would have ended the run with
    an error. *)
Theorem dispatch_ok_records_every_iteration {L} (env : Env) (strip : string -> string)
    (fuel : nat) (ctx : ExperimentContext) (w : World L) :
  fst (runners.dispatch (_REGISTRY env strip fuel) ctx w) = Ok tt ->
  exists baseline instrumented,
    context.ledger_get (ledger (snd (runners.dispatch (_REGISTRY env strip fuel) ctx w)))
      "no_frida"
    = context.ledger_get (ledger w) "no_frida" ++ baseline
    /\ map fst baseline = range_from_1 (no_frida_iterations (config ctx))
    /\ context.ledger_get (ledger (snd (runners.dispatch (_REGISTRY env strip fuel) ctx w)))
         "frida"
       = context.ledger_get (ledger w) "frida" ++ instrumented
    /\ map fst instrumented = range_from_1 (frida_iterations (config ctx)).
Proof.
  intros Hok.
  assert (Hboth : both_phases ctx (ledger w)
                    (ledger (snd (runners.dispatch (_REGISTRY env strip fuel) ctx w)))).
  { rewrite dispatch_over_registry in *.
    destruct (String.eqb (platform (config ctx)) "android"),
             (String.eqb (platform (config ctx)) "ios"),
             (String.eqb (network_profile (config ctx)) "lan"),
             (String.eqb (network_profile (config ctx)) "wan");
      try discriminate Hok;
      first [ exact (android_lan_run_on_ok env strip fuel ctx w tt Hok)
            | exact (android_wan_run_on_ok env strip fuel ctx w tt Hok)
            | exact (ios_lan_run_on_ok env fuel ctx w tt Hok)
            | exact (ios_wan_run_on_ok env fuel ctx w tt Hok) ]. }
  destruct Hboth as [l1 [[e1 [Hl1 He1]] [e2 [Hl2 He2]]]].
  exists e1, e2. rewrite Hl2, Hl1. cbn [phase_name_of num_iterations_of] in *.
  rewrite ledger_get_record_all_other by discriminate.
  rewrite !ledger_get_record_all.
  rewrite ledger_get_record_all_other by discriminate.
  auto.
Qed.

Lemma dispatch_ok_records_every_iteration_witness :
  fst (runners.dispatch (_REGISTRY env_ok (fun s => s) 1%nat) scenario_ctx (empty_world tt))
  = Ok tt
  /\ exists baseline instrumented,
       context.ledger_get
         (ledger (snd (runners.dispatch (_REGISTRY env_ok (fun s => s) 1%nat) scenario_ctx
                         (empty_world tt)))) "no_frida"
       = context.ledger_get (ledger (empty_world tt)) "no_frida" ++ baseline
       /\ map fst baseline = range_from_1 (no_frida_iterations (config scenario_ctx))
       /\ context.ledger_get
            (ledger (snd (runners.dispatch (_REGISTRY env_ok (fun s => s) 1%nat) scenario_ctx
                            (empty_world tt)))) "frida"
          = context.ledger_get (ledger (empty_world tt)) "frida" ++ instrumented
       /\ map fst instrumented = range_from_1 (frida_iterations (config scenario_ctx)).
Proof.
  assert (H : fst (runners.dispatch (_REGISTRY env_ok (fun s => s) 1%nat) scenario_ctx
                     (empty_world tt)) = Ok tt)
    by (vm_compute; reflexivity).
  split; [exact H|].
  exact (dispatch_ok_records_every_iteration env_ok (fun s => s) 1%nat scenario_ctx
           (empty_world tt) H).
Defined.

(** ** The adb helpers and the bounded command runner *)

Lemma finishes_ret {L A} (a : A) : finishes (L := L) (ret a).
Proof. intros w. discriminate. Qed.

Lemma finishes_raise {L A} (e : exn) : finishes (L := L) (A := A) (raise e).
Proof. intros w. discriminate. Qed.

Lemma finishes_call {L} (env : Env) (c : Call) : finishes (L := L) (call env c).
Proof. intros w. unfold call. cbn. destruct (env (trace w) c); discriminate. Qed.

Lemma finishes_log_error {L} (msg : string) : finishes (L := L) (log_error msg).
Proof. intros w. discriminate. Qed.

Lemma finishes_log_warning {L} (msg : string) : finishes (L := L) (log_warning msg).
Proof. intros w. discriminate. Qed.

Lemma finishes_bind {L A B} (m : M L A) (k : A -> M L B) :
  finishes m -> (forall a, finishes (k a)) -> finishes (bind m k).
Proof.
  intros Hm Hk w. unfold bind. specialize (Hm w).
  destruct (m w) as [[a|e|] w1]; cbn [fst] in *; [apply Hk|discriminate|contradiction].
Qed.

Lemma finishes_try_except {L A} (m : M L A) (h : exn -> M L A) :
  finishes m -> (forall e, finishes (h e)) -> finishes (try_except m h).
Proof.
  intros Hm Hh w. unfold try_except. specialize (Hm w).
  destruct (m w) as [[a|e|] w1]; cbn [fst] in *; [discriminate|apply Hh|contradiction].
Qed.

Lemma finishes_try_finally {L A} (m : M L A) (f : M L unit) :
  finishes m -> finishes f -> finishes (try_finally m f).
Proof.
  intros Hm Hf w. unfold try_finally. specialize (Hm w).
  destruct (m w) as [[a|e|] w1]; cbn [fst] in *; try contradiction;
    specialize (Hf w1); destruct (f w1) as [[[]|e'|] w2]; cbn [fst] in *;
    try discriminate; contradiction.
Qed.

Ltac finishes_step :=
  cbv beta;
  lazymatch goal with
  | |- finishes (bind _ _) => apply finishes_bind; [ | intros ? ]
  | |- finishes (try_except _ _) => apply finishes_try_except; [ | intros ? ]
  | |- finishes (try_finally _ _) => apply finishes_try_finally
  | |- finishes (call ?e ?c) => exact (finishes_call e c)
  | |- finishes (ret _) => apply finishes_ret
  | |- finishes pass => apply finishes_ret
  | |- finishes (raise _) => apply finishes_raise
  | |- finishes (log_error _) => apply finishes_log_error
  | |- finishes (log_warning _) => apply finishes_log_warning
  | |- finishes (match ?x with _ => _ end) => destruct x
  | |- finishes (if ?x then _ else _) => destruct x
  end.

Lemma run_and_wait_finishes {L} (env : Env) (args : list string) (timeout : option Q)
    (check : bool) :
  finishes (L := L) (process_handler.run_and_wait env args timeout check).
Proof.
  unfold process_handler.run_and_wait, process_handler.on_timeout.
  repeat finishes_step.
Qed.

Lemma adb_finishes {L} (env : Env) (strip : string -> string) (phone : string)
    (args : list string) (timeout : option Q) :
  finishes (L := L) (comm_android._adb env strip phone args timeout).
Proof.
  unfold comm_android._adb. finishes_step; [apply run_and_wait_finishes|finishes_step].
Qed.

(** The spawn is the first thing [run_and_wait] does. *)
Lemma run_and_wait_spawns {L} (env : Env) (args : list string) (timeout : option Q)
    (check : bool) (w : World L) :
  exists rest,
    trace (snd (process_handler.run_and_wait env args timeout check w))
    = trace w ++ {| ev_call := PopenSpawn args;
                    ev_answer := env (trace w) (PopenSpawn args) |} :: rest.
Proof.
  unfold process_handler.run_and_wait. unfold bind at 1. unfold call at 1.
  destruct (env (trace w) (PopenSpawn args)) as [proc|e] eqn:Hs; cbn [fst snd].
  - match goal with
    | |- context [snd (?k ?w1)] =>
        assert (Hk : respects trace_grows k)
    end.
    { unfold process_handler.on_timeout. repeat respects_step. }
    match goal with
    | |- context [snd (?k ?w1)] => destruct (Hk w1) as [rest Hrest]
    end.
    exists rest. rewrite Hrest. cbn [trace log_event]. now rewrite <- app_assoc.
  - exists []. reflexivity.
Qed.

(** What [run_and_wait] does when [communicate] does not time out. *)
Lemma run_and_wait_completes {L} (env : Env) (args : list string)
    (timeout : option Q) (check : bool) (w : World L) (proc : Z)
    (a : Answer (string * string * Z)) :
  env (trace w) (PopenSpawn args) = Returns proc ->
  env (trace w ++ [{| ev_call := PopenSpawn args; ev_answer := Returns proc |}])
      (PopenCommunicate proc timeout) = a ->
  (forall e, a = Raises e -> is_timeout e = false) ->
  process_handler.run_and_wait env args timeout check w
  = (fst (completed args check a),
     extend w ([ {| ev_call := PopenSpawn args; ev_answer := Returns proc |};
                 {| ev_call := PopenCommunicate proc timeout; ev_answer := a |} ]
               ++ snd (completed args check a))).
Proof.
  intros Hspawn Hcomm Hnot.
  unfold process_handler.run_and_wait.
  rewrite (bind_ok _ _ _ _ _ (call_returns env (PopenSpawn args) w proc Hspawn)).
  set (w1 := extend w [{| ev_call := PopenSpawn args; ev_answer := Returns proc |}]).
  change (trace w ++ [{| ev_call := PopenSpawn args; ev_answer := Returns proc |}])
    with (trace w1) in Hcomm.
  destruct a as [[[out err] rc]|e].
  - pose proof (call_returns env (PopenCommunicate proc timeout) w1 _ Hcomm) as Hc.
    erewrite bind_ok;
      [|apply try_except_ok; erewrite bind_ok; [reflexivity|exact Hc]].
    cbn [fst snd completed]. subst w1.
    destruct (check && negb (rc =? 0)); cbn [fst snd].
    + rewrite (bind_ok _ _ _ _ _ (log_error_runs _ _)). unfold raise, extend.
      cbn [trace ledger locals]. do 2 f_equal; try now rewrite <- !List.app_assoc.
    + unfold ret, extend. cbn [trace ledger locals]. do 2 f_equal;
        try now rewrite <- !List.app_assoc.
  - pose proof (call_raises env (PopenCommunicate proc timeout) w1 e Hcomm) as Hc.
    specialize (Hnot e eq_refl).
    match goal with
    | |- bind ?t ?k ?w0 = _ =>
        assert (Ht : t w0
                     = (Raise e, extend w1 [{| ev_call := PopenCommunicate proc timeout;
                                               ev_answer := Raises e |}]))
    end.
    { erewrite try_except_raise; [|apply bind_raise; exact Hc].
      destruct e; try discriminate Hnot; reflexivity. }
    rewrite (bind_raise _ _ _ _ _ Ht).
    cbn [fst snd completed]. subst w1. unfold extend. cbn [trace ledger locals].
    do 2 f_equal; try now rewrite <- !List.app_assoc.
Qed.

(** X14. [run_and_wait] signals nothing unless the command timed out.
    When the process was spawned and [communicate] did not time out, the
    spawn and the [communicate] are the only calls made on the process: a
    zero return code, or any return code with [check=False], gives the
    completed process with its output; a non-zero return code with
    [check=True] is logged and raised as [CalledProcessError] carrying the
    return code, the command and the output; any other error of
    [communicate] is passed on as it is. *)
Theorem run_and_wait_signals_only_after_timeout {L} (env : Env) (args : list string)
    (timeout : option Q) (check : bool) (w : World L) (proc : Z)
    (a : Answer (string * string * Z)) :
  env (trace w) (PopenSpawn args) = Returns proc ->
  env (trace w ++ [{| ev_call := PopenSpawn args; ev_answer := Returns proc |}])
      (PopenCommunicate proc timeout) = a ->
  (forall e, a = Raises e -> is_timeout e = false) ->
  process_handler.run_and_wait env args timeout check w
  = (fst (completed args check a),
     extend w ([ {| ev_call := PopenSpawn args; ev_answer := Returns proc |};
                 {| ev_call := PopenCommunicate proc timeout; ev_answer := a |} ]
               ++ snd (completed args check a)))
  /\ Forall (fun ev => is_signal (ev_call ev) = false)
       ([ {| ev_call := PopenSpawn args; ev_answer := Returns proc |};
          {| ev_call := PopenCommunicate proc timeout; ev_answer := a |} ]
        ++ snd (completed args check a)).
Proof.
  intros Hspawn Hcomm Hnot. split.
  - now apply run_and_wait_completes.
  - destruct a as [[[out err] rc]|e]; cbn [completed].
    + destruct (check && negb (rc =? 0)); cbn; repeat constructor.
    + cbn. repeat constructor.
Qed.

(** A command that exits with status 3, run with [check=True]. *)
Lemma run_and_wait_signals_only_after_timeout_witness :
  process_handler.run_and_wait
    (env_exit "" "no device" 3)
    ["adb"; "reboot"] (Some 120%Q) true (empty_world tt)
  = (fst (completed ["adb"; "reboot"] true (Returns ("", "no device", 3))),
     extend (empty_world tt)
       ([ {| ev_call := PopenSpawn ["adb"; "reboot"]; ev_answer := Returns 4000 |};
          {| ev_call := PopenCommunicate 4000 (Some 120%Q);
             ev_answer := Returns ("", "no device", 3) |} ]
        ++ snd (completed ["adb"; "reboot"] true (Returns ("", "no device", 3)))))
  /\ Forall (fun ev => is_signal (ev_call ev) = false)
       ([ {| ev_call := PopenSpawn ["adb"; "reboot"]; ev_answer := Returns 4000 |};
          {| ev_call := PopenCommunicate 4000 (Some 120%Q);
             ev_answer := Returns ("", "no device", 3) |} ]
        ++ snd (completed ["adb"; "reboot"] true (Returns ("", "no device", 3)))).
Proof.
  refine (run_and_wait_signals_only_after_timeout _ ["adb"; "reboot"] (Some 120%Q) true
            (empty_world tt) 4000 (Returns ("", "no device", 3)) eq_refl eq_refl _).
  intros e He. discriminate He.
Defined.

(** ** communication/android.py: the Bluetooth log *)

(** The removal of a file from the phone, with its errors logged as a
    warning, returns and has spawned the [rm] command. *)
Lemma guarded_delete_runs {L} (env : Env) (strip : string -> string) (phone : string)
    (p : Path) (msg : string) (w : World L) :
  let r := try_except (comm_android.delete_file_from_phone env strip phone p)
             (fun _ => log_warning msg) w in
  fst r = Ok tt
  /\ exists a rest,
       trace (snd r)
       = trace w ++ {| ev_call := PopenSpawn (adb_rm phone p); ev_answer := a |} :: rest.
Proof.
  cbv zeta. unfold comm_android.delete_file_from_phone, comm_android._adb.
  change ("adb" :: "-s" :: phone :: ["shell"; "su"; "-c"; "rm"; p]) with (adb_rm phone p).
  destruct (run_and_wait_spawns env (adb_rm phone p) comm_android.default_timeout true w)
    as [rest Hrest].
  pose proof (run_and_wait_finishes env (adb_rm phone p) comm_android.default_timeout true w)
    as Hfin.
  unfold try_except, bind.
  destruct (process_handler.run_and_wait env (adb_rm phone p)
              comm_android.default_timeout true w) as [[cp|e|] w1];
    cbn [fst snd] in *.
  - split; [reflexivity|]. exists (env (trace w) (PopenSpawn (adb_rm phone p))), rest.
    exact Hrest.
  - split; [reflexivity|].
    exists (env (trace w) (PopenSpawn (adb_rm phone p))),
           (rest ++ [{| ev_call := LoggerWarning msg; ev_answer := Returns tt |}]).
    unfold log_warning, log_event. cbn [fst snd trace]. rewrite Hrest.
    now rewrite <- List.app_assoc.
  - now contradiction Hfin.
Qed.

(** X15. [pull_bluetooth_log_to_server] always tries to remove the staged
    copy.  With a log path configured, whatever the adb commands answer,
    the function ends, it never raises [CalledProcessError] (a failed copy
    or pull is logged and the function returns), and by the time it ends
    it has spawned the command that removes the staged copy
    [/sdcard/Download/bluetooth-<device>.log] from the phone. *)
Theorem pull_bluetooth_log_always_removes_staged_copy {L} (env : Env)
    (strip : string -> string) (phone_id device_name : string)
    (experiment_path log_path : Path) (w : World L) :
  let r := comm_android.pull_bluetooth_log_to_server env strip phone_id device_name
             experiment_path (Some log_path) w in
  fst r <> OutOfFuel
  /\ (forall e, fst r = Raise e -> is_called_process_error e = false)
  /\ called_since (PopenSpawn (adb_rm phone_id (staged_bluetooth_log device_name)))
       w (snd r).
Proof.
  cbv zeta. unfold comm_android.pull_bluetooth_log_to_server.
  fold (staged_bluetooth_log device_name).
  match goal with
  | |- context [try_finally ?b ?f w] => set (body := b); set (fin := f)
  end.
  assert (Hfin : finishes body).
  { subst body. repeat first [apply adb_finishes | finishes_step]. }
  assert (Hgrow : respects trace_grows body).
  { subst body. repeat first [apply respects_adb; solve_frame | respects_step]. }
  assert (Hcpe : forall e, fst (body w) = Raise e -> is_called_process_error e = false).
  { subst body. unfold try_except.
    match goal with |- context [match ?m w with _ => _ end] => destruct (m w) as [[a|e'|] w0] end;
      cbn [fst]; try discriminate.
    destruct e'; cbn; intros e He; try discriminate He; now inversion He. }
  specialize (Hfin w). destruct (Hgrow w) as [pre Hpre].
  unfold try_finally.
  destruct (body w) as [rb w1]; cbn [fst snd] in *.
  destruct (guarded_delete_runs env strip phone_id (staged_bluetooth_log device_name)
              "Could not delete staged Bluetooth log on phone" w1) as [Hok [a [rest Hrest]]].
  fold fin in Hok, Hrest.
  destruct (fin w1) as [rf w2]; cbn [fst snd] in *. subst rf.
  assert (Hcalled : called_since
            (PopenSpawn (adb_rm phone_id (staged_bluetooth_log device_name))) w w2).
  { exists pre, a, rest. rewrite Hrest, Hpre. now rewrite <- List.app_assoc. }
  destruct rb as [v|e|]; cbn [fst snd]; try (now contradiction Hfin);
    (split; [discriminate|split; [|exact Hcalled]]).
  - discriminate.
  - exact Hcpe.
Qed.

(** ** communication/android.py: names and regions *)

Lemma substring_whole (t : string) : String.substring 0 (String.length t) t = t.
Proof. induction t as [|c t IH]; cbn; [reflexivity|now rewrite IH]. Qed.

Lemma substring_after (s t : string) :
  String.substring (String.length s) (String.length t) (s +:+ t) = t.
Proof.
  induction s as [|c s IH]; [apply substring_whole|].
  rewrite append_cons. exact IH.
Qed.

Lemma length_append_string (s t : string) :
  String.length (s +:+ t) = (String.length s + String.length t)%nat.
Proof.
  induction s as [|c s IH]; [reflexivity|].
  rewrite append_cons. cbn [String.length]. now rewrite IH.
Qed.

Lemma endswith_append (s t : string) : endswith (s +:+ t) t = true.
Proof.
  unfold endswith. cbv zeta. rewrite length_append_string.
  replace (String.length s + String.length t - String.length t)%nat
    with (String.length s) by lia.
  rewrite substring_after, String.eqb_refl, andb_true_r.
  apply Nat.leb_le. lia.
Qed.

(** X16. [_ensure_pcap_name] gives a name that ends in [.pcap] and leaves
    such a name as it is: applied twice it adds the extension once. *)
Theorem ensure_pcap_name_adds_extension_once (name : string) :
  endswith (comm_android._ensure_pcap_name name) ".pcap" = true
  /\ comm_android._ensure_pcap_name (comm_android._ensure_pcap_name name)
     = comm_android._ensure_pcap_name name.
Proof.
  assert (H : endswith (comm_android._ensure_pcap_name name) ".pcap" = true).
  { unfold comm_android._ensure_pcap_name.
    destruct (endswith name ".pcap") eqn:E; [exact E|apply endswith_append]. }
  split; [exact H|].
  unfold comm_android._ensure_pcap_name at 1. now rewrite H.
Qed.

(** X17. [_resolve_crop_region] never raises and never counts from the
    end of the list: taps are numbered from 1, tap [n] gets the [n]-th
    region, and a tap numbered 0 or below, or beyond the list, gets none,
    as does every tap when there is no list. *)
Theorem resolve_crop_region_is_one_based {L A} (crop_list : option (list A))
    (tap_index : Z) (w : World L) :
  comm_android._resolve_crop_region crop_list tap_index w
  = (Ok (region_of_tap crop_list tap_index), w).
Proof.
  unfold comm_android._resolve_crop_region, region_of_tap.
  destruct crop_list as [[|a l]|]; [| |reflexivity].
  - destruct (tap_index <? 1); [reflexivity|]. now destruct (Z.to_nat (tap_index - 1)).
  - set (l' := a :: l).
    destruct (tap_index <? 1) eqn:E1.
    + apply Z.ltb_lt in E1.
      replace (tap_index - 1 <? 0) with true by (symmetry; apply Z.ltb_lt; lia).
      reflexivity.
    + apply Z.ltb_ge in E1.
      replace (tap_index - 1 <? 0) with false by (symmetry; apply Z.ltb_ge; lia).
      cbn [orb].
      destruct (Z.of_nat (length l') <=? tap_index - 1) eqn:E2.
      * apply Z.leb_le in E2.
        assert (E3 : nth_error l' (Z.to_nat (tap_index - 1)) = None)
          by (apply nth_error_None; lia).
        now rewrite E3.
      * assert (E0 : (tap_index - 1 <? 0) = false) by (apply Z.ltb_ge; lia).
        unfold bind, list_getitem. cbv zeta. rewrite E0. cbv iota.
        rewrite E0, E2. cbn [orb].
        destruct (nth_error l' (Z.to_nat (tap_index - 1))) eqn:E3; [reflexivity|].
        apply nth_error_None in E3. apply Z.leb_gt in E2. lia.
Qed.

(** ** context.py: the ledger is a dictionary of lists *)

Lemma phases_ledger_append (l : Ledger) (phase : string) (entry : Z * bool) :
  phases (context.ledger_append l phase entry) = phases_with l phase.
Proof.
  unfold phases_with, phases. induction l as [|[p results] rest IH]; [reflexivity|].
  cbn [context.ledger_append map fst existsb].
  rewrite (String.eqb_sym phase p).
  destruct (String.eqb p phase); cbn [orb map fst]; [reflexivity|].
  rewrite IH. now destruct (existsb (String.eqb phase) (map fst rest)).
Qed.

Lemma phases_with_NoDup (l : Ledger) (phase : string) :
  List.NoDup (phases l) -> List.NoDup (phases_with l phase).
Proof.
  intros Hnd. unfold phases_with.
  destruct (existsb (String.eqb phase) (phases l)) eqn:E; [exact Hnd|].
  apply List.NoDup_app.
  - exact Hnd.
  - constructor; [intros []|constructor].
  - intros q Hq [<-|[]].
    assert (Ht : existsb (String.eqb phase) (phases l) = true).
    { apply existsb_exists. exists phase. split; [exact Hq|apply String.eqb_refl]. }
    congruence.
Qed.

(** X18. [record_iteration_result] appends to the list of its phase and
    to no other.  The entry comes last among the entries of its phase, the
    entries of every other phase are as they were, the phases keep their
    order with a phase recorded for the first time coming last, and no
    phase comes to appear twice: the summary has one line for each phase,
    in the order in which the phases were first recorded. *)
Theorem record_iteration_result_appends_to_its_phase {L} (phase : string)
    (iteration_index : Z) (success : bool) (w : World L) :
  let w' := snd (context.record_iteration_result phase iteration_index success w) in
  context.ledger_get (ledger w') phase
  = context.ledger_get (ledger w) phase ++ [(iteration_index, success)]
  /\ (forall q, phase <> q ->
        context.ledger_get (ledger w') q = context.ledger_get (ledger w) q)
  /\ phases (ledger w') = phases_with (ledger w) phase
  /\ (List.NoDup (phases (ledger w)) -> List.NoDup (phases (ledger w'))).
Proof.
  cbv zeta. cbn [context.record_iteration_result snd ledger]. repeat split.
  - apply ledger_get_append.
  - intros q Hq. now apply ledger_get_append_other.
  - apply phases_ledger_append.
  - intros Hnd. rewrite phases_ledger_append. now apply phases_with_NoDup.
Qed.

(** ** communication/android.py: the adb helpers *)

(** One adb command whose result is dropped. *)
Lemma adb_command_runs {L} (env : Env) (strip : string -> string) (phone_id : string)
    (adb_args : list string) (timeout : option Q) (w : World L) (proc : Z)
    (out err : string) (rc : Z) :
  env (trace w) (PopenSpawn (adb_command phone_id adb_args)) = Returns proc ->
  env (trace w ++ [{| ev_call := PopenSpawn (adb_command phone_id adb_args);
                      ev_answer := Returns proc |}])
      (PopenCommunicate proc timeout) = Returns (out, err, rc) ->
  (let* _ := comm_android._adb env strip phone_id adb_args timeout in pass) w
  = (fst (adb_outcome (adb_command phone_id adb_args) out err rc),
     extend w ([ {| ev_call := PopenSpawn (adb_command phone_id adb_args);
                    ev_answer := Returns proc |};
                 {| ev_call := PopenCommunicate proc timeout;
                    ev_answer := Returns (out, err, rc) |} ]
               ++ snd (adb_outcome (adb_command phone_id adb_args) out err rc))).
Proof.
  intros Hspawn Hcomm.
  pose proof (run_and_wait_completes env (adb_command phone_id adb_args) timeout true w proc
                (Returns (out, err, rc)) Hspawn Hcomm) as Hrun.
  assert (Hnot : forall e, Returns (out, err, rc) = Raises e -> is_timeout e = false)
    by (intros e He; discriminate He).
  specialize (Hrun Hnot).
  unfold comm_android._adb. fold (adb_command phone_id adb_args).
  unfold bind at 1 2. rewrite Hrun. unfold completed, adb_outcome. cbn [andb].
  now destruct (rc =? 0).
Qed.

(** X19. The adb helpers never pass over a failed command.  Each helper
    runs one command, [adb -s <phone>] followed by its arguments, with a
    timeout of two minutes; when the command exits with status 0 the
    helper returns, and when it exits with any other status the failure is
    logged and the helper raises [CalledProcessError] with the status, the
    command and the output.  In both cases the spawn and the
    [communicate] are the only calls made on the process. *)
Theorem adb_helpers_raise_on_failure {L} (env : Env) (strip : string -> string)
    (phone_id package_name dump_name phone_interface pcapdroid_api_key : string)
    (file_path destination_path : Path) (h : list string * M L unit)
    (w : World L) (proc : Z) (out err : string) (rc : Z) :
  In h (adb_helpers env strip phone_id package_name dump_name phone_interface
          pcapdroid_api_key file_path destination_path) ->
  env (trace w) (PopenSpawn (adb_command phone_id (fst h))) = Returns proc ->
  env (trace w ++ [{| ev_call := PopenSpawn (adb_command phone_id (fst h));
                      ev_answer := Returns proc |}])
      (PopenCommunicate proc (Some 120%Q)) = Returns (out, err, rc) ->
  snd h w
  = (fst (adb_outcome (adb_command phone_id (fst h)) out err rc),
     extend w ([ {| ev_call := PopenSpawn (adb_command phone_id (fst h));
                    ev_answer := Returns proc |};
                 {| ev_call := PopenCommunicate proc (Some 120%Q);
                    ev_answer := Returns (out, err, rc) |} ]
               ++ snd (adb_outcome (adb_command phone_id (fst h)) out err rc))).
Proof.
  intros Hin Hspawn Hcomm. unfold adb_helpers in Hin. cbn [In] in Hin.
  repeat (destruct Hin as [<-|Hin];
          [cbn [fst snd] in *;
           exact (adb_command_runs env strip phone_id _ _ w proc out err rc Hspawn Hcomm)|]).
  contradiction.
Qed.

(** Uninstalling a package that is not installed: adb exits with status 1. *)
Lemma adb_helpers_raise_on_failure_witness :
  comm_android.uninstall_app (env_exit "Failure" "" 1) (fun s => s)
    "emulator-5554" "com.example.app" (empty_world tt)
  = (Raise (CalledProcessError 1 ["adb"; "-s"; "emulator-5554"; "uninstall"; "com.example.app"]
              (Some "Failure") (Some "")),
     extend (empty_world tt)
       [ {| ev_call := PopenSpawn ["adb"; "-s"; "emulator-5554"; "uninstall";
                                   "com.example.app"];
            ev_answer := Returns 4000 |};
         {| ev_call := PopenCommunicate 4000 (Some 120%Q);
            ev_answer := Returns ("Failure", "", 1) |};
         {| ev_call := LoggerError "Command failed"; ev_answer := Returns tt |} ]).
Proof.
  pose proof (adb_helpers_raise_on_failure (env_exit "Failure" "" 1) (fun s => s)
                "emulator-5554" "com.example.app" "dump" "wlan0" "key" "/sdcard/a" "/tmp/a"
                (["uninstall"; "com.example.app"],
                 comm_android.uninstall_app (env_exit "Failure" "" 1) (fun s => s)
                   "emulator-5554" "com.example.app")
                (empty_world tt) 4000 "Failure" "" 1) as H.
  cbn [fst snd] in H. apply H.
  - cbn. right. right. left. reflexivity.
  - reflexivity.
  - reflexivity.
Defined.
